(** * VPN peer registry and gateway agent: a shallow embedding

    The development follows two programs of the repository:

    - [roles/vpn_config_api/files/app/main.py], the central registry (a
      FastAPI application over a PostgreSQL database), embedded in
      [Module Registry];
    - [roles/wg_dashboard/files/gateway-sync.py], the agent that runs on
      every gateway and reconciles the local WireGuard interface with the
      registry, embedded in [Module Agent].

    Library code the programs call is embedded where it decides a result
    ([hashlib.sha256], [base64.b64encode], [str.strip],
    [secrets.compare_digest]); every source of randomness or wall-clock
    time is an explicit argument. *)

From Stdlib Require Import ZArith Lia Ascii String Sorted.
From stdpp Require Import base list strings gmap pretty.

Open Scope Z_scope.

(** ** Python strings as byte sequences *)

Definition byte_of_ascii (c : ascii) : Z := Z.of_N (Ascii.N_of_ascii c).

Definition ascii_of_byte (b : Z) : ascii := Ascii.ascii_of_N (Z.to_N b).

Fixpoint encode (s : string) : list Z :=
  match s with
  | EmptyString => []
  | String c s' => byte_of_ascii c :: encode s'
  end.

Fixpoint decode (bs : list Z) : string :=
  match bs with
  | [] => EmptyString
  | b :: bs' => String (ascii_of_byte b) (decode bs')
  end.

(** [", ".join(xs)] and [",".join(xs)]. *)
Fixpoint join (sep : string) (xs : list string) : string :=
  match xs with
  | [] => ""
  | [x] => x
  | x :: rest => x +:+ sep +:+ join sep rest
  end.

(** [str.strip()]: whitespace removed at both ends. *)
Definition is_space (c : ascii) : bool :=
  let n := byte_of_ascii c in
  (n =? 32) || ((9 <=? n) && (n <=? 13)).

Fixpoint lstrip (s : string) : string :=
  match s with
  | EmptyString => EmptyString
  | String c s' => if is_space c then lstrip s' else s
  end.

Fixpoint rstrip (s : string) : string :=
  match s with
  | EmptyString => EmptyString
  | String c s' =>
      match rstrip s' with
      | EmptyString => if is_space c then EmptyString else String c EmptyString
      | t => String c t
      end
  end.

Definition strip (s : string) : string := rstrip (lstrip s).

(** [sep in s], for a one-character [sep]. *)
Fixpoint has_char (sep : ascii) (s : string) : bool :=
  match s with
  | EmptyString => false
  | String c s' => Ascii.eqb c sep || has_char sep s'
  end.

(** [s.split(sep)], for a one-character [sep]: the empty string splits
    into one empty string. *)
Fixpoint str_split (sep : ascii) (s : string) : list string :=
  match s with
  | EmptyString => [EmptyString]
  | String c s' =>
      if Ascii.eqb c sep then EmptyString :: str_split sep s'
      else
        match str_split sep s' with
        | [] => [String c EmptyString]
        | x :: rest => String c x :: rest
        end
  end.

(** [s.split(sep, 1)] when it has two elements, that is when [sep] is in
    [s]: what stands before the first [sep] and what stands after it. *)
Fixpoint str_split_once (sep : ascii) (s : string) : option (string * string) :=
  match s with
  | EmptyString => None
  | String c s' =>
      if Ascii.eqb c sep then Some (EmptyString, s')
      else
        match str_split_once sep s' with
        | Some (before, after) => Some (String c before, after)
        | None => None
        end
  end.


Definition TAB : ascii := Eval vm_compute in ascii_of_byte 9.
Definition LF : ascii := Eval vm_compute in ascii_of_byte 10.

(** A field of a line of text: not empty and free of whitespace (blanks,
    tabs, line ends). *)
Fixpoint no_space (s : string) : bool :=
  match s with
  | EmptyString => true
  | String c s' => negb (is_space c) && no_space s'
  end.

Definition plain (s : string) : bool :=
  negb (bool_decide (s = EmptyString)) && no_space s.

(** Text that [strip] leaves as it is and that is not empty: no
    whitespace at either end. *)
Definition trimmed (s : string) : Prop :=
  match s with
  | EmptyString => False
  | String c _ => is_space c = false /\ rstrip s = s
  end.

(** ** [hashlib.sha256(...).hexdigest()] *)

Module Hashlib.

Definition w32 : Z := 2 ^ 32.

Definition add32 (a b : Z) : Z := (a + b) mod w32.

Definition rotr (n x : Z) : Z :=
  Z.lor (Z.shiftr x n) ((Z.shiftl x (32 - n)) mod w32).

Definition not32 (x : Z) : Z := w32 - 1 - x.

Definition Ch (x y z : Z) : Z := Z.lxor (Z.land x y) (Z.land (not32 x) z).
Definition Maj (x y z : Z) : Z :=
  Z.lxor (Z.lxor (Z.land x y) (Z.land x z)) (Z.land y z).
Definition Sigma0 (x : Z) : Z := Z.lxor (Z.lxor (rotr 2 x) (rotr 13 x)) (rotr 22 x).
Definition Sigma1 (x : Z) : Z := Z.lxor (Z.lxor (rotr 6 x) (rotr 11 x)) (rotr 25 x).
Definition sigma0 (x : Z) : Z := Z.lxor (Z.lxor (rotr 7 x) (rotr 18 x)) (Z.shiftr x 3).
Definition sigma1 (x : Z) : Z := Z.lxor (Z.lxor (rotr 17 x) (rotr 19 x)) (Z.shiftr x 10).

(** The round constants are the fractional parts of the cube roots of
    the first 64 primes, the initial state those of the square roots of
    the first 8; both are computed rather than tabulated. *)
Definition is_prime (n : Z) : bool :=
  forallb (fun d => negb (n mod d =? 0)) (seqZ 2 (Z.sqrt n - 1)).

Definition primes64 : list Z := filter (fun n => is_prime n = true) (seqZ 2 310).

Definition cube_root (n : Z) : Z :=
  fold_left (fun r b => let r' := r + 2 ^ b in if r' * r' * r' <=? n then r' else r)
            (rev (seqZ 0 36)) 0.

Definition round_constants : list Z :=
  Eval vm_compute in map (fun p => cube_root (p * 2 ^ 96) mod w32) primes64.

Definition initial_state : list Z :=
  Eval vm_compute in map (fun p => Z.sqrt (p * 2 ^ 64) mod w32) (take 8 primes64).

(** Padding: a [0x80] byte, zeros, and the bit length on 8 bytes. *)
Definition be_bytes (width : nat) (x : Z) : list Z :=
  map (fun i => (Z.shiftr x (8 * Z.of_nat i)) mod 256) (rev (seq 0 width)).

Definition pad (msg : list Z) : list Z :=
  let len := Z.of_nat (length msg) in
  let zeros := Z.to_nat ((55 - len) mod 64) in
  msg ++ [128] ++ replicate zeros 0 ++ be_bytes 8 (8 * len).

Fixpoint words (bs : list Z) : list Z :=
  match bs with
  | a :: b :: c :: d :: rest => (((a * 256 + b) * 256 + c) * 256 + d) :: words rest
  | _ => []
  end.

Fixpoint chunks {A} (fuel n : nat) (l : list A) : list (list A) :=
  match fuel, l with
  | O, _ | _, [] => []
  | S fuel', _ => take n l :: chunks fuel' n (drop n l)
  end.

(** The message schedule, most recent word first. *)
Definition extend (w : list Z) : list Z :=
  let get i := w !!! i in
  add32 (add32 (sigma1 (get 1%nat)) (get 6%nat))
        (add32 (sigma0 (get 14%nat)) (get 15%nat)) :: w.

Definition schedule (block : list Z) : list Z :=
  rev (Nat.iter 48 extend (rev block)).

Definition round (st : list Z) (kw : Z * Z) : list Z :=
  match st with
  | [a; b; c; d; e; f; g; h] =>
      let t1 := add32 (add32 (add32 h (Sigma1 e)) (add32 (Ch e f g) kw.1)) kw.2 in
      let t2 := add32 (Sigma0 a) (Maj a b c) in
      [add32 t1 t2; a; b; c; add32 d t1; e; f; g]
  | _ => st
  end.

Definition compress (st block : list Z) : list Z :=
  zip_with add32 st (fold_left round (zip round_constants (schedule block)) st).

Definition digest (msg : list Z) : list Z :=
  let p := words (pad msg) in
  fold_left compress (chunks (length p) 16 p) initial_state.

Definition hex_digit (n : Z) : ascii :=
  ascii_of_byte (if n <? 10 then 48 + n else 87 + n).

Definition hex32 (x : Z) : string :=
  fold_right (fun i acc => String (hex_digit ((Z.shiftr x (4 * Z.of_nat i)) mod 16)) acc)
             EmptyString (rev (seq 0 8)).

Definition sha256_hexdigest (s : string) : string :=
  fold_right (fun w acc => hex32 w +:+ acc) EmptyString (digest (encode s)).

End Hashlib.

(** ** [base64.b64encode] *)

Module Base64.

Definition alphabet : string :=
  "ABCDEFGHIJKLMNOPQRSTUVWXYZabcdefghijklmnopqrstuvwxyz0123456789+/".

Definition sextet (n : Z) : ascii :=
  default "="%char (String.get (Z.to_nat n) alphabet).

Fixpoint b64encode (bs : list Z) : string :=
  match bs with
  | [] => ""
  | [a] =>
      String (sextet (a / 4)) (String (sextet (a mod 4 * 16)) "==")
  | [a; b] =>
      String (sextet (a / 4))
        (String (sextet (a mod 4 * 16 + b / 16))
           (String (sextet (b mod 16 * 4)) "="))
  | a :: b :: c :: rest =>
      String (sextet (a / 4))
        (String (sextet (a mod 4 * 16 + b / 16))
           (String (sextet (b mod 16 * 4 + c / 64))
              (String (sextet (c mod 64)) (b64encode rest))))
  end.

End Base64.

(** ** IPv4 addresses and networks *)

Definition ipv4 := Z.

Definition ip4 (a b c d : Z) : ipv4 := ((a * 256 + b) * 256 + c) * 256 + d.

Definition ip_to_string (a : ipv4) : string :=
  pretty (a / 16777216 mod 256) +:+ "." +:+ pretty (a / 65536 mod 256) +:+ "."
  +:+ pretty (a / 256 mod 256) +:+ "." +:+ pretty (a mod 256).

Record cidr := { network_address : ipv4; prefixlen : Z }.

Definition num_addresses (n : cidr) : Z := 2 ^ (32 - prefixlen n).

Definition broadcast_address (n : cidr) : ipv4 :=
  network_address n + num_addresses n - 1.

(** The addresses of a network strictly between its network address and
    its broadcast address, in increasing order. *)
Definition hosts (n : cidr) : list ipv4 :=
  seqZ (network_address n + 1) (num_addresses n - 2).

(** ** Ordering rows, as [ORDER BY] does *)

Section OrderBy.
Context {A : Type} (key : A -> Z).

Fixpoint insert_by (x : A) (l : list A) : list A :=
  match l with
  | [] => [x]
  | y :: l' => if key x <=? key y then x :: y :: l' else y :: insert_by x l'
  end.

Definition order_by (l : list A) : list A := foldr insert_by [] l.
End OrderBy.

(** * The registry ([main.py]) *)

Module Registry.

(** ** Exceptions and responses *)

Inductive exn :=
| HTTPException (status_code : Z) (detail : string)
| TypeError (msg : string)
| ModuleNotFoundError (name : string)
| PostgresError (msg : string).

Inductive reply (A : Type) :=
| Ok (a : A)
| Raise (e : exn).
Arguments Ok {A} a.
Arguments Raise {A} e.

(** FastAPI answers an [HTTPException] with its status code and any
    other uncaught exception with 500. *)
Definition status_of {A} (r : reply A) : Z :=
  match r with
  | Ok _ => 200
  | Raise (HTTPException s _) => s
  | Raise _ => 500
  end.

(** ** Models (request bodies) *)

Record awg_params := {
  awg_jc : option Z; awg_jmin : option Z; awg_jmax : option Z;
  awg_s1 : option Z; awg_s2 : option Z;
  awg_h1 : option Z; awg_h2 : option Z; awg_h3 : option Z; awg_h4 : option Z }.

Module ServerRegistration.
Record t := {
  hostname : string;
  public_ip : string;
  private_ip : option string;
  region : string;
  country_code : string;
  city : option string;
  protocol : string;
  listen_port : Z;
  public_key : string;
  max_peers : Z;
  awg : awg_params }.
End ServerRegistration.

Module PeerCreate.
Record t := {
  name : string;
  email : option string;
  device_name : option string;
  device_type : option string;
  public_key : string;
  allowed_ips : list string;
  dns_servers : list string;
  persistent_keepalive : Z;
  mtu : Z;
  expires_days : option Z;
  notes : option string }.
End PeerCreate.

Module ConfigCreate.
Record t := {
  name : string;
  email : option string;
  device_name : option string;
  device_type : option string;
  server_id : option string;
  region : option string;
  allowed_ips : list string;
  dns_servers : list string;
  expires_days : option Z;
  notes : option string }.
End ConfigCreate.

Module ConfigCreateResponse.
Record t := {
  peer_id : string;
  name : string;
  config : string;
  private_key : string;
  public_key : string;
  assigned_ip : string;
  server_endpoint : string;
  server_public_key : string;
  qr_code : option string;
  client_token : string }.
End ConfigCreateResponse.

(** ** Database rows

    The schema is not part of the sources; the columns are those the
    queries of [main.py] name.  Timestamps are seconds, row ids are the
    strings the handlers receive and return. *)

Module Server.
Record row := {
  id : string;
  hostname : string;
  public_ip : string;
  private_ip : option string;
  region : string;
  country_code : string;
  city : option string;
  protocol : string;
  listen_port : Z;
  public_key : string;
  max_peers : Z;
  awg : awg_params;
  status : string;
  updated_at : Z }.

(** [SET updated_at = t]. *)
Definition set_updated_at (t : Z) (r : row) : row :=
  {| id := id r; hostname := hostname r; public_ip := public_ip r;
     private_ip := private_ip r; region := region r; country_code := country_code r;
     city := city r; protocol := protocol r; listen_port := listen_port r;
     public_key := public_key r; max_peers := max_peers r; awg := awg r;
     status := status r; updated_at := t |}.
End Server.

Module Pool.
Record row := {
  server_id : string;
  network : cidr;
  gateway : ipv4 }.
End Pool.

Module Peer.
Record row := {
  id : string;
  server_id : string;
  name : string;
  email : option string;
  device_name : option string;
  device_type : option string;
  public_key : string;
  allowed_ips : list string;
  assigned_ip : ipv4;
  dns_servers : list string;
  persistent_keepalive : Z;
  mtu : Z;
  expires_at : option Z;
  notes : option string;
  api_token_hash : string;
  enabled : bool;
  created_at : Z;
  last_handshake : option Z;
  total_rx_bytes : Z;
  total_tx_bytes : Z }.

(** [SET enabled = b]. *)
Definition set_enabled (b : bool) (p : row) : row :=
  {| id := id p; server_id := server_id p; name := name p; email := email p;
     device_name := device_name p; device_type := device_type p;
     public_key := public_key p; allowed_ips := allowed_ips p;
     assigned_ip := assigned_ip p; dns_servers := dns_servers p;
     persistent_keepalive := persistent_keepalive p; mtu := mtu p;
     expires_at := expires_at p; notes := notes p;
     api_token_hash := api_token_hash p; enabled := b;
     created_at := created_at p; last_handshake := last_handshake p;
     total_rx_bytes := total_rx_bytes p; total_tx_bytes := total_tx_bytes p |}.

(** [SET last_handshake = COALESCE($1, last_handshake),
        total_rx_bytes = total_rx_bytes + $2,
        total_tx_bytes = total_tx_bytes + $3]. *)
Definition set_status (handshake : option Z) (rx tx : Z) (p : row) : row :=
  {| id := id p; server_id := server_id p; name := name p; email := email p;
     device_name := device_name p; device_type := device_type p;
     public_key := public_key p; allowed_ips := allowed_ips p;
     assigned_ip := assigned_ip p; dns_servers := dns_servers p;
     persistent_keepalive := persistent_keepalive p; mtu := mtu p;
     expires_at := expires_at p; notes := notes p;
     api_token_hash := api_token_hash p; enabled := enabled p;
     created_at := created_at p;
     last_handshake :=
       match handshake with Some t => Some t | None => last_handshake p end;
     total_rx_bytes := total_rx_bytes p + rx;
     total_tx_bytes := total_tx_bytes p + tx |}.
End Peer.

Record db := {
  vpn_servers : list Server.row;
  ip_pools : list Pool.row;
  vpn_peers : list Peer.row }.

Definition with_servers (l : list Server.row) (d : db) : db :=
  {| vpn_servers := l; ip_pools := ip_pools d; vpn_peers := vpn_peers d |}.
Definition with_pools (l : list Pool.row) (d : db) : db :=
  {| vpn_servers := vpn_servers d; ip_pools := l; vpn_peers := vpn_peers d |}.
Definition with_peers (l : list Peer.row) (d : db) : db :=
  {| vpn_servers := vpn_servers d; ip_pools := ip_pools d; vpn_peers := l |}.

(** ** Handlers as database programs

    A handler acquires a connection and runs its statements one after
    the other; [main.py] opens no transaction, so every statement is
    committed on its own.  A program therefore returns the database as
    its statements left it, also when it ends in an exception. *)

Definition App (A : Type) : Type := db -> reply A * db.

Definition ret {A} (a : A) : App A := fun d => (Ok a, d).
Definition raise {A} (e : exn) : App A := fun d => (Raise e, d).
Definition bind {A B} (m : App A) (k : A -> App B) : App B :=
  fun d =>
    match m d with
    | (Ok a, d') => k a d'
    | (Raise e, d') => (Raise e, d')
    end.
Definition query {A} (q : db -> A) : App A := fun d => (Ok (q d), d).
Definition execute (f : db -> db) : App unit := fun d => (Ok tt, f d).
Definition lift {A} (r : reply A) : App A := fun d => (r, d).

Declare Scope app_scope.
Delimit Scope app_scope with app.
Notation "x <- m ;; k" := (bind m (fun x => k))
  (at level 100, m at next level, right associativity) : app_scope.
Local Open Scope app_scope.

(** [fetchrow]: the first row of the result, if any. *)
Definition fetchrow {A} (P : A -> bool) (rows : list A) : option A :=
  List.find P rows.

Definition eqs (a b : string) : bool := bool_decide (a = b).

(** ** The host the registry runs on

    [subprocess.run] either fails to find the program
    ([FileNotFoundError]) or returns a completed process; the
    [cryptography] package may or may not be importable; a fresh X25519
    key is the raw private bytes with the raw public bytes derived from
    them; [qrcode] renders a PNG or raises. *)

Inductive completed :=
| FileNotFoundError
| CompletedProcess (returncode : Z) (stdout : string).

Record host := {
  subprocess_run : list string -> option string -> completed;
  cryptography_installed : bool;
  X25519PrivateKey_generate : list Z * list Z;
  qrcode_png : string -> option (list Z) }.

(** ** WireGuard key generation *)

(** The second component lists the commands for which a process was
    started, in order. *)
Definition generate_wireguard_keypair (h : host)
  : reply (string * string) * list (list string) :=
  let fallback spawned :=
    if cryptography_installed h then
      let '(private_key_bytes, public_key_bytes) := X25519PrivateKey_generate h in
      (Ok (Base64.b64encode private_key_bytes, Base64.b64encode public_key_bytes),
       spawned)
    else (Raise (ModuleNotFoundError "cryptography"), spawned) in
  match subprocess_run h ["wg"; "genkey"] None with
  | FileNotFoundError => fallback []
  | CompletedProcess rc out =>
      if rc =? 0 then
        let private_key := strip out in
        match subprocess_run h ["wg"; "pubkey"] (Some private_key) with
        | FileNotFoundError => fallback [["wg"; "genkey"]]
        | CompletedProcess rc' out' =>
            if rc' =? 0 then
              (Ok (private_key, strip out'), [["wg"; "genkey"]; ["wg"; "pubkey"]])
            else
              (Raise (HTTPException 500 "Key generation failed"),
               [["wg"; "genkey"]; ["wg"; "pubkey"]])
        end
      else (Raise (HTTPException 500 "Key generation failed"), [["wg"; "genkey"]])
  end.

Definition generate_qr_code (h : host) (config : string) : option string :=
  match qrcode_png h config with
  | Some png => Some (Base64.b64encode png)
  | None => None
  end.

Definition nl : string := String (ascii_of_byte 10) EmptyString.

(** An f-string field holding an optional integer: [None] prints as
    such. *)
Definition fmt (o : option Z) : string :=
  match o with Some z => pretty z | None => "None" end.

Definition truthy (o : option string) : bool :=
  match o with Some s => negb (bool_decide (s = "")) | None => false end.

Definition build_wireguard_config
    (private_key address : string) (dns : list string)
    (server_public_key endpoint : string) (allowed_ips : list string)
    (persistent_keepalive mtu : Z) (preshared_key : option string)
    (awg : awg_params) : string :=
  let config :=
    "[Interface]" +:+ nl +:+
    "PrivateKey = " +:+ private_key +:+ nl +:+
    "Address = " +:+ address +:+ nl +:+
    "DNS = " +:+ join ", " dns +:+ nl +:+
    "MTU = " +:+ pretty mtu +:+ nl +:+
    nl +:+
    "[Peer]" +:+ nl +:+
    "PublicKey = " +:+ server_public_key +:+ nl +:+
    "Endpoint = " +:+ endpoint +:+ nl +:+
    "AllowedIPs = " +:+ join ", " allowed_ips +:+ nl +:+
    "PersistentKeepalive = " +:+ pretty persistent_keepalive +:+ nl in
  let config :=
    if truthy preshared_key
    then config +:+ "PresharedKey = " +:+ default "" preshared_key +:+ nl
    else config in
  match awg_jc awg with
  | Some _ =>
      config +:+ nl +:+
      "# AmneziaWG Obfuscation" +:+ nl +:+
      "Jc = " +:+ fmt (awg_jc awg) +:+ nl +:+
      "Jmin = " +:+ fmt (awg_jmin awg) +:+ nl +:+
      "Jmax = " +:+ fmt (awg_jmax awg) +:+ nl +:+
      "S1 = " +:+ fmt (awg_s1 awg) +:+ nl +:+
      "S2 = " +:+ fmt (awg_s2 awg) +:+ nl +:+
      "H1 = " +:+ fmt (awg_h1 awg) +:+ nl +:+
      "H2 = " +:+ fmt (awg_h2 awg) +:+ nl +:+
      "H3 = " +:+ fmt (awg_h3 awg) +:+ nl +:+
      "H4 = " +:+ fmt (awg_h4 awg) +:+ nl
  | None => config
  end.

(** ** Authentication *)

Definition is_ascii (s : string) : bool := forallb (fun b => b <? 128) (encode s).

(** [secrets.compare_digest] on two [str] values raises [TypeError]
    unless both are ASCII. *)
Definition compare_digest (a b : string) : reply bool :=
  if is_ascii a && is_ascii b then Ok (eqs a b)
  else Raise (TypeError "comparing strings with non-ASCII characters is not supported").

Definition verify_gateway_token (GATEWAY_TOKENS : gmap string string)
    (x_gateway_id x_gateway_token : string) : reply string :=
  match GATEWAY_TOKENS !! x_gateway_id with
  | None => Raise (HTTPException 401 "Unknown gateway")
  | Some expected =>
      match compare_digest expected x_gateway_token with
      | Raise e => Raise e
      | Ok false => Raise (HTTPException 401 "Invalid token")
      | Ok true => Ok x_gateway_id
      end
  end.

(** The columns [verify_client_token] selects: id, server_id, enabled. *)
Definition verify_client_token (token : string) : App (string * string * bool) :=
  let token_hash := Hashlib.sha256_hexdigest token in
  peer <- query (fun d =>
            fetchrow (fun p => eqs (Peer.api_token_hash p) token_hash) (vpn_peers d)) ;;
  match peer with
  | None => raise (HTTPException 401 "Invalid token")
  | Some peer =>
      if Peer.enabled peer
      then ret (Peer.id peer, Peer.server_id peer, Peer.enabled peer)
      else raise (HTTPException 403 "Peer disabled")
  end.

(** [gateway_id: str = Depends(verify_gateway_token)]. *)
Definition gateway_endpoint {A} (GATEWAY_TOKENS : gmap string string)
    (x_gateway_id x_gateway_token : string) (handler : string -> App A) : App A :=
  gateway_id <- lift (verify_gateway_token GATEWAY_TOKENS x_gateway_id x_gateway_token) ;;
  handler gateway_id.

(** [if x_admin_key != os.getenv("ADMIN_API_KEY", "")]. *)
Definition admin_endpoint {A} (ADMIN_API_KEY x_admin_key : string)
    (handler : App A) : App A :=
  if eqs x_admin_key ADMIN_API_KEY then handler
  else raise (HTTPException 401 "Invalid admin key").

(** ** Gateway endpoints *)

(** [DO UPDATE SET ...]: region, country_code and city are not among the
    updated columns. *)
Definition excluded (server : ServerRegistration.t) (now : Z) (r : Server.row)
  : Server.row :=
  {| Server.id := Server.id r;
     Server.hostname := Server.hostname r;
     Server.public_ip := ServerRegistration.public_ip server;
     Server.private_ip := ServerRegistration.private_ip server;
     Server.region := Server.region r;
     Server.country_code := Server.country_code r;
     Server.city := Server.city r;
     Server.protocol := ServerRegistration.protocol server;
     Server.listen_port := ServerRegistration.listen_port server;
     Server.public_key := ServerRegistration.public_key server;
     Server.max_peers := ServerRegistration.max_peers server;
     Server.awg := ServerRegistration.awg server;
     Server.status := Server.status r;
     Server.updated_at := now |}.

(** Modelled from the spec: the column defaults of [vpn_servers], whose
    declaration is not in the sources.  A registered gateway is [active];
    [fresh_id] is the id the database gives the new row. *)
Definition inserted (server : ServerRegistration.t) (now : Z) (fresh_id : string)
  : Server.row :=
  {| Server.id := fresh_id;
     Server.hostname := ServerRegistration.hostname server;
     Server.public_ip := ServerRegistration.public_ip server;
     Server.private_ip := ServerRegistration.private_ip server;
     Server.region := ServerRegistration.region server;
     Server.country_code := ServerRegistration.country_code server;
     Server.city := ServerRegistration.city server;
     Server.protocol := ServerRegistration.protocol server;
     Server.listen_port := ServerRegistration.listen_port server;
     Server.public_key := ServerRegistration.public_key server;
     Server.max_peers := ServerRegistration.max_peers server;
     Server.awg := ServerRegistration.awg server;
     Server.status := "active";
     Server.updated_at := now |}.

(** [ON CONFLICT (hostname) DO UPDATE]: the row that holds the hostname
    is rewritten in place. *)
Fixpoint on_conflict_update (hostname : string) (f : Server.row -> Server.row)
    (rows : list Server.row) : option (list Server.row * Server.row) :=
  match rows with
  | [] => None
  | r :: rest =>
      if eqs (Server.hostname r) hostname then Some (f r :: rest, f r)
      else
        match on_conflict_update hostname f rest with
        | Some (rest', r') => Some (r :: rest', r')
        | None => None
        end
  end.

Definition upsert_server (server : ServerRegistration.t) (now : Z)
    (fresh_id : string) : App Server.row :=
  fun d =>
    match on_conflict_update (ServerRegistration.hostname server)
            (excluded server now) (vpn_servers d) with
    | Some (rows, r) => (Ok r, with_servers rows d)
    | None =>
        let r := inserted server now fresh_id in
        (Ok r, with_servers (vpn_servers d ++ [r]) d)
    end.

Definition default_network : cidr :=
  {| network_address := ip4 10 66 66 0; prefixlen := 24 |}.
Definition default_gateway : ipv4 := ip4 10 66 66 1.

Definition same_network (a b : cidr) : bool :=
  (network_address a =? network_address b) && (prefixlen a =? prefixlen b).

(** A row of [ip_pools] with this server and the network 10.66.66.0/24
    exists. *)
Definition has_default_pool (server_id : string) (d : db) : bool :=
  existsb (fun p => eqs (Pool.server_id p) server_id
                    && same_network (Pool.network p) default_network)
          (ip_pools d).

(** [INSERT INTO ip_pools ... ON CONFLICT (server_id, network) DO NOTHING]. *)
Definition insert_pool_do_nothing (server_id : string) : App unit :=
  execute (fun d =>
    if has_default_pool server_id d
    then d
    else with_pools (ip_pools d ++
                       [{| Pool.server_id := server_id;
                           Pool.network := default_network;
                           Pool.gateway := default_gateway |}]) d).

Definition register_gateway (server : ServerRegistration.t) (gateway_id : string)
    (now : Z) (fresh_id : string) : App (string * string) :=
  result <- upsert_server server now fresh_id ;;
  _ <- insert_pool_do_nothing (Server.id result) ;;
  ret (Server.id result, Server.hostname result).

Module PulledPeer.
Record t := {
  id : string;
  name : string;
  public_key : string;
  assigned_ip : ipv4;
  allowed_ips : list string;
  dns_servers : list string;
  persistent_keepalive : Z;
  mtu : Z;
  enabled : bool }.
End PulledPeer.

Definition pulled (p : Peer.row) : PulledPeer.t :=
  {| PulledPeer.id := Peer.id p;
     PulledPeer.name := Peer.name p;
     PulledPeer.public_key := Peer.public_key p;
     PulledPeer.assigned_ip := Peer.assigned_ip p;
     PulledPeer.allowed_ips := Peer.allowed_ips p;
     PulledPeer.dns_servers := Peer.dns_servers p;
     PulledPeer.persistent_keepalive := Peer.persistent_keepalive p;
     PulledPeer.mtu := Peer.mtu p;
     PulledPeer.enabled := Peer.enabled p |}.

Definition server_by_hostname (gateway_id : string) : App (option Server.row) :=
  query (fun d => fetchrow (fun s => eqs (Server.hostname s) gateway_id) (vpn_servers d)).

Definition peers_of (server_id : string) (d : db) : list Peer.row :=
  List.filter (fun p => eqs (Peer.server_id p) server_id) (vpn_peers d).

Definition get_gateway_peers (gateway_id : string) : App (list PulledPeer.t) :=
  server <- server_by_hostname gateway_id ;;
  match server with
  | None => raise (HTTPException 404 "Gateway not registered")
  | Some server =>
      peers <- query (fun d => order_by Peer.created_at (peers_of (Server.id server) d)) ;;
      ret (map pulled peers)
  end.

(** Modelled from the spec: [allocate_ip], an SQL function of the schema
    that is not in the sources.  "Allocation policy: lowest available
    address in the pool, excluding the pool's reserved gateway address
    and any network/broadcast address"; it "fails with Exhausted when no
    free address remains in any pool owned by the target gateway".  An
    address is available when no row of [vpn_peers] of that gateway
    holds it, so deleting the row releases it. *)
Definition address_free (d : db) (server_id : string) (pool : Pool.row)
    (a : ipv4) : bool :=
  negb (a =? Pool.gateway pool)
  && negb (existsb (fun p => Peer.assigned_ip p =? a) (peers_of server_id d)).

Definition lowest_free (d : db) (server_id : string) (pool : Pool.row)
  : option ipv4 :=
  List.find (address_free d server_id pool) (hosts (Pool.network pool)).

Fixpoint first_free (d : db) (server_id : string) (pools : list Pool.row)
  : option ipv4 :=
  match pools with
  | [] => None
  | pool :: rest =>
      match lowest_free d server_id pool with
      | Some a => Some a
      | None => first_free d server_id rest
      end
  end.

Definition pools_of (server_id : string) (d : db) : list Pool.row :=
  List.filter (fun p => eqs (Pool.server_id p) server_id) (ip_pools d).

Definition allocate_ip (server_id : string) : App ipv4 :=
  fun d =>
    match first_free d server_id (pools_of server_id d) with
    | Some a => (Ok a, d)
    | None => (Raise (PostgresError "Exhausted"), d)
    end.

Section Schema.

(** The constraints the schema declares on [vpn_peers] (keys, unique
    and not-null columns) are not in the sources: an [INSERT] is
    accepted or refused by them. *)
Variable peer_constraints : list Peer.row -> Peer.row -> bool.

Definition insert_peer (p : Peer.row) : App Peer.row :=
  fun d =>
    if peer_constraints (vpn_peers d) p
    then (Ok p, with_peers (vpn_peers d ++ [p]) d)
    else (Raise (PostgresError "constraint violation on vpn_peers"), d).

(** [datetime.utcnow() + timedelta(days=n)], when [n] is truthy. *)
Definition expiry (utcnow : Z) (expires_days : option Z) : option Z :=
  match expires_days with
  | Some n => if n =? 0 then None else Some (utcnow + 86400 * n)
  | None => None
  end.

(** Modelled from the spec: the column defaults of [vpn_peers] (a
    created peer is enabled, its counters start at zero and it has no
    handshake yet). *)
Definition new_peer (fresh_id server_id name : string)
    (email device_name device_type : option string) (public_key : string)
    (allowed_ips : list string) (assigned_ip : ipv4) (dns_servers : list string)
    (persistent_keepalive mtu : Z) (expires_at : option Z)
    (notes : option string) (api_token_hash : string) (now : Z) : Peer.row :=
  {| Peer.id := fresh_id; Peer.server_id := server_id; Peer.name := name;
     Peer.email := email; Peer.device_name := device_name;
     Peer.device_type := device_type; Peer.public_key := public_key;
     Peer.allowed_ips := allowed_ips; Peer.assigned_ip := assigned_ip;
     Peer.dns_servers := dns_servers;
     Peer.persistent_keepalive := persistent_keepalive; Peer.mtu := mtu;
     Peer.expires_at := expires_at; Peer.notes := notes;
     Peer.api_token_hash := api_token_hash; Peer.enabled := true;
     Peer.created_at := now; Peer.last_handshake := None;
     Peer.total_rx_bytes := 0; Peer.total_tx_bytes := 0 |}.

(** [utcnow] is the clock, [token_urlsafe] the value of
    [secrets.token_urlsafe(32)], [fresh_id] the id the database gives
    the new row.  The response is (peer_id, assigned_ip,
    client_token). *)
Definition create_peer (peer : PeerCreate.t) (gateway_id : string)
    (utcnow : Z) (token_urlsafe fresh_id : string)
  : App (string * string * string) :=
  server <- server_by_hostname gateway_id ;;
  match server with
  | None => raise (HTTPException 404 "Gateway not registered")
  | Some server =>
      assigned_ip <- allocate_ip (Server.id server) ;;
      let client_token := token_urlsafe in
      let token_hash := Hashlib.sha256_hexdigest client_token in
      let expires_at := expiry utcnow (PeerCreate.expires_days peer) in
      result <- insert_peer
                  (new_peer fresh_id (Server.id server) (PeerCreate.name peer)
                     (PeerCreate.email peer) (PeerCreate.device_name peer)
                     (PeerCreate.device_type peer) (PeerCreate.public_key peer)
                     (PeerCreate.allowed_ips peer) assigned_ip
                     (PeerCreate.dns_servers peer)
                     (PeerCreate.persistent_keepalive peer) (PeerCreate.mtu peer)
                     expires_at (PeerCreate.notes peer) token_hash utcnow) ;;
      ret (Peer.id result, ip_to_string (Peer.assigned_ip result), client_token)
  end.

(** [UPDATE vpn_peers SET ... WHERE id = $4].  A [peer_id] that is the
    id of no row updates nothing (were the column of a type that the
    string does not parse as, the statement would fail instead, with no
    row updated either). *)
Definition sync_peer_status (peer_id : string) (last_handshake : option Z)
    (rx_bytes tx_bytes : Z) (gateway_id : string) : App string :=
  _ <- execute (fun d =>
         with_peers
           (map (fun p => if eqs (Peer.id p) peer_id
                          then Peer.set_status last_handshake rx_bytes tx_bytes p
                          else p)
                (vpn_peers d)) d) ;;
  ret "synced".

(** ** Client endpoint *)

(** [generate_peer_config] is an SQL function of the schema, not in
    the sources; it is taken as given. *)
Variable generate_peer_config : db -> string -> option string.

Definition get_client_config (token : string) : App string :=
  peer <- verify_client_token token ;;
  config <- query (fun d => generate_peer_config d peer.1.1) ;;
  if truthy config then ret (default "" config)
  else raise (HTTPException 404 "Config not found").

(** ** Provisioning endpoints *)

Definition active (s : Server.row) : bool := eqs (Server.status s) "active".

Definition peer_count (d : db) (s : Server.row) : Z :=
  Z.of_nat (length (peers_of (Server.id s) d)).

(** [GROUP BY s.id ORDER BY COUNT(p.id) ASC LIMIT 1]. *)
Definition least_loaded (d : db) (candidates : list Server.row)
  : option Server.row :=
  head (order_by (peer_count d) candidates).

Definition select_server (config_req : ConfigCreate.t) : App (option Server.row) :=
  if truthy (ConfigCreate.server_id config_req) then
    query (fun d =>
      fetchrow (fun s => eqs (Server.id s) (default "" (ConfigCreate.server_id config_req))
                         && active s)
               (vpn_servers d))
  else if truthy (ConfigCreate.region config_req) then
    query (fun d =>
      least_loaded d
        (List.filter (fun s => active s
                        && eqs (Server.region s)
                               (default "" (ConfigCreate.region config_req)))
                     (vpn_servers d)))
  else
    query (fun d => least_loaded d (List.filter active (vpn_servers d))).

Definition create_vpn_config (ADMIN_API_KEY : string) (config_req : ConfigCreate.t)
    (x_admin_key : string) (h : host)
    (utcnow : Z) (token_urlsafe fresh_id : string)
  : App ConfigCreateResponse.t :=
  admin_endpoint ADMIN_API_KEY x_admin_key (
    server <- select_server config_req ;;
    match server with
    | None => raise (HTTPException 404 "No available servers")
    | Some server =>
        keys <- lift (generate_wireguard_keypair h).1 ;;
        let '(private_key, public_key) := keys in
        assigned_ip <- allocate_ip (Server.id server) ;;
        let client_token := token_urlsafe in
        let token_hash := Hashlib.sha256_hexdigest client_token in
        let expires_at := expiry utcnow (ConfigCreate.expires_days config_req) in
        peer <- insert_peer
                  (new_peer fresh_id (Server.id server) (ConfigCreate.name config_req)
                     (ConfigCreate.email config_req)
                     (ConfigCreate.device_name config_req)
                     (ConfigCreate.device_type config_req) public_key
                     (ConfigCreate.allowed_ips config_req) assigned_ip
                     (ConfigCreate.dns_servers config_req) 25 1420
                     expires_at (ConfigCreate.notes config_req) token_hash utcnow) ;;
        let endpoint :=
          Server.public_ip server +:+ ":" +:+ pretty (Server.listen_port server) in
        let config :=
          build_wireguard_config private_key
            (ip_to_string assigned_ip +:+ "/32")
            (ConfigCreate.dns_servers config_req)
            (Server.public_key server) endpoint
            (ConfigCreate.allowed_ips config_req) 25 1420 None
            (Server.awg server) in
        let qr_code := generate_qr_code h config in
        ret {| ConfigCreateResponse.peer_id := Peer.id peer;
               ConfigCreateResponse.name := ConfigCreate.name config_req;
               ConfigCreateResponse.config := config;
               ConfigCreateResponse.private_key := private_key;
               ConfigCreateResponse.public_key := public_key;
               ConfigCreateResponse.assigned_ip := ip_to_string assigned_ip;
               ConfigCreateResponse.server_endpoint := endpoint;
               ConfigCreateResponse.server_public_key := Server.public_key server;
               ConfigCreateResponse.qr_code := qr_code;
               ConfigCreateResponse.client_token := client_token |}
    end).

(** [DELETE FROM vpn_peers WHERE id = $1]; the status tag [DELETE 0]
    means that no row matched. *)
Definition delete_config (ADMIN_API_KEY peer_id x_admin_key : string)
  : App (string * string) :=
  admin_endpoint ADMIN_API_KEY x_admin_key (
    deleted <- (fun d =>
                  let kept := List.filter (fun p => negb (eqs (Peer.id p) peer_id))
                                          (vpn_peers d) in
                  (Ok (length (vpn_peers d) - length kept)%nat, with_peers kept d)) ;;
    if (deleted =? 0)%nat then raise (HTTPException 404 "Peer not found")
    else ret ("deleted", peer_id)).

Definition update_enabled (b : bool) (peer_id : string) : App unit :=
  execute (fun d =>
    with_peers (map (fun p => if eqs (Peer.id p) peer_id then Peer.set_enabled b p else p)
                    (vpn_peers d)) d).

Definition disable_config (ADMIN_API_KEY peer_id x_admin_key : string)
  : App (string * string) :=
  admin_endpoint ADMIN_API_KEY x_admin_key (
    _ <- update_enabled false peer_id ;; ret ("disabled", peer_id)).

Definition enable_config (ADMIN_API_KEY peer_id x_admin_key : string)
  : App (string * string) :=
  admin_endpoint ADMIN_API_KEY x_admin_key (
    _ <- update_enabled true peer_id ;; ret ("enabled", peer_id)).

End Schema.

(** ** Settings from the environment *)

(** [os.getenv(name, default)]. *)
Definition getenv (environ : gmap string string) (name default_ : string) : string :=
  default default_ (environ !! name).

(** [load_gateway_tokens]: the entries of [GATEWAY_TOKENS=gw1:tok1,gw2:tok2]
    are added to the dictionary; an entry without a colon is skipped. *)
Definition load_gateway_tokens (environ : gmap string string)
    (GATEWAY_TOKENS : gmap string string) : gmap string string :=
  let tokens_str := getenv environ "GATEWAY_TOKENS" "" in
  if bool_decide (tokens_str = "") then GATEWAY_TOKENS
  else
    fold_left
      (fun tokens pair =>
         match str_split_once ":" pair with
         | Some (gateway, token) => <[gateway := token]> tokens
         | None => tokens
         end)
      (str_split "," tokens_str) GATEWAY_TOKENS.

(** The entry of a gateway in the value of [GATEWAY_TOKENS]. *)
Definition token_entry (e : string * string) : string := e.1 +:+ ":" +:+ e.2.

(** ** Pre-shared keys *)

(** [token_bytes] is the value of [secrets.token_bytes(32)]. *)
Definition generate_preshared_key (h : host) (token_bytes : list Z) : string :=
  match subprocess_run h ["wg"; "genpsk"] None with
  | CompletedProcess returncode stdout =>
      if returncode =? 0 then strip stdout else Base64.b64encode token_bytes
  | FileNotFoundError => Base64.b64encode token_bytes
  end.

(** ** Switching servers *)


(** ** Reading a configuration back *)

Module ConfigDetails.
Record t := {
  peer_id : string;
  name : string;
  public_key : string;
  assigned_ip : string;
  server : string;
  endpoint : string;
  enabled : bool;
  created_at : Z;
  last_handshake : option Z }.
End ConfigDetails.

(** [FROM vpn_peers p JOIN vpn_servers s ON p.server_id = s.id
     WHERE p.id = $1]: the pairs of a peer row of that id and a server
    row of its server id. *)
Definition peer_join_server (peer_id : string) (d : db)
  : list (Peer.row * Server.row) :=
  flat_map
    (fun p =>
       map (fun s => (p, s))
           (List.filter (fun s => eqs (Peer.server_id p) (Server.id s)) (vpn_servers d)))
    (List.filter (fun p => eqs (Peer.id p) peer_id) (vpn_peers d)).

Definition get_config_by_id (ADMIN_API_KEY peer_id x_admin_key : string)
  : App ConfigDetails.t :=
  admin_endpoint ADMIN_API_KEY x_admin_key (
    peer <- query (fun d => head (peer_join_server peer_id d)) ;;
    match peer with
    | None => raise (HTTPException 404 "Peer not found")
    | Some (p, s) =>
        ret {| ConfigDetails.peer_id := Peer.id p;
               ConfigDetails.name := Peer.name p;
               ConfigDetails.public_key := Peer.public_key p;
               ConfigDetails.assigned_ip := ip_to_string (Peer.assigned_ip p);
               ConfigDetails.server := Server.hostname s;
               ConfigDetails.endpoint :=
                 Server.public_ip s +:+ ":" +:+ pretty (Server.listen_port s);
               ConfigDetails.enabled := Peer.enabled p;
               ConfigDetails.created_at := Peer.created_at p;
               ConfigDetails.last_handshake := Peer.last_handshake p |}
    end).

(** ** Statistics *)

Module Stats.
Record t := {
  active_servers : Z;
  active_peers : Z;
  total_peers : Z;
  total_rx_bytes : option Z;
  total_tx_bytes : option Z;
  connected_now : Z }.
End Stats.

(** [SELECT COUNT( * ) FROM ... WHERE ...]. *)
Definition count_where {A} (P : A -> bool) (rows : list A) : Z :=
  Z.of_nat (length (List.filter P rows)).

(** [SELECT SUM(column) FROM ...]: null over no rows. *)
Definition sum_of {A} (column : A -> Z) (rows : list A) : option Z :=
  match rows with
  | [] => None
  | _ => Some (fold_right (fun r acc => column r + acc) 0 rows)
  end.

(** [now] is the time of the database, in seconds; five minutes are 300
    of them. *)
Definition get_global_stats (ADMIN_API_KEY x_admin_key : string) (now : Z)
  : App Stats.t :=
  admin_endpoint ADMIN_API_KEY x_admin_key (
    query (fun d =>
      {| Stats.active_servers := count_where active (vpn_servers d);
         Stats.active_peers := count_where Peer.enabled (vpn_peers d);
         Stats.total_peers := count_where (fun _ => true) (vpn_peers d);
         Stats.total_rx_bytes := sum_of Peer.total_rx_bytes (vpn_peers d);
         Stats.total_tx_bytes := sum_of Peer.total_tx_bytes (vpn_peers d);
         Stats.connected_now :=
           count_where
             (fun p => match Peer.last_handshake p with
                       | Some t => now - 300 <? t
                       | None => false
                       end)
             (vpn_peers d) |})).

End Registry.

(** * The gateway agent ([gateway-sync.py]) *)

Module Agent.

(** ** The gateway machine

    The agent acts on the WireGuard interface through the [wg] and
    [wg-quick] programs.  The machine is the set of peers of the running
    interface (in the order [wg show <interface> dump] lists them), the
    peers last written to the configuration file by [wg-quick save], and
    the files of the temporary directory.  The interface exists and
    [wg] is installed, so [wg show] succeeds.  Logging does not act on
    the machine and is left out. *)

Module WgPeer.
Record t := {
  public_key : string;
  preshared_key : option string;
  endpoint : option string;
  allowed_ips : list string;
  latest_handshake : Z;
  transfer_rx : Z;
  transfer_tx : Z }.
End WgPeer.

Record machine := {
  interface : list WgPeer.t;
  saved : list WgPeer.t;
  tmp : list (string * string);
  next_tmp : Z }.

(** ** Dictionaries

    [LocalPeer.t] is the dictionary [get_wg_peers] builds from a dump
    line.  [PeerDict.t] is a peer dictionary of the registry's
    [{"peers": [...]}] answer, with the keys the agent reads:
    [preshared_key] and [enabled] are read through [dict.get], and
    [None] stands for a key that is missing (or null). *)

Module LocalPeer.
Record t := {
  public_key : string;
  preshared_key : option string;
  endpoint : option string;
  allowed_ips : list string;
  last_handshake : option Z;
  rx_bytes : Z;
  tx_bytes : Z }.
End LocalPeer.

Module PeerDict.
Record t := {
  public_key : string;
  allowed_ips : list string;
  preshared_key : option string;
  enabled : option bool }.
End PeerDict.

Definition parse_dump_line (p : WgPeer.t) : LocalPeer.t :=
  {| LocalPeer.public_key := WgPeer.public_key p;
     LocalPeer.preshared_key := WgPeer.preshared_key p;
     LocalPeer.endpoint := WgPeer.endpoint p;
     LocalPeer.allowed_ips := WgPeer.allowed_ips p;
     LocalPeer.last_handshake :=
       if WgPeer.latest_handshake p =? 0 then None
       else Some (WgPeer.latest_handshake p);
     LocalPeer.rx_bytes := WgPeer.transfer_rx p;
     LocalPeer.tx_bytes := WgPeer.transfer_tx p |}.

Definition get_wg_peers (m : machine) : list LocalPeer.t :=
  map parse_dump_line (interface m).

(** ** Telemetry *)

(** One [PUT /api/v1/gateway/peers/{peer_id}/sync] request: the path
    parameter and the three query parameters. *)
Module StatusReport.
Record t := {
  peer_id : string;
  last_handshake : Z;
  rx_bytes : Z;
  tx_bytes : Z }.
End StatusReport.

(** The requests one call of [sync_peer_status] sends, in order. *)
Definition sync_peer_status (m : machine) : list StatusReport.t :=
  omap (fun peer =>
          match LocalPeer.last_handshake peer with
          | Some t =>
              if t =? 0 then None
              else Some {| StatusReport.peer_id := LocalPeer.public_key peer;
                           StatusReport.last_handshake := t;
                           StatusReport.rx_bytes := LocalPeer.rx_bytes peer;
                           StatusReport.tx_bytes := LocalPeer.tx_bytes peer |}
          | None => None
          end)
       (get_wg_peers m).

(** [fetch_peer_configs]: the peers of the answer, or the empty list
    when the request failed. *)
Definition fetch_peer_configs (answer : option (list PeerDict.t)) : list PeerDict.t :=
  default [] answer.

(** ** Commands *)

Definition with_interface (l : list WgPeer.t) (m : machine) : machine :=
  {| interface := l; saved := saved m; tmp := tmp m; next_tmp := next_tmp m |}.

Definition find_peer (key : string) (l : list WgPeer.t) : option WgPeer.t :=
  List.find (fun p => bool_decide (WgPeer.public_key p = key)) l.

Definition has_peer (key : string) (l : list WgPeer.t) : bool :=
  match find_peer key l with Some _ => true | None => false end.

Definition configure (allowed_ips : list string) (psk : option string)
    (p : WgPeer.t) : WgPeer.t :=
  {| WgPeer.public_key := WgPeer.public_key p;
     WgPeer.preshared_key :=
       match psk with Some k => Some k | None => WgPeer.preshared_key p end;
     WgPeer.endpoint := WgPeer.endpoint p;
     WgPeer.allowed_ips := allowed_ips;
     WgPeer.latest_handshake := WgPeer.latest_handshake p;
     WgPeer.transfer_rx := WgPeer.transfer_rx p;
     WgPeer.transfer_tx := WgPeer.transfer_tx p |}.

Definition blank (key : string) : WgPeer.t :=
  {| WgPeer.public_key := key; WgPeer.preshared_key := None;
     WgPeer.endpoint := None; WgPeer.allowed_ips := [];
     WgPeer.latest_handshake := 0; WgPeer.transfer_rx := 0;
     WgPeer.transfer_tx := 0 |}.

(** What [wg set ... peer <key> allowed-ips <ips>] does to the peers of
    the interface: the peer is reconfigured when it is there and added
    at the end otherwise. *)
Definition set_peer (key : string) (allowed_ips : list string) (psk : option string)
    (l : list WgPeer.t) : list WgPeer.t :=
  if has_peer key l then
    map (fun p => if bool_decide (WgPeer.public_key p = key)
                  then configure allowed_ips psk p else p) l
  else l ++ [configure allowed_ips psk (blank key)].

(** What [wg set ... peer <key> remove] does to them. *)
Definition remove_peer (key : string) (l : list WgPeer.t) : list WgPeer.t :=
  List.filter (fun p => negb (bool_decide (WgPeer.public_key p = key))) l.

Section Wg.

(** Whether [wg] accepts a public key and a list of allowed IPs is
    [wg]'s own matter (the key must be a base64 Curve25519 point, the
    IPs must parse). *)
Variable wg_accepts : string -> list string -> bool.

(** [wg set <interface> peer <key> allowed-ips <ips>
    [preshared-key <file>]]: the return code and the machine. *)
Definition wg_set_peer (key : string) (allowed_ips : list string)
    (psk_file : option string) (m : machine) : Z * machine :=
  let psk :=
    match psk_file with
    | Some f => snd <$> List.find (fun e => bool_decide (e.1 = f)) (tmp m)
    | None => None
    end in
  if wg_accepts key allowed_ips
  then (0, with_interface (set_peer key allowed_ips psk (interface m)) m)
  else (1, m).

(** [wg set <interface> peer <key> remove]. *)
Definition wg_remove_peer (key : string) (m : machine) : machine :=
  with_interface (remove_peer key (interface m)) m.

(** [wg-quick save <interface>]. *)
Definition wg_quick_save (m : machine) : machine :=
  {| interface := interface m; saved := interface m;
     tmp := tmp m; next_tmp := next_tmp m |}.

(** [tempfile.NamedTemporaryFile(mode="w", delete=False)], written and
    closed: the name of the file and the machine. *)
Definition write_temporary_file (content : string) (m : machine)
  : string * machine :=
  let name := "/tmp/tmp" +:+ pretty (next_tmp m) in
  (name, {| interface := interface m; saved := saved m;
            tmp := tmp m ++ [(name, content)]; next_tmp := next_tmp m + 1 |}).

Definition os_unlink (name : string) (m : machine) : machine :=
  {| interface := interface m; saved := saved m;
     tmp := List.filter (fun e => negb (bool_decide (e.1 = name))) (tmp m);
     next_tmp := next_tmp m |}.

(** ** Applying a peer *)

Inductive exn :=
| UnboundLocalError (name : string).

Definition truthy (o : option string) : bool :=
  match o with Some s => negb (bool_decide (s = "")) | None => false end.

(** The body of the [try] statement of [apply_peer_config]: it ends
    in an exception or in the returned boolean.  The local variable
    [psk_file] is bound only in the branch that writes the pre-shared
    key to a file; [None] is the unbound variable. *)
Definition apply_peer_config_try (peer : PeerDict.t) (m : machine)
  : (exn + bool) * machine :=
  let '(psk_file, m) :=
    if truthy (PeerDict.preshared_key peer) then
      let '(name, m) :=
        write_temporary_file (default "" (PeerDict.preshared_key peer)) m in
      (Some name, m)
    else (None, m) in
  let '(returncode, m) :=
    wg_set_peer (PeerDict.public_key peer) (PeerDict.allowed_ips peer) psk_file m in
  match psk_file with
  | None => (inl (UnboundLocalError "psk_file"), m)
  | Some name =>
      let m := if bool_decide (name = "") then m else os_unlink name m in
      if returncode =? 0 then (inr true, wg_quick_save m)
      else (inr false, m)
  end.

(** [except Exception as e: ... return False]. *)
Definition apply_peer_config (peer : PeerDict.t) (m : machine) : bool * machine :=
  match apply_peer_config_try peer m with
  | (inl _, m') => (false, m')
  | (inr b, m') => (b, m')
  end.

(** ** Reconciliation *)

(** [{p["public_key"]: p for p in get_wg_peers()}]. *)
Definition local_peers (m : machine) : gmap string LocalPeer.t :=
  fold_left (fun acc p => <[LocalPeer.public_key p := p]> acc) (get_wg_peers m) ∅.

(** [peer.get("enabled", True)]. *)
Definition get_enabled (peer : PeerDict.t) : bool :=
  default true (PeerDict.enabled peer).

(** One iteration of the loop of [sync_configs] over the remote
    peers, against the dictionary of local peers built before the
    loop. *)
Definition sync_one (local : gmap string LocalPeer.t) (m : machine)
    (peer : PeerDict.t) : machine :=
  let pub_key := PeerDict.public_key peer in
  match local !! pub_key with
  | None =>
      if get_enabled peer then (apply_peer_config peer m).2 else m
  | Some _ =>
      if negb (get_enabled peer) then wg_remove_peer pub_key m else m
  end.

Definition sync_configs (answer : option (list PeerDict.t)) (m : machine) : machine :=
  let local := local_peers m in
  let remote_peers := fetch_peer_configs answer in
  fold_left (sync_one local) remote_peers m.

End Wg.

(** The peer dictionary the agent decodes from one peer of the
    registry's answer: the answer has no [preshared_key] key. *)
Definition of_pulled (p : Registry.PulledPeer.t) : PeerDict.t :=
  {| PeerDict.public_key := Registry.PulledPeer.public_key p;
     PeerDict.allowed_ips := Registry.PulledPeer.allowed_ips p;
     PeerDict.preshared_key := None;
     PeerDict.enabled := Some (Registry.PulledPeer.enabled p) |}.

(** ** Reading the interface from what [wg] prints

    [get_wg_peers] and [get_wg_public_key] once more, on the text of the
    programs' output.  [subprocess.run(..., check=True)] either raises
    [CalledProcessError] or gives the standard output. *)

Inductive checked := CalledProcessError | Stdout (stdout : string).

Inductive raised := ValueError | IndexError.

(** The line [wg show <interface> dump] prints for a peer (wg(8)): public
    key, preshared key, endpoint, allowed ips, latest handshake, transfer
    rx, transfer tx and persistent keepalive, separated by tabs; a value
    that is not set is printed as [(none)]. *)
Definition dump_line (keepalive : string) (p : WgPeer.t) : string :=
  join (String TAB "")
    [WgPeer.public_key p;
     default "(none)" (WgPeer.preshared_key p);
     default "(none)" (WgPeer.endpoint p);
     match WgPeer.allowed_ips p with
     | [] => "(none)"
     | ips => join "," ips
     end;
     pretty (WgPeer.latest_handshake p);
     pretty (WgPeer.transfer_rx p);
     pretty (WgPeer.transfer_tx p);
     keepalive].

(** The dump of the interface: the line of the interface itself, then
    one line for each peer. *)
Definition wg_show_dump (interface_line : string) (keepalive : WgPeer.t -> string)
    (m : machine) : string :=
  join (String LF "")
       (interface_line :: map (fun p => dump_line (keepalive p) p) (interface m))
  +:+ String LF "".

(** The peers whose line reads back as it was printed: the fields are
    plain text, a key or an endpoint is not the text [(none)], there is
    an allowed IP and none has a comma, and the counters are not
    negative. *)
Definition dumpable (keepalive : WgPeer.t -> string) (p : WgPeer.t) : bool :=
  let set (o : option string) :=
    match o with
    | Some v => plain v && negb (bool_decide (v = "(none)"))
    | None => true
    end in
  plain (WgPeer.public_key p)
  && set (WgPeer.preshared_key p) && set (WgPeer.endpoint p)
  && negb (bool_decide (WgPeer.allowed_ips p = []))
  && forallb (fun ip => plain ip && negb (has_char "," ip)) (WgPeer.allowed_ips p)
  && (0 <=? WgPeer.latest_handshake p)
  && (0 <=? WgPeer.transfer_rx p) && (0 <=? WgPeer.transfer_tx p)
  && plain (keepalive p).

Section Text.

(** Python's [int] on a string; [None] where it raises [ValueError]. *)
Variable py_int : string -> option Z.

(** The dictionary of one line, for [len(parts) >= 5]; the values are
    evaluated in the order of the keys. *)
Definition peer_of_parts (parts : list string) : raised + LocalPeer.t :=
  let part i := default "" (parts !! i) in
  match (if bool_decide (part 4%nat = "0") then Some None
         else Some <$> py_int (part 4%nat)) with
  | None => inl ValueError
  | Some last_handshake =>
      match (if (5 <? length parts)%nat then py_int (part 5%nat) else Some 0) with
      | None => inl ValueError
      | Some rx_bytes =>
          match (if (6 <? length parts)%nat then py_int (part 6%nat) else Some 0) with
          | None => inl ValueError
          | Some tx_bytes =>
              inr {| LocalPeer.public_key := part 0%nat;
                     LocalPeer.preshared_key :=
                       if bool_decide (part 1%nat = "(none)") then None
                       else Some (part 1%nat);
                     LocalPeer.endpoint :=
                       if bool_decide (part 2%nat = "(none)") then None
                       else Some (part 2%nat);
                     LocalPeer.allowed_ips :=
                       if bool_decide (part 3%nat = "") then []
                       else str_split "," (part 3%nat);
                     LocalPeer.last_handshake := last_handshake;
                     LocalPeer.rx_bytes := rx_bytes;
                     LocalPeer.tx_bytes := tx_bytes |}
          end
      end
  end.

(** [for line in lines[1:]]. *)
Fixpoint peers_of_lines (lines : list string) : raised + list LocalPeer.t :=
  match lines with
  | [] => inr []
  | line :: rest =>
      let parts := str_split TAB line in
      if (5 <=? length parts)%nat then
        match peer_of_parts parts with
        | inl e => inl e
        | inr peer =>
            match peers_of_lines rest with
            | inl e => inl e
            | inr peers => inr (peer :: peers)
            end
        end
      else peers_of_lines rest
  end.

(** [get_wg_peers] on the outcome of [wg show <interface> dump]: a
    [ValueError] of [int] is not caught. *)
Definition get_wg_peers_of (dump : checked) : raised + list LocalPeer.t :=
  match dump with
  | CalledProcessError => inr []
  | Stdout stdout => peers_of_lines (tail (str_split LF (strip stdout)))
  end.

End Text.



(** ** Registration *)

Module Config.
Record t := {
  gateway_id : string;
  gateway_token : string;
  wg_interface : string;
  protocol : string;
  region : string;
  country_code : string;
  public_ip : string;
  listen_port : Z }.
End Config.


Section Environment.

Variable py_int : string -> option Z.

#[local] Notation "x <-? m ;; k" :=
  (match m with Some x => k | None => None end)
  (at level 100, m at next level, right associativity).




End Environment.

End Agent.

(** * The agent talking to the registry *)

Module Fleet.

(** One call of the agent's [sync_peer_status] against the registry: each
    request goes through the gateway authentication to the registry's
    [sync_peer_status]; the agent ignores the answers. *)
Definition push_telemetry (GATEWAY_TOKENS : gmap string string)
    (gateway_id gateway_token : string) (m : Agent.machine) (d : Registry.db)
  : Registry.db :=
  fold_left
    (fun d r =>
       (Registry.gateway_endpoint GATEWAY_TOKENS gateway_id gateway_token
          (Registry.sync_peer_status (Agent.StatusReport.peer_id r)
             (Some (Agent.StatusReport.last_handshake r))
             (Agent.StatusReport.rx_bytes r) (Agent.StatusReport.tx_bytes r))
          d).2)
    (Agent.sync_peer_status m) d.

(** The agent's [fetch_peer_configs] against the registry. *)
Definition pull (GATEWAY_TOKENS : gmap string string)
    (gateway_id gateway_token : string) (d : Registry.db)
  : option (list Agent.PeerDict.t) :=
  match (Registry.gateway_endpoint GATEWAY_TOKENS gateway_id gateway_token
           Registry.get_gateway_peers d).1 with
  | Registry.Ok peers => Some (map Agent.of_pulled peers)
  | Registry.Raise _ => None
  end.

(** The agent's [register_gateway] against the registry: [True] when the
    registry answered with success.  The request is authenticated, then
    its body is validated ([protocol] has a pattern, which the whole
    text must match; a body that fails is answered with 422), then the
    handler runs.  [reachable] is false
    when the request raised a [RequestException] before an answer. *)
Definition valid_registration (server : Registry.ServerRegistration.t) : bool :=
  let protocol := Registry.ServerRegistration.protocol server in
  bool_decide (protocol = "wireguard") || bool_decide (protocol = "amneziawg")
  || bool_decide (protocol = "openvpn").

Definition register_gateway (GATEWAY_TOKENS : gmap string string)
    (CONFIG : Agent.Config.t) (data : Registry.ServerRegistration.t)
    (reachable : bool) (now : Z) (fresh_id : string) (d : Registry.db)
  : bool * Registry.db :=
  if reachable then
    match Registry.gateway_endpoint GATEWAY_TOKENS
            (Agent.Config.gateway_id CONFIG) (Agent.Config.gateway_token CONFIG)
            (fun gateway_id =>
               if valid_registration data
               then Registry.register_gateway data gateway_id now fresh_id
               else Registry.raise (Registry.HTTPException 422 "Unprocessable Entity"))
            d with
    | (Registry.Ok _, d') => (true, d')
    | (Registry.Raise _, d') => (false, d')
    end
  else (false, d).

End Fleet.

(** * Sample data

    Concrete registries, hosts and gateway machines on which the
    properties below are exercised. *)

Module Sample.

Definition tokens : gmap string string :=
  {[ "gw-paris" := "s3cret-paris"; "gw-oslo" := "s3cret-oslo" ]}.

Definition no_awg : Registry.awg_params :=
  {| Registry.awg_jc := None; Registry.awg_jmin := None; Registry.awg_jmax := None;
     Registry.awg_s1 := None; Registry.awg_s2 := None; Registry.awg_h1 := None;
     Registry.awg_h2 := None; Registry.awg_h3 := None; Registry.awg_h4 := None |}.

Definition registration (hostname public_ip : string) : Registry.ServerRegistration.t :=
  {| Registry.ServerRegistration.hostname := hostname;
     Registry.ServerRegistration.public_ip := public_ip;
     Registry.ServerRegistration.private_ip := None;
     Registry.ServerRegistration.region := "europe";
     Registry.ServerRegistration.country_code := "FR";
     Registry.ServerRegistration.city := None;
     Registry.ServerRegistration.protocol := "wireguard";
     Registry.ServerRegistration.listen_port := 51820;
     Registry.ServerRegistration.public_key := "c2VydmVyLXB1YmxpYy1rZXktMDAwMDAwMDAwMDAwMDA=";
     Registry.ServerRegistration.max_peers := 250;
     Registry.ServerRegistration.awg := no_awg |}.

Definition empty_db : Registry.db :=
  {| Registry.vpn_servers := []; Registry.ip_pools := []; Registry.vpn_peers := [] |}.

(** Two registered gateways. *)
Definition two_gateways : Registry.db :=
  Eval vm_compute in
  (Registry.register_gateway (registration "gw-oslo" "198.51.100.7") "gw-oslo" 1010 "srv-2"
     (Registry.register_gateway (registration "gw-paris" "203.0.113.5") "gw-paris" 1000 "srv-1"
        empty_db).2).2.

Definition peer_request (name public_key : string) (expires_days : option Z)
  : Registry.PeerCreate.t :=
  {| Registry.PeerCreate.name := name;
     Registry.PeerCreate.email := None;
     Registry.PeerCreate.device_name := None;
     Registry.PeerCreate.device_type := None;
     Registry.PeerCreate.public_key := public_key;
     Registry.PeerCreate.allowed_ips := ["0.0.0.0/0"; "::/0"];
     Registry.PeerCreate.dns_servers := ["1.1.1.1"];
     Registry.PeerCreate.persistent_keepalive := 25;
     Registry.PeerCreate.mtu := 1420;
     Registry.PeerCreate.expires_days := expires_days;
     Registry.PeerCreate.notes := None |}.

(** A schema without constraints on [vpn_peers], and one whose only
    constraint is a unique public key. *)
Definition unconstrained : list Registry.Peer.row -> Registry.Peer.row -> bool :=
  fun _ _ => true.


Definition key_alice : string := "YWxpY2UtcHVibGljLWtleS0wMDAwMDAwMDAwMDAwMDA=".
Definition key_bob : string := "Ym9iLXB1YmxpYy1rZXktMDAwMDAwMDAwMDAwMDAwMDA=".
Definition key_carol : string := "Y2Fyb2wtcHVibGljLWtleS0wMDAwMDAwMDAwMDAwMDA=".
Definition key_dave : string := "ZGF2ZS1wdWJsaWMta2V5LTAwMDAwMDAwMDAwMDAwMDA=".

(** Alice and Bob on gw-paris, Carol on gw-oslo; Bob's access lasts one
    day from time 2000. *)
Definition three_peers : Registry.db :=
  Eval vm_compute in
  (Registry.create_peer unconstrained (peer_request "carol" key_carol None) "gw-oslo"
     2020 "tok-carol" "peer-3"
     (Registry.create_peer unconstrained (peer_request "bob" key_bob (Some 1)) "gw-paris"
        2010 "tok-bob" "peer-2"
        (Registry.create_peer unconstrained (peer_request "alice" key_alice None) "gw-paris"
           2000 "tok-alice" "peer-1" two_gateways).2).2).2.

(** Alice revoked by the administrator. *)
Definition alice_disabled : Registry.db :=
  Eval vm_compute in
  (Registry.disable_config "admin-key" "peer-1" "admin-key" three_peers).2.

(** The rows of gw-paris and of Bob in [three_peers]. *)
Definition paris : Registry.Server.row :=
  Eval vm_compute in
    Registry.inserted (registration "gw-paris" "203.0.113.5") 1000 "srv-1".

Definition bob : Registry.Peer.row :=
  Eval vm_compute in
    Registry.new_peer "peer-2" "srv-1" "bob" None None None key_bob
      ["0.0.0.0/0"; "::/0"] (ip4 10 66 66 3) ["1.1.1.1"] 25 1420 (Some 88410) None
      (Hashlib.sha256_hexdigest "tok-bob") 2010.

(** Hosts: one with a working [wg], one without [wg], one whose
    [wg genkey] exits with an error.  All three can import [cryptography]. *)
Definition x25519_pair : list Z * list Z := (seqZ 0 32, seqZ 32 32).

Definition host_with_wg : Registry.host :=
  {| Registry.subprocess_run := fun cmd input =>
       if bool_decide (cmd = ["wg"; "genkey"]) then
         Registry.CompletedProcess 0
           ("d2ctcHJpdmF0ZS1rZXktMDAwMDAwMDAwMDAwMDAwMDA=" +:+ Registry.nl)
       else if bool_decide (cmd = ["wg"; "pubkey"]) then
         Registry.CompletedProcess 0
           ("d2ctcHVibGljLWtleS0wMDAwMDAwMDAwMDAwMDAwMDA=" +:+ Registry.nl)
       else Registry.FileNotFoundError;
     Registry.cryptography_installed := true;
     Registry.X25519PrivateKey_generate := x25519_pair;
     Registry.qrcode_png := fun _ => None |}.

Definition host_without_wg : Registry.host :=
  {| Registry.subprocess_run := fun _ _ => Registry.FileNotFoundError;
     Registry.cryptography_installed := true;
     Registry.X25519PrivateKey_generate := x25519_pair;
     Registry.qrcode_png := fun _ => None |}.

Definition host_wg_failing : Registry.host :=
  {| Registry.subprocess_run := fun _ _ => Registry.CompletedProcess 1 "";
     Registry.cryptography_installed := true;
     Registry.X25519PrivateKey_generate := x25519_pair;
     Registry.qrcode_png := fun _ => None |}.

(** The interface of gw-paris at two successive cycles: Alice has
    shaken hands and her counters grow, Bob has not connected yet. *)
Definition wg_peer (key address : string) (handshake rx tx : Z) : Agent.WgPeer.t :=
  {| Agent.WgPeer.public_key := key; Agent.WgPeer.preshared_key := None;
     Agent.WgPeer.endpoint := None; Agent.WgPeer.allowed_ips := [address];
     Agent.WgPeer.latest_handshake := handshake;
     Agent.WgPeer.transfer_rx := rx; Agent.WgPeer.transfer_tx := tx |}.

Definition machine_with (peers : list Agent.WgPeer.t) : Agent.machine :=
  {| Agent.interface := peers; Agent.saved := peers; Agent.tmp := [];
     Agent.next_tmp := 0 |}.

Definition paris_cycle_1 : Agent.machine :=
  machine_with [wg_peer key_alice "10.66.66.2/32" 5000 1000 400;
                wg_peer key_bob "10.66.66.3/32" 0 0 0].

Definition paris_cycle_2 : Agent.machine :=
  machine_with [wg_peer key_alice "10.66.66.2/32" 5060 1500 600;
                wg_peer key_bob "10.66.66.3/32" 0 0 0].

(** Bob deleted by the administrator. *)
Definition bob_deleted : Registry.db :=
  Eval vm_compute in
  (Registry.delete_config "admin-key" "peer-2" "admin-key" three_peers).2.

(** A [wg] that accepts every key of 44 characters, the length of a
    base64 Curve25519 key. *)
Definition wg_accepts : string -> list string -> bool :=
  fun key _ => (String.length key =? 44)%nat.

(** A peer dictionary as the registry's answer gives it. *)
Definition dave : Agent.PeerDict.t :=
  {| Agent.PeerDict.public_key := key_dave;
     Agent.PeerDict.allowed_ips := ["10.66.66.4/32"];
     Agent.PeerDict.preshared_key := None;
     Agent.PeerDict.enabled := Some true |}.

(** The address a creation answered with. *)
Definition assigned (r : Registry.reply (string * string * string) * Registry.db) : string :=
  match r.1 with
  | Registry.Ok (_, assigned_ip, _) => assigned_ip
  | Registry.Raise _ => ""
  end.

(** The scenario of the specification: a gateway registers (pool
    10.66.66.0/24, gateway address .1), three peers are created, the second
    is deleted, a fourth is created.  The list holds the four addresses
    given out. *)
Definition lowest_free_scenario : list string :=
  let d0 := (Registry.register_gateway (registration "gw-paris" "203.0.113.5")
               "gw-paris" 1000 "srv-1" empty_db).2 in
  let c1 := Registry.create_peer unconstrained (peer_request "alice" key_alice None)
              "gw-paris" 2000 "tok-alice" "peer-1" d0 in
  let c2 := Registry.create_peer unconstrained (peer_request "bob" key_bob None)
              "gw-paris" 2010 "tok-bob" "peer-2" c1.2 in
  let c3 := Registry.create_peer unconstrained (peer_request "carol" key_carol None)
              "gw-paris" 2020 "tok-carol" "peer-3" c2.2 in
  let del := Registry.delete_config "admin-key" "peer-2" "admin-key" c3.2 in
  let c4 := Registry.create_peer unconstrained (peer_request "dave" key_dave None)
              "gw-paris" 2030 "tok-dave" "peer-4" del.2 in
  [assigned c1; assigned c2; assigned c3; assigned c4].

(** What the registry holds of each peer's traffic. *)
Definition counters (d : Registry.db) : list (string * string * Z * Z) :=
  map (fun p => (Registry.Peer.name p, Registry.Peer.server_id p,
                 Registry.Peer.total_rx_bytes p, Registry.Peer.total_tx_bytes p))
      (Registry.vpn_peers d).

(** Alice's row in [three_peers]. *)
Definition alice : Registry.Peer.row :=
  Eval vm_compute in
    Registry.new_peer "peer-1" "srv-1" "alice" None None None key_alice
      ["0.0.0.0/0"; "::/0"] (ip4 10 66 66 2) ["1.1.1.1"] 25 1420 None None
      (Hashlib.sha256_hexdigest "tok-alice") 2000.

(** A provisioning request that names no server. *)
Definition config_request (region : option string) : Registry.ConfigCreate.t :=
  {| Registry.ConfigCreate.name := "erin";
     Registry.ConfigCreate.email := None;
     Registry.ConfigCreate.device_name := None;
     Registry.ConfigCreate.device_type := None;
     Registry.ConfigCreate.server_id := None;
     Registry.ConfigCreate.region := region;
     Registry.ConfigCreate.allowed_ips := ["0.0.0.0/0"; "::/0"];
     Registry.ConfigCreate.dns_servers := ["1.1.1.1"];
     Registry.ConfigCreate.expires_days := None;
     Registry.ConfigCreate.notes := None |}.

(** The environment of a registry that is given the tokens of the two
    gateways and no admin key. *)
Definition token_entries : list (string * string) :=
  [("gw-paris", "s3cret-paris"); ("gw-oslo", "s3cret-oslo")].

Definition environ : gmap string string :=
  {[ "GATEWAY_TOKENS" := "gw-paris:s3cret-paris,gw-oslo:s3cret-oslo" ]}.

(** Dave with a pre-shared key. *)
Definition dave_with_psk : Agent.PeerDict.t :=
  {| Agent.PeerDict.public_key := key_dave;
     Agent.PeerDict.allowed_ips := ["10.66.66.4/32"];
     Agent.PeerDict.preshared_key := Some "cHNrLWRhdmUtMDAwMDAwMDAwMDAwMDAwMDAwMDAwMDA=";
     Agent.PeerDict.enabled := Some true |}.

(** [int] on the decimal numbers without a sign. *)
Fixpoint digits (acc : Z) (s : string) : option Z :=
  match s with
  | EmptyString => Some acc
  | String c s' =>
      let n := byte_of_ascii c in
      if (48 <=? n) && (n <=? 57) then digits (acc * 10 + (n - 48)) s' else None
  end.

Definition int (s : string) : option Z :=
  match s with
  | EmptyString => None
  | _ => digits 0 s
  end.

(** The fields of the interface line of a dump (private key, public key,
    port, fwmark) and the keepalive [wg] shows for every peer. *)
Definition interface_fields : list string :=
  ["cHJpdmF0ZS1rZXktb2YtZ3ctcGFyaXMtMDAwMDAwMDA=";
   "c2VydmVyLXB1YmxpYy1rZXktMDAwMDAwMDAwMDAwMDA="; "51820"; "off"].

Definition keepalive : Agent.WgPeer.t -> string := fun _ => "25".

(** A dump in which Bob's handshake is not a number. *)
Definition garbled_dump : string :=
  join (String LF "")
    [join (String TAB "") interface_fields;
     join (String TAB "")
       [key_alice; "(none)"; "(none)"; "10.66.66.2/32"; "5000"; "1000"; "400"; "25"];
     join (String TAB "")
       [key_bob; "(none)"; "(none)"; "10.66.66.3/32"; "never"; "0"; "0"; "25"]]
  +:+ String LF "".




End Sample.

(** * Properties *)

(** ** Library functions against their reference outputs *)

Example sha256_empty :
  Hashlib.sha256_hexdigest ""
  = "e3b0c44298fc1c149afbf4c8996fb92427ae41e4649b934ca495991b7852b855".
Proof. vm_compute. reflexivity. Qed.

Example sha256_abc :
  Hashlib.sha256_hexdigest "abc"
  = "ba7816bf8f01cfea414140de5dae2223b00361a396177a9cb410ff61f20015ad".
Proof. vm_compute. reflexivity. Qed.

(** Fifty-six bytes need a second block. *)
Example sha256_two_blocks :
  Hashlib.sha256_hexdigest "aaaaaaaaaaaaaaaaaaaaaaaaaaaaaaaaaaaaaaaaaaaaaaaaaaaaaaaa"
  = "b35439a4ac6f0948b6d6f9e3c6af0f5f590ce20f1bde7090ef7970686ec6738a".
Proof. vm_compute. reflexivity. Qed.

Example b64encode_padding :
  map (fun s => Base64.b64encode (encode s)) ["Man"; "Ma"; "M"; ""]
  = ["TWFu"; "TWE="; "TQ=="; ""].
Proof. vm_compute. reflexivity. Qed.

Example strip_output :
  strip ("  key= " +:+ Registry.nl) = "key=".
Proof. vm_compute. reflexivity. Qed.

Example ip_to_string_host : ip_to_string (ip4 10 66 66 2) = "10.66.66.2".
Proof. vm_compute. reflexivity. Qed.

(** ** General lemmas *)

Lemma eqs_true (a b : string) : Registry.eqs a b = true <-> a = b.
Proof. unfold Registry.eqs. apply bool_decide_eq_true. Qed.

Lemma eqs_false (a b : string) : Registry.eqs a b = false <-> a <> b.
Proof. unfold Registry.eqs. apply bool_decide_eq_false. Qed.

Lemma find_unique {A} (P : A -> bool) (l : list A) (x : A) :
  In x l -> P x = true -> (forall y, In y l -> P y = true -> y = x) ->
  List.find P l = Some x.
Proof.
  induction l as [|y l IH]; simpl; intros Hin HP Huniq; [contradiction|].
  destruct (P y) eqn:HPy.
  - f_equal. apply Huniq; auto.
  - destruct Hin as [->|Hin]; [congruence|].
    apply IH; auto.
Qed.

Lemma In_insert_by {A} (key : A -> Z) (x y : A) (l : list A) :
  In y (insert_by key x l) <-> y = x \/ In y l.
Proof.
  induction l as [|z l IH]; simpl.
  - intuition.
  - destruct (key x <=? key z); simpl; [intuition|].
    rewrite IH. intuition.
Qed.

Lemma In_order_by {A} (key : A -> Z) (y : A) (l : list A) :
  In y (order_by key l) <-> In y l.
Proof.
  induction l as [|x l IH]; simpl; [tauto|].
  rewrite In_insert_by, IH. intuition.
Qed.

(** The first step of the gateway handlers: the server row of the
    authenticated gateway is looked up, and the handler ends with 404 when
    there is none. *)
Ltac lookup_server d server Hin Hname :=
  unfold Registry.bind, Registry.server_by_hostname, Registry.query, Registry.fetchrow;
  destruct (find _ (Registry.vpn_servers d)) as [server|] eqn:Hin;
  [apply find_some in Hin as [Hin Hname]; apply eqs_true in Hname|].

(** ** Gateway authentication (C5) *)

(** C5, as stated, fails: an unknown gateway identity and a wrong secret
    are both answered with status 401, but with two different errors. *)
Lemma gateway_auth_errors_differ :
  Registry.verify_gateway_token Sample.tokens "gw-nowhere" "s3cret-paris"
  = Registry.Raise (Registry.HTTPException 401 "Unknown gateway")
  /\ Registry.verify_gateway_token Sample.tokens "gw-paris" "guess"
     = Registry.Raise (Registry.HTTPException 401 "Invalid token")
  /\ Registry.verify_gateway_token Sample.tokens "gw-nowhere" "s3cret-paris"
     <> Registry.verify_gateway_token Sample.tokens "gw-paris" "guess".
Proof. vm_compute. repeat split; discriminate. Qed.

(** C5, amended: every attempt that one of the two checks rejects fails
    with status 401, and the detail of the error tells which check it was:
    "Unknown gateway" when the identity is not in [GATEWAY_TOKENS],
    "Invalid token" when the identity is known and the secret differs.  An
    attempt succeeds exactly when the secret is the one on record; the only
    other outcome is the [TypeError] of [compare_digest] on a non-ASCII
    secret. *)
Theorem verify_gateway_token_outcome
    (GATEWAY_TOKENS : gmap string string) (x_gateway_id x_gateway_token : string) :
  match Registry.verify_gateway_token GATEWAY_TOKENS x_gateway_id x_gateway_token with
  | Registry.Ok gateway_id =>
      gateway_id = x_gateway_id /\ GATEWAY_TOKENS !! x_gateway_id = Some x_gateway_token
  | Registry.Raise (Registry.HTTPException status_code detail) =>
      status_code = 401
      /\ ((GATEWAY_TOKENS !! x_gateway_id = None /\ detail = "Unknown gateway")
          \/ (exists expected,
                 GATEWAY_TOKENS !! x_gateway_id = Some expected
                 /\ expected <> x_gateway_token /\ detail = "Invalid token"))
  | Registry.Raise _ =>
      exists expected,
        GATEWAY_TOKENS !! x_gateway_id = Some expected
        /\ Registry.is_ascii expected && Registry.is_ascii x_gateway_token = false
  end.
Proof.
  unfold Registry.verify_gateway_token, Registry.compare_digest.
  destruct (GATEWAY_TOKENS !! x_gateway_id) as [expected|] eqn:Hlookup.
  - destruct (Registry.is_ascii expected && Registry.is_ascii x_gateway_token) eqn:Hascii.
    + destruct (Registry.eqs expected x_gateway_token) eqn:Heq.
      * apply eqs_true in Heq. subst. auto.
      * apply eqs_false in Heq. split; [reflexivity|]. right. eauto.
    + eauto.
  - split; [reflexivity|]. left. auto.
Qed.

(** ** State gating (C3) *)

(** C3, as stated, fails.  In [Sample.alice_disabled] Alice is disabled
    and Bob's [expires_at] is 88410.  The gateway pull of gw-paris lists
    both of them, and Bob's token still passes [verify_client_token]
    although the expiry lies in the past at any later time. *)
Lemma disabled_and_expired_peers_are_pulled :
  map (fun p => (Registry.PulledPeer.name p, Registry.PulledPeer.enabled p))
      (default [] (match (Registry.get_gateway_peers "gw-paris" Sample.alice_disabled).1 with
                   | Registry.Ok peers => Some peers
                   | Registry.Raise _ => None
                   end))
  = [("alice", false); ("bob", true)]
  /\ map (fun p => (Registry.Peer.name p, Registry.Peer.expires_at p))
         (Registry.vpn_peers Sample.alice_disabled)
     = [("alice", None); ("bob", Some 88410); ("carol", None)]
  /\ (Registry.verify_client_token "tok-bob" Sample.alice_disabled).1
     = Registry.Ok ("peer-2", "srv-1", true).
Proof. vm_compute. repeat split. Qed.

(** C3, amended: retrieval by a peer's bearer token fails with 403
    Forbidden exactly when the peer's [enabled] flag is false; [expires_at]
    is not consulted, so an enabled peer is never answered with 403,
    whatever its expiry.
    The gateway pull returns every peer row of the calling gateway, the
    disabled and the expired ones too, each with its [enabled] flag. *)
Theorem retrieval_follows_enabled_flag_and_pull_lists_all
    (generate_peer_config : Registry.db -> string -> option string)
    (d : Registry.db) (token gateway_id : string)
    (server : Registry.Server.row) (peer : Registry.Peer.row) :
  In peer (Registry.vpn_peers d) ->
  Registry.Peer.api_token_hash peer = Hashlib.sha256_hexdigest token ->
  (forall q, In q (Registry.vpn_peers d) ->
             Registry.Peer.api_token_hash q = Registry.Peer.api_token_hash peer -> q = peer) ->
  In server (Registry.vpn_servers d) ->
  Registry.Server.hostname server = gateway_id ->
  (forall s, In s (Registry.vpn_servers d) ->
             Registry.Server.hostname s = gateway_id -> s = server) ->
  Registry.Peer.server_id peer = Registry.Server.id server ->
  Registry.verify_client_token token d
  = (if Registry.Peer.enabled peer
     then Registry.Ok (Registry.Peer.id peer, Registry.Peer.server_id peer, true)
     else Registry.Raise (Registry.HTTPException 403 "Peer disabled"), d)
  /\ (Registry.Peer.enabled peer = false ->
      Registry.get_client_config generate_peer_config token d
      = (Registry.Raise (Registry.HTTPException 403 "Peer disabled"), d))
  /\ (Registry.Peer.enabled peer = true ->
      Registry.status_of (Registry.get_client_config generate_peer_config token d).1
      <> 403)
  /\ exists peers,
       Registry.get_gateway_peers gateway_id d = (Registry.Ok peers, d)
       /\ In (Registry.pulled peer) peers
       /\ Registry.PulledPeer.enabled (Registry.pulled peer) = Registry.Peer.enabled peer.
Proof.
  intros Hin Hhash Hpeer_unique Hsrv Hname Hsrv_unique Hsid.
  assert (Hverify :
    Registry.verify_client_token token d
    = (if Registry.Peer.enabled peer
       then Registry.Ok (Registry.Peer.id peer, Registry.Peer.server_id peer, true)
       else Registry.Raise (Registry.HTTPException 403 "Peer disabled"), d)).
  { unfold Registry.verify_client_token, Registry.bind, Registry.query, Registry.fetchrow.
    rewrite (find_unique _ _ peer); auto.
    - destruct (Registry.Peer.enabled peer) eqn:He; unfold Registry.ret, Registry.raise;
        rewrite ?He; reflexivity.
    - apply eqs_true. assumption.
    - intros q Hq Heq. apply eqs_true in Heq. apply Hpeer_unique; congruence. }
  split; [exact Hverify|]. split; [|split].
  - intros Hdisabled. unfold Registry.get_client_config, Registry.bind.
    rewrite Hverify, Hdisabled. reflexivity.
  - intros Henabled. unfold Registry.get_client_config, Registry.bind, Registry.query.
    rewrite Hverify, Henabled.
    destruct (Registry.truthy _); simpl; discriminate.
  - exists (map Registry.pulled
             (order_by Registry.Peer.created_at
                (Registry.peers_of (Registry.Server.id server) d))).
    split; [|split; [|reflexivity]].
    + unfold Registry.get_gateway_peers, Registry.bind, Registry.server_by_hostname,
        Registry.query, Registry.fetchrow.
      rewrite (find_unique _ _ server); auto.
      * apply eqs_true. assumption.
      * intros s Hs Heq. apply eqs_true in Heq. auto.
    + apply in_map, In_order_by. unfold Registry.peers_of.
      apply filter_In. split; [assumption|]. apply eqs_true. assumption.
Qed.

(** Bob, enabled and past his expiry, in [Sample.alice_disabled]. *)
Lemma retrieval_follows_enabled_flag_witness :
  Registry.Peer.expires_at Sample.bob = Some 88410
  /\ Registry.verify_client_token "tok-bob" Sample.alice_disabled
     = (Registry.Ok ("peer-2", "srv-1", true), Sample.alice_disabled)
  /\ exists peers,
       Registry.get_gateway_peers "gw-paris" Sample.alice_disabled
       = (Registry.Ok peers, Sample.alice_disabled)
       /\ In (Registry.pulled Sample.bob) peers.
Proof.
  destruct (retrieval_follows_enabled_flag_and_pull_lists_all
              (fun _ _ => None) Sample.alice_disabled "tok-bob" "gw-paris"
              Sample.paris Sample.bob)
    as (Hverify & _ & _ & peers & Hpull & Hlisted & _).
  - vm_compute. auto.
  - vm_compute. reflexivity.
  - intros q Hq Hhash. vm_compute in Hq, Hhash.
    destruct Hq as [<-|[<-|[<-|[]]]]; first [reflexivity | discriminate Hhash].
  - vm_compute. auto.
  - reflexivity.
  - intros s Hs Hname. vm_compute in Hs, Hname.
    destruct Hs as [<-|[<-|[]]]; first [reflexivity | discriminate Hname].
  - reflexivity.
  - split; [reflexivity|]. split; [exact Hverify|].
    exists peers. split; [exact Hpull|exact Hlisted].
Defined.

(** ** Telemetry (C4, C9) *)

(** C4 does not hold of the code.  Over two cycles Alice's interface
    counters read 1000/400 and then 1500/600 bytes, so the increments are
    1000/400 and 500/200 and the totals should end at 1500/600.  The agent
    addresses each report to the peer's public key, not to its registry id,
    and puts the interface's cumulative counters in it; the registry's
    [UPDATE ... WHERE id = $4] matches no row, and Alice's totals stay at
    zero.  Had the same two reports reached Alice's row (id peer-1), the
    registry would have added them up to 2500/1000. *)
Theorem telemetry_reports_miss_the_peer_row :
  map (fun r => (Agent.StatusReport.peer_id r, Agent.StatusReport.rx_bytes r,
                 Agent.StatusReport.tx_bytes r))
      (Agent.sync_peer_status Sample.paris_cycle_1 ++
       Agent.sync_peer_status Sample.paris_cycle_2)
  = [(Sample.key_alice, 1000, 400); (Sample.key_alice, 1500, 600)]
  /\ Sample.counters
       (Fleet.push_telemetry Sample.tokens "gw-paris" "s3cret-paris" Sample.paris_cycle_2
          (Fleet.push_telemetry Sample.tokens "gw-paris" "s3cret-paris" Sample.paris_cycle_1
             Sample.three_peers))
     = [("alice", "srv-1", 0, 0); ("bob", "srv-1", 0, 0); ("carol", "srv-2", 0, 0)]
  /\ Sample.counters
       (Registry.sync_peer_status "peer-1" (Some 5060) 1500 600 "gw-paris"
          (Registry.sync_peer_status "peer-1" (Some 5000) 1000 400 "gw-paris"
             Sample.three_peers).2).2
     = [("alice", "srv-1", 2500, 1000); ("bob", "srv-1", 0, 0); ("carol", "srv-2", 0, 0)].
Proof. vm_compute. repeat split. Qed.

(** C9 does not hold of the code.  Carol (peer-3) is a peer of gw-oslo
    (srv-2).  A telemetry push authenticated as gw-paris and addressed to
    peer-3 is accepted and changes Carol's counters: [sync_peer_status]
    selects the row by id alone and never looks at the authenticated
    gateway. *)
Theorem telemetry_push_changes_another_gateways_peer :
  Sample.counters Sample.three_peers
  = [("alice", "srv-1", 0, 0); ("bob", "srv-1", 0, 0); ("carol", "srv-2", 0, 0)]
  /\ (Registry.gateway_endpoint Sample.tokens "gw-paris" "s3cret-paris"
        (Registry.sync_peer_status "peer-3" None 10 20) Sample.three_peers).1
     = Registry.Ok "synced"
  /\ Sample.counters
       (Registry.gateway_endpoint Sample.tokens "gw-paris" "s3cret-paris"
          (Registry.sync_peer_status "peer-3" None 10 20) Sample.three_peers).2
     = [("alice", "srv-1", 0, 0); ("bob", "srv-1", 0, 0); ("carol", "srv-2", 10, 20)].
Proof. vm_compute. repeat split. Qed.

(** Every report of the agent is addressed to a public key of the
    interface and carries that peer's counters as [wg] shows them. *)
Lemma status_reports_carry_interface_counters (m : Agent.machine)
    (r : Agent.StatusReport.t) :
  In r (Agent.sync_peer_status m) ->
  exists p,
    In p (Agent.interface m)
    /\ Agent.StatusReport.peer_id r = Agent.WgPeer.public_key p
    /\ Agent.StatusReport.last_handshake r = Agent.WgPeer.latest_handshake p
    /\ Agent.StatusReport.rx_bytes r = Agent.WgPeer.transfer_rx p
    /\ Agent.StatusReport.tx_bytes r = Agent.WgPeer.transfer_tx p.
Proof.
  unfold Agent.sync_peer_status, Agent.get_wg_peers. intros H.
  apply list_elem_of_In, list_elem_of_omap in H as (lp & Hlp & Hreport).
  apply list_elem_of_fmap in Hlp as (p & -> & Hp). apply list_elem_of_In in Hp.
  exists p. split; [exact Hp|].
  unfold Agent.parse_dump_line in Hreport. simpl in Hreport.
  destruct (Agent.WgPeer.latest_handshake p =? 0) eqn:Hzero; [discriminate|].
  rewrite Hzero in Hreport. injection Hreport as <-. simpl. auto.
Qed.

(** The registry's [sync_peer_status] does the same whatever gateway was
    authenticated. *)
Lemma sync_peer_status_ignores_the_gateway (peer_id : string) (last_handshake : option Z)
    (rx_bytes tx_bytes : Z) (gateway_1 gateway_2 : string) (d : Registry.db) :
  Registry.sync_peer_status peer_id last_handshake rx_bytes tx_bytes gateway_1 d
  = Registry.sync_peer_status peer_id last_handshake rx_bytes tx_bytes gateway_2 d.
Proof. reflexivity. Qed.

(** Its sibling [get_gateway_peers] answers with rows of the
    authenticated gateway only. *)
Lemma pulled_peers_belong_to_the_gateway (gateway_id : string) (d d' : Registry.db)
    (peers : list Registry.PulledPeer.t) (pp : Registry.PulledPeer.t) :
  Registry.get_gateway_peers gateway_id d = (Registry.Ok peers, d') ->
  In pp peers ->
  exists server p,
    In server (Registry.vpn_servers d)
    /\ Registry.Server.hostname server = gateway_id
    /\ In p (Registry.vpn_peers d)
    /\ Registry.Peer.server_id p = Registry.Server.id server
    /\ pp = Registry.pulled p.
Proof.
  unfold Registry.get_gateway_peers.
  lookup_server d server Hin Hname; [|discriminate].
  unfold Registry.ret. intros [= <- <-] Hpp.
  apply in_map_iff in Hpp as (p & <- & Hp).
  apply In_order_by, filter_In in Hp as [Hp Hsid]. apply eqs_true in Hsid.
  exists server, p. auto.
Qed.

(** So does [create_peer]: the row it adds is a row of the authenticated
    gateway, and no other row changes. *)
Lemma created_peer_belongs_to_the_gateway
    (peer_constraints : list Registry.Peer.row -> Registry.Peer.row -> bool)
    (peer : Registry.PeerCreate.t) (gateway_id : string) (utcnow : Z)
    (token_urlsafe fresh_id : string) (d d' : Registry.db)
    (response : string * string * string) :
  Registry.create_peer peer_constraints peer gateway_id utcnow token_urlsafe fresh_id d
  = (Registry.Ok response, d') ->
  exists server row,
    In server (Registry.vpn_servers d)
    /\ Registry.Server.hostname server = gateway_id
    /\ Registry.Peer.server_id row = Registry.Server.id server
    /\ d' = Registry.with_peers (Registry.vpn_peers d ++ [row]) d.
Proof.
  unfold Registry.create_peer.
  lookup_server d server Hin Hname; [|discriminate].
  unfold Registry.allocate_ip.
  destruct (Registry.first_free _ _ _); [|discriminate].
  unfold Registry.insert_peer. destruct (peer_constraints _ _); [|discriminate].
  unfold Registry.ret. intros [= <- <-].
  eexists server, _. repeat split; [exact Hin|exact Hname|reflexivity].
Qed.

(** ** Key generation (C7) *)

(** C7, as stated, fails.  On a host where [wg] is installed the keys
    are the output of [wg genkey] and [wg pubkey], two external processes,
    although the X25519 primitive is available; on a host whose [wg genkey]
    exits with an error, generation fails with status 500 and the primitive
    is not tried. *)
Lemma keypair_generation_shells_out_first :
  Registry.cryptography_installed Sample.host_with_wg = true
  /\ Registry.generate_wireguard_keypair Sample.host_with_wg
     = (Registry.Ok ("d2ctcHJpdmF0ZS1rZXktMDAwMDAwMDAwMDAwMDAwMDA=",
                     "d2ctcHVibGljLWtleS0wMDAwMDAwMDAwMDAwMDAwMDA="),
        [["wg"; "genkey"]; ["wg"; "pubkey"]])
  /\ Registry.cryptography_installed Sample.host_wg_failing = true
  /\ Registry.generate_wireguard_keypair Sample.host_wg_failing
     = (Registry.Raise (Registry.HTTPException 500 "Key generation failed"),
        [["wg"; "genkey"]]).
Proof. vm_compute. repeat split. Qed.

(** C7, amended: the primary path of keypair generation shells out to the
    external [wg] utility ([wg genkey], then [wg pubkey]) and returns its
    output.  The in-process X25519 primitive is the fallback, taken only
    when the [wg] binary is not found: key generation then succeeds without
    any external process, provided the [cryptography] package can be
    imported.  When [wg] is present and exits with an error, generation
    fails with status 500 and the primitive is not tried. *)
Theorem keypair_generation_paths (h : Registry.host) :
  (Registry.subprocess_run h ["wg"; "genkey"] None = Registry.FileNotFoundError ->
   Registry.cryptography_installed h = true ->
   Registry.generate_wireguard_keypair h
   = (Registry.Ok (Base64.b64encode (Registry.X25519PrivateKey_generate h).1,
                   Base64.b64encode (Registry.X25519PrivateKey_generate h).2), []))
  /\ (forall out out',
        Registry.subprocess_run h ["wg"; "genkey"] None = Registry.CompletedProcess 0 out ->
        Registry.subprocess_run h ["wg"; "pubkey"] (Some (strip out))
        = Registry.CompletedProcess 0 out' ->
        Registry.generate_wireguard_keypair h
        = (Registry.Ok (strip out, strip out'), [["wg"; "genkey"]; ["wg"; "pubkey"]]))
  /\ (forall returncode out,
        Registry.subprocess_run h ["wg"; "genkey"] None
        = Registry.CompletedProcess returncode out ->
        returncode <> 0 ->
        Registry.generate_wireguard_keypair h
        = (Registry.Raise (Registry.HTTPException 500 "Key generation failed"),
           [["wg"; "genkey"]])).
Proof.
  unfold Registry.generate_wireguard_keypair.
  split; [|split].
  - intros -> ->. destruct (Registry.X25519PrivateKey_generate h). reflexivity.
  - intros out out' -> ->. reflexivity.
  - intros returncode out -> Hrc.
    destruct (Z.eqb_spec returncode 0); [contradiction|reflexivity].
Qed.

(** Without [wg], the keys are those of the X25519 primitive and no
    process is started. *)
Lemma keypair_generation_paths_witness :
  Registry.generate_wireguard_keypair Sample.host_without_wg
  = (Registry.Ok ("AAECAwQFBgcICQoLDA0ODxAREhMUFRYXGBkaGxwdHh8=",
                  "ICEiIyQlJicoKSorLC0uLzAxMjM0NTY3ODk6Ozw9Pj8="), []).
Proof.
  exact (proj1 (keypair_generation_paths Sample.host_without_wg) eq_refl eq_refl).
Defined.

(** ** Peer creation (C2, C6) *)


Section Creation.

Variable peer_constraints : list Registry.Peer.row -> Registry.Peer.row -> bool.



End Creation.


(** ** Address allocation (C6) *)

(** The first element of an enumeration that passes a test: every
    earlier element fails it. *)
Lemma find_map_seq {A} (P : A -> bool) (f : nat -> A) (s k : nat) (a : A) :
  List.find P (map f (seq s k)) = Some a ->
  exists i, (s <= i < s + k)%nat /\ a = f i /\ P (f i) = true
            /\ forall j, (s <= j < i)%nat -> P (f j) = false.
Proof.
  revert s. induction k as [|k IH]; intros s; simpl; [discriminate|].
  destruct (P (f s)) eqn:HP.
  - intros [= <-]. exists s. repeat split; try lia; auto.
  - intros H. destruct (IH _ H) as (i & Hi & -> & HPi & Hless).
    exists i. repeat split; try lia; auto.
    intros j Hj. destruct (decide (j = s)) as [->|]; [exact HP|].
    apply Hless. lia.
Qed.

Lemma lowest_free_spec (d : Registry.db) (server_id : string) (pool : Registry.Pool.row)
    (a : ipv4) :
  Registry.lowest_free d server_id pool = Some a ->
  network_address (Registry.Pool.network pool) < a
  /\ a < broadcast_address (Registry.Pool.network pool)
  /\ Registry.address_free d server_id pool a = true
  /\ forall b, network_address (Registry.Pool.network pool) < b < a ->
               Registry.address_free d server_id pool b = false.
Proof.
  unfold Registry.lowest_free, hosts, seqZ. intros H.
  apply find_map_seq in H as (i & Hi & -> & Hfree & Hless).
  unfold broadcast_address. repeat split; try lia; [exact Hfree|].
  intros b Hb.
  replace b with (Z.of_nat (Z.to_nat (b - network_address (Registry.Pool.network pool) - 1))
                  + (network_address (Registry.Pool.network pool) + 1)) by lia.
  apply Hless. lia.
Qed.

Lemma first_free_spec (d : Registry.db) (server_id : string)
    (pools : list Registry.Pool.row) (a : ipv4) :
  Registry.first_free d server_id pools = Some a ->
  exists pool, In pool pools /\ Registry.lowest_free d server_id pool = Some a.
Proof.
  induction pools as [|pool pools IH]; simpl; [discriminate|].
  destruct (Registry.lowest_free d server_id pool) as [a'|] eqn:Hlow.
  - intros [= <-]. eauto.
  - intros H. destruct (IH H) as (pool' & Hin & Hlow'). eauto.
Qed.

Lemma address_free_true (d : Registry.db) (server_id : string) (pool : Registry.Pool.row)
    (a : ipv4) :
  Registry.address_free d server_id pool a = true ->
  a <> Registry.Pool.gateway pool
  /\ forall q, In q (Registry.vpn_peers d) -> Registry.Peer.server_id q = server_id ->
               Registry.Peer.assigned_ip q <> a.
Proof.
  unfold Registry.address_free. intros H.
  apply andb_true_iff in H as [Hgw Hused].
  apply negb_true_iff in Hgw, Hused. split; [lia|].
  intros q Hq Hsid Heq.
  assert (Hex : existsb (fun p => Registry.Peer.assigned_ip p =? a)
                        (Registry.peers_of server_id d) = true).
  { apply existsb_exists. exists q. split; [|lia].
    apply filter_In. split; [exact Hq|]. apply eqs_true. exact Hsid. }
  congruence.
Qed.

Lemma address_free_false (d : Registry.db) (server_id : string) (pool : Registry.Pool.row)
    (b : ipv4) :
  Registry.address_free d server_id pool b = false ->
  b = Registry.Pool.gateway pool
  \/ exists q, In q (Registry.vpn_peers d) /\ Registry.Peer.server_id q = server_id
               /\ Registry.Peer.assigned_ip q = b.
Proof.
  unfold Registry.address_free. intros H.
  apply andb_false_iff in H as [Hgw|Hused]; apply negb_false_iff in Hgw || apply negb_false_iff in Hused.
  - left. lia.
  - right. apply existsb_exists in Hused as (q & Hq & Heq).
    apply filter_In in Hq as [Hq Hsid]. apply eqs_true in Hsid.
    exists q. repeat split; auto. lia.
Qed.

(** C6: every creation answers with the lowest free address of a pool of
    its gateway: an address strictly between the network and the broadcast
    address of the pool, other than the pool's gateway address, that no
    peer row of the gateway holds, every lower such address being the
    gateway's or held by a peer.  On the pool 10.66.66.0/24 with gateway
    address .1, three creations give .2, .3 and .4, and after the deletion
    of the peer at .3 the next creation gives .3 again. *)
Theorem creation_allocates_lowest_free_address
    (peer_constraints : list Registry.Peer.row -> Registry.Peer.row -> bool) :
  (forall peer gateway_id utcnow token_urlsafe fresh_id d peer_id assigned_ip
          client_token d',
      Registry.create_peer peer_constraints peer gateway_id utcnow token_urlsafe
        fresh_id d
      = (Registry.Ok (peer_id, assigned_ip, client_token), d') ->
      exists server pool a,
        In server (Registry.vpn_servers d)
        /\ Registry.Server.hostname server = gateway_id
        /\ In pool (Registry.ip_pools d)
        /\ Registry.Pool.server_id pool = Registry.Server.id server
        /\ assigned_ip = ip_to_string a
        /\ network_address (Registry.Pool.network pool) < a
        /\ a < broadcast_address (Registry.Pool.network pool)
        /\ a <> Registry.Pool.gateway pool
        /\ (forall q, In q (Registry.vpn_peers d) ->
                      Registry.Peer.server_id q = Registry.Server.id server ->
                      Registry.Peer.assigned_ip q <> a)
        /\ (forall b, network_address (Registry.Pool.network pool) < b < a ->
                      b = Registry.Pool.gateway pool
                      \/ exists q, In q (Registry.vpn_peers d)
                                   /\ Registry.Peer.server_id q = Registry.Server.id server
                                   /\ Registry.Peer.assigned_ip q = b))
  /\ Sample.lowest_free_scenario
     = ["10.66.66.2"; "10.66.66.3"; "10.66.66.4"; "10.66.66.3"].
Proof.
  split; [|vm_compute; reflexivity].
  intros * H. revert H. unfold Registry.create_peer.
  lookup_server d server Hin Hname; [|discriminate]. intros H.
  unfold Registry.allocate_ip in H.
  destruct (Registry.first_free d (Registry.Server.id server)
              (Registry.pools_of (Registry.Server.id server) d)) as [a|] eqn:Hfree;
    [|discriminate].
  unfold Registry.insert_peer in H.
  destruct (peer_constraints _ _); [|discriminate].
  unfold Registry.ret in H. injection H as <- <- <- <-.
  apply first_free_spec in Hfree as (pool & Hpool & Hlow).
  apply filter_In in Hpool as [Hpool Hsid]. apply eqs_true in Hsid.
  apply lowest_free_spec in Hlow as (Hnet & Hbc & Hfree & Hless).
  apply address_free_true in Hfree as [Hgw Hunused].
  exists server, pool, a. simpl.
  repeat split; auto.
  intros b Hb. apply (address_free_false d _ pool). apply Hless. exact Hb.
Qed.

(** Dave joins gw-paris, where Alice holds .2 and Bob .3. *)
Lemma creation_allocates_lowest_free_address_witness :
  exists pool a,
    In pool (Registry.ip_pools Sample.three_peers)
    /\ "10.66.66.4" = ip_to_string a
    /\ network_address (Registry.Pool.network pool) < a
    /\ a < broadcast_address (Registry.Pool.network pool).
Proof.
  destruct (proj1 (creation_allocates_lowest_free_address Sample.unconstrained)
              (Sample.peer_request "dave" Sample.key_dave None)
              "gw-paris" 3000 "tok-dave" "peer-4" Sample.three_peers
              "peer-4" "10.66.66.4" "tok-dave"
              (Registry.create_peer Sample.unconstrained
                 (Sample.peer_request "dave" Sample.key_dave None)
                 "gw-paris" 3000 "tok-dave" "peer-4" Sample.three_peers).2)
    as (server & pool & a & _ & _ & Hpool & _ & Hip & Hnet & Hbc & _).
  - vm_compute. reflexivity.
  - exists pool, a. auto.
Defined.

(** ** Gateway registration (C8) *)

Lemma on_conflict_update_None (hostname : string) (f : Registry.Server.row -> Registry.Server.row)
    (rows : list Registry.Server.row) :
  Registry.on_conflict_update hostname f rows = None ->
  ~ In hostname (map Registry.Server.hostname rows).
Proof.
  induction rows as [|r rows IH]; simpl; [tauto|].
  destruct (Registry.eqs (Registry.Server.hostname r) hostname) eqn:Heq; [discriminate|].
  apply eqs_false in Heq.
  destruct (Registry.on_conflict_update hostname f rows) as [[? ?]|]; [discriminate|].
  intros _ [H|H]; [congruence|]. apply IH; auto.
Qed.

Lemma on_conflict_update_Some (hostname : string) (f : Registry.Server.row -> Registry.Server.row)
    (rows rows' : list Registry.Server.row) (r' : Registry.Server.row) :
  Registry.on_conflict_update hostname f rows = Some (rows', r') ->
  exists before r after,
    rows = before ++ r :: after
    /\ ~ In hostname (map Registry.Server.hostname before)
    /\ Registry.Server.hostname r = hostname
    /\ rows' = before ++ f r :: after
    /\ r' = f r.
Proof.
  revert rows'. induction rows as [|r rows IH]; simpl; intros rows'; [discriminate|].
  destruct (Registry.eqs (Registry.Server.hostname r) hostname) eqn:Heq.
  - apply eqs_true in Heq. intros [= <- <-].
    exists [], r, rows. simpl. auto.
  - apply eqs_false in Heq.
    destruct (Registry.on_conflict_update hostname f rows) as [[rest' r'']|]; [|discriminate].
    intros [= <- <-].
    destruct (IH rest' eq_refl) as (before & r0 & after & -> & Hbefore & Hname & -> & ->).
    exists (r :: before), r0, after. simpl. repeat split; auto.
    intros [H|H]; [congruence|auto].
Qed.

Lemma on_conflict_update_found (hostname : string) (f : Registry.Server.row -> Registry.Server.row)
    (before after : list Registry.Server.row) (r : Registry.Server.row) :
  ~ In hostname (map Registry.Server.hostname before) ->
  Registry.Server.hostname r = hostname ->
  Registry.on_conflict_update hostname f (before ++ r :: after)
  = Some (before ++ f r :: after, f r).
Proof.
  intros Hbefore Hname. induction before as [|x before IH]; simpl.
  - rewrite (proj2 (eqs_true _ _) Hname). reflexivity.
  - simpl in Hbefore.
    rewrite (proj2 (eqs_false (Registry.Server.hostname x) hostname)) by tauto.
    rewrite IH by tauto. reflexivity.
Qed.

(** What a registration leaves in [vpn_servers]: the row of the hostname,
    carrying the gateway data of the request, at the place it had or at
    the end. *)
Lemma upsert_server_shape (server : Registry.ServerRegistration.t) (now : Z)
    (fresh_id : string) (d : Registry.db) :
  exists before r0 after,
    (Registry.upsert_server server now fresh_id d).1
    = Registry.Ok (Registry.excluded server now r0)
    /\ Registry.vpn_servers (Registry.upsert_server server now fresh_id d).2
       = before ++ Registry.excluded server now r0 :: after
    /\ Registry.ip_pools (Registry.upsert_server server now fresh_id d).2
       = Registry.ip_pools d
    /\ Registry.vpn_peers (Registry.upsert_server server now fresh_id d).2
       = Registry.vpn_peers d
    /\ ~ In (Registry.ServerRegistration.hostname server)
            (map Registry.Server.hostname before)
    /\ Registry.Server.hostname r0 = Registry.ServerRegistration.hostname server
    /\ (List.NoDup (map Registry.Server.hostname (Registry.vpn_servers d)) ->
        List.NoDup
          (map Registry.Server.hostname
               (Registry.vpn_servers (Registry.upsert_server server now fresh_id d).2))).
Proof.
  unfold Registry.upsert_server.
  destruct (Registry.on_conflict_update _ _ (Registry.vpn_servers d)) as [[rows r']|] eqn:Hupd.
  - apply on_conflict_update_Some in Hupd
      as (before & r & after & Hrows & Hbefore & Hname & -> & ->).
    exists before, r, after. simpl. repeat split; auto.
    rewrite Hrows, !map_app. simpl. auto.
  - apply on_conflict_update_None in Hupd.
    exists (Registry.vpn_servers d), (Registry.inserted server now fresh_id), []. simpl.
    repeat split; auto.
    intros Hnodup. rewrite map_app. simpl.
    apply (List.NoDup_Add (List.Add_app _ _ [])). rewrite app_nil_r. auto.
Qed.

Lemma count_unique {A} (f : A -> string) (h : string) (before after : list A) (r : A) :
  List.NoDup (map f (before ++ r :: after)) -> f r = h ->
  List.filter (fun x => Registry.eqs (f x) h) (before ++ r :: after) = [r].
Proof.
  intros Hnodup Hname.
  assert (Hnone : forall l, ~ In h (map f l) -> List.filter (fun x => Registry.eqs (f x) h) l = []).
  { induction l as [|x l IH]; simpl; [reflexivity|]. intros Hnot.
    rewrite (proj2 (eqs_false (f x) h)) by tauto. apply IH. tauto. }
  rewrite map_app in Hnodup. simpl in Hnodup. rewrite Hname in Hnodup.
  pose proof (List.NoDup_remove_2 _ _ _ Hnodup) as Hnot.
  rewrite List.filter_app. simpl. rewrite (proj2 (eqs_true (f r) h)) by assumption.
  rewrite !Hnone; [reflexivity| |]; intros Hin; apply Hnot, in_or_app; auto.
Qed.

Lemma insert_pool_do_nothing_present (server_id : string) (d : Registry.db) :
  Registry.has_default_pool server_id d = true ->
  Registry.insert_pool_do_nothing server_id d = (Registry.Ok tt, d).
Proof.
  unfold Registry.insert_pool_do_nothing, Registry.has_default_pool, Registry.execute.
  intros ->. reflexivity.
Qed.

Lemma insert_pool_do_nothing_shape (server_id : string) (d : Registry.db) :
  (Registry.insert_pool_do_nothing server_id d).1 = Registry.Ok tt
  /\ Registry.vpn_servers (Registry.insert_pool_do_nothing server_id d).2
     = Registry.vpn_servers d
  /\ Registry.vpn_peers (Registry.insert_pool_do_nothing server_id d).2
     = Registry.vpn_peers d
  /\ Registry.has_default_pool server_id (Registry.insert_pool_do_nothing server_id d).2 = true.
Proof.
  unfold Registry.insert_pool_do_nothing, Registry.execute, Registry.has_default_pool.
  destruct (existsb _ (Registry.ip_pools d)) eqn:Hex; simpl; repeat split; auto.
  rewrite existsb_app. simpl.
  rewrite (proj2 (eqs_true server_id server_id)) by reflexivity.
  apply orb_true_r.
Qed.

(** C8: registration is idempotent.  In a registry whose hostnames are
    unique, registering the same gateway data twice answers both times
    with the same server id, leaves exactly one row of [vpn_servers] with
    that hostname and as many rows as after the first call, changes nothing
    in that row but [updated_at], and leaves [ip_pools], which holds the
    gateway's pool 10.66.66.0/24 after the first call, and [vpn_peers] as
    the first call left them. *)
Theorem register_gateway_is_idempotent
    (server : Registry.ServerRegistration.t) (gateway_id : string)
    (now1 now2 : Z) (id1 id2 : string) (d d1 d2 : Registry.db)
    (r1 r2 : Registry.reply (string * string)) :
  List.NoDup (map Registry.Server.hostname (Registry.vpn_servers d)) ->
  Registry.register_gateway server gateway_id now1 id1 d = (r1, d1) ->
  Registry.register_gateway server gateway_id now2 id2 d1 = (r2, d2) ->
  (exists server_id,
      r1 = Registry.Ok (server_id, Registry.ServerRegistration.hostname server)
      /\ r2 = r1
      /\ exists pool,
           In pool (Registry.ip_pools d1)
           /\ Registry.Pool.server_id pool = server_id
           /\ network_address (Registry.Pool.network pool) = ip4 10 66 66 0
           /\ prefixlen (Registry.Pool.network pool) = 24)
  /\ length (List.filter
               (fun r => Registry.eqs (Registry.Server.hostname r)
                           (Registry.ServerRegistration.hostname server))
               (Registry.vpn_servers d2)) = 1%nat
  /\ length (Registry.vpn_servers d2) = length (Registry.vpn_servers d1)
  /\ Registry.vpn_servers d2
     = map (fun r => if Registry.eqs (Registry.Server.hostname r)
                          (Registry.ServerRegistration.hostname server)
                     then Registry.Server.set_updated_at now2 r else r)
           (Registry.vpn_servers d1)
  /\ Registry.ip_pools d2 = Registry.ip_pools d1
  /\ Registry.vpn_peers d2 = Registry.vpn_peers d1.
Proof.
  intros Hnodup H1 H2.
  unfold Registry.register_gateway, Registry.bind in H1.
  destruct (upsert_server_shape server now1 id1 d)
    as (before & r0 & after & Hres & Hservers & Hpools & Hpeers & Hbefore & Hname & Hkeep).
  specialize (Hkeep Hnodup).
  destruct (Registry.upsert_server server now1 id1 d) as [res dU].
  cbn [fst snd] in *. subst res.
  set (R := Registry.excluded server now1 r0) in *.
  destruct (insert_pool_do_nothing_shape (Registry.Server.id R) dU)
    as (Hok & Hservers' & Hpeers' & Hpool).
  destruct (Registry.insert_pool_do_nothing (Registry.Server.id R) dU) as [res dP].
  cbn [fst snd] in *. subst res. unfold Registry.ret in H1. injection H1 as <- <-.
  assert (HnameR : Registry.Server.hostname R = Registry.ServerRegistration.hostname server)
    by exact Hname.
  (* the second call *)
  unfold Registry.register_gateway, Registry.bind, Registry.upsert_server in H2.
  rewrite Hservers', Hservers in H2.
  rewrite (on_conflict_update_found _ _ before after R Hbefore HnameR) in H2.
  change (Registry.Server.id (Registry.excluded server now2 R)) with (Registry.Server.id R) in H2.
  rewrite insert_pool_do_nothing_present in H2 by exact Hpool.
  unfold Registry.ret in H2. injection H2 as <- <-. cbn [fst snd].
  change (Registry.Server.hostname (Registry.excluded server now2 R))
    with (Registry.Server.hostname R).
  change (Registry.excluded server now2 R) with (Registry.Server.set_updated_at now2 R).
  cbn [Registry.vpn_servers Registry.ip_pools Registry.vpn_peers Registry.with_servers].
  split; [|split; [|split; [|split; [|split]]]]; try reflexivity.
  - exists (Registry.Server.id R). split; [rewrite <- HnameR; reflexivity|].
    split; [reflexivity|].
    unfold Registry.has_default_pool in Hpool. apply existsb_exists in Hpool as (pool & Hin & Hp).
    apply andb_true_iff in Hp as [Hsid Hnet]. apply eqs_true in Hsid.
    unfold Registry.same_network in Hnet. apply andb_true_iff in Hnet as [Ha Hl].
    apply Z.eqb_eq in Ha, Hl.
    exists pool. split; [exact Hin|]. split; [exact Hsid|]. split; [exact Ha|exact Hl].
  - rewrite (count_unique Registry.Server.hostname _ before after
               (Registry.Server.set_updated_at now2 R)); [reflexivity| |exact HnameR].
    rewrite Hservers in Hkeep. rewrite map_app in Hkeep |- *. exact Hkeep.
  - rewrite Hservers', Hservers, !length_app. reflexivity.
  - rewrite Hservers', Hservers, map_app. cbn [map].
    rewrite (proj2 (eqs_true _ _) HnameR).
    assert (Hid : forall l, ~ In (Registry.ServerRegistration.hostname server)
                              (map Registry.Server.hostname l) ->
                  map (fun r => if Registry.eqs (Registry.Server.hostname r)
                                     (Registry.ServerRegistration.hostname server)
                                then Registry.Server.set_updated_at now2 r else r) l = l).
    { induction l as [|x l IH]; simpl; [reflexivity|]. intros Hnot.
      rewrite (proj2 (eqs_false _ _)) by tauto. rewrite IH by tauto. reflexivity. }
    rewrite Hservers in Hkeep. rewrite map_app in Hkeep. cbn [map] in Hkeep.
    pose proof (List.NoDup_remove_2 _ _ _ Hkeep) as Hnot.
    rewrite !Hid; [reflexivity| |].
    + intros Hin. apply Hnot. rewrite HnameR. apply in_or_app. auto.
    + exact Hbefore.
Qed.

(** Registering gw-paris twice in the empty registry. *)
Lemma register_gateway_is_idempotent_witness :
  length (Registry.vpn_servers
            (Registry.register_gateway (Sample.registration "gw-paris" "203.0.113.5")
               "gw-paris" 1060 "srv-9"
               (Registry.register_gateway (Sample.registration "gw-paris" "203.0.113.5")
                  "gw-paris" 1000 "srv-1" Sample.empty_db).2).2) = 1%nat.
Proof.
  destruct (register_gateway_is_idempotent
              (Sample.registration "gw-paris" "203.0.113.5") "gw-paris" 1000 1060
              "srv-1" "srv-9" Sample.empty_db _ _ _ _
              (List.NoDup_nil _) eq_refl eq_refl)
    as (_ & _ & Hlen & _).
  exact Hlen.
Defined.

(** ** The interface under the agent's commands *)

#[local] Arguments Agent.find_peer : simpl never.

Section Commands.

Implicit Types (m : Agent.machine) (l : list Agent.WgPeer.t) (key : string).

Lemma has_peer_true key l :
  Agent.has_peer key l = true <-> Agent.find_peer key l <> None.
Proof. unfold Agent.has_peer. destruct (Agent.find_peer key l); split; congruence. Qed.

Lemma has_peer_false key l :
  Agent.has_peer key l = false <-> Agent.find_peer key l = None.
Proof. unfold Agent.has_peer. destruct (Agent.find_peer key l); split; congruence. Qed.

Lemma find_peer_cons key (p : Agent.WgPeer.t) l :
  Agent.find_peer key (p :: l)
  = if bool_decide (Agent.WgPeer.public_key p = key) then Some p else Agent.find_peer key l.
Proof. reflexivity. Qed.

Lemma find_peer_snoc_other key (p : Agent.WgPeer.t) l :
  Agent.WgPeer.public_key p <> key ->
  Agent.find_peer key (l ++ [p]) = Agent.find_peer key l.
Proof.
  intros Hne. induction l as [|q l IH]; simpl.
  - rewrite find_peer_cons, bool_decide_eq_false_2 by assumption. reflexivity.
  - rewrite !find_peer_cons, IH. reflexivity.
Qed.

Lemma has_peer_snoc_same (p : Agent.WgPeer.t) l :
  Agent.has_peer (Agent.WgPeer.public_key p) (l ++ [p]) = true.
Proof.
  apply has_peer_true. induction l as [|q l IH]; simpl; rewrite find_peer_cons.
  - rewrite bool_decide_eq_true_2 by reflexivity. discriminate.
  - destruct (bool_decide _); [discriminate|exact IH].
Qed.

Lemma find_peer_set_other key key' ips psk l :
  key' <> key ->
  Agent.find_peer key (Agent.set_peer key' ips psk l) = Agent.find_peer key l.
Proof.
  intros Hne. unfold Agent.set_peer. destruct (Agent.has_peer key' l).
  - induction l as [|p l IH]; [reflexivity|]. simpl. rewrite !find_peer_cons, IH.
    destruct (bool_decide (Agent.WgPeer.public_key p = key')) eqn:Hp; [|reflexivity].
    apply bool_decide_eq_true in Hp. simpl.
    rewrite !bool_decide_eq_false_2 by congruence. reflexivity.
  - apply find_peer_snoc_other. simpl. assumption.
Qed.

Lemma has_peer_set_same key ips psk l :
  Agent.has_peer key (Agent.set_peer key ips psk l) = true.
Proof.
  unfold Agent.set_peer. destruct (Agent.has_peer key l) eqn:Hhas.
  - apply has_peer_true in Hhas. apply has_peer_true.
    induction l as [|p l IH]; [exfalso; apply Hhas; reflexivity|].
    simpl. rewrite find_peer_cons in Hhas |- *.
    destruct (bool_decide (Agent.WgPeer.public_key p = key)) eqn:Hp.
    + simpl. rewrite Hp. discriminate.
    + rewrite Hp. auto.
  - apply (has_peer_snoc_same (Agent.configure ips psk (Agent.blank key))).
Qed.

Lemma find_peer_remove_other key key' l :
  key' <> key ->
  Agent.find_peer key (Agent.remove_peer key' l) = Agent.find_peer key l.
Proof.
  intros Hne. induction l as [|p l IH]; [reflexivity|]. simpl.
  destruct (bool_decide (Agent.WgPeer.public_key p = key')) eqn:Hp; simpl.
  - apply bool_decide_eq_true in Hp.
    rewrite find_peer_cons, bool_decide_eq_false_2 by congruence. exact IH.
  - rewrite !find_peer_cons, IH. reflexivity.
Qed.

Lemma has_peer_remove_same key l :
  Agent.has_peer key (Agent.remove_peer key l) = false.
Proof.
  apply has_peer_false. induction l as [|p l IH]; [reflexivity|]. simpl.
  destruct (bool_decide (Agent.WgPeer.public_key p = key)) eqn:Hp; simpl; [exact IH|].
  rewrite find_peer_cons, Hp. exact IH.
Qed.

(** The dictionary built before the loop knows exactly the peers of the
    interface. *)
Lemma local_peers_lookup_None m key :
  Agent.local_peers m !! key = None <-> Agent.find_peer key (Agent.interface m) = None.
Proof.
  unfold Agent.local_peers, Agent.get_wg_peers.
  assert (H : forall l (acc : gmap string Agent.LocalPeer.t),
             fold_left (fun acc p => <[Agent.LocalPeer.public_key p := p]> acc)
                       (map Agent.parse_dump_line l) acc !! key = None
             <-> acc !! key = None /\ Agent.find_peer key l = None).
  { induction l as [|p l IH]; intros acc; simpl.
    - unfold Agent.find_peer. simpl. tauto.
    - rewrite IH, lookup_insert_None, find_peer_cons.
      destruct (bool_decide (Agent.WgPeer.public_key p = key)) eqn:Hp.
      + apply bool_decide_eq_true in Hp. split; [tauto|]. intros [_ ?]. discriminate.
      + apply bool_decide_eq_false in Hp. tauto. }
  rewrite H. split; [tauto|]. intros Hfind. split; [|exact Hfind].
  apply lookup_empty.
Qed.

End Commands.

Section Loop.

Variable wg_accepts : string -> list string -> bool.

Implicit Types (m : Agent.machine) (key : string).

(** [apply_peer_config] acts on the interface through one [wg set]. *)
Lemma apply_peer_config_interface (peer : Agent.PeerDict.t) m :
  exists psk,
    Agent.interface (Agent.apply_peer_config wg_accepts peer m).2
    = if wg_accepts (Agent.PeerDict.public_key peer) (Agent.PeerDict.allowed_ips peer)
      then Agent.set_peer (Agent.PeerDict.public_key peer)
             (Agent.PeerDict.allowed_ips peer) psk (Agent.interface m)
      else Agent.interface m.
Proof.
  unfold Agent.apply_peer_config, Agent.apply_peer_config_try, Agent.wg_set_peer,
    Agent.write_temporary_file.
  destruct (Agent.truthy (Agent.PeerDict.preshared_key peer)); simpl;
    destruct (wg_accepts _ _); simpl;
    first [exists None; reflexivity | eexists; reflexivity].
Qed.

Lemma apply_peer_config_other (peer : Agent.PeerDict.t) m key :
  Agent.PeerDict.public_key peer <> key ->
  Agent.find_peer key (Agent.interface (Agent.apply_peer_config wg_accepts peer m).2)
  = Agent.find_peer key (Agent.interface m).
Proof.
  intros Hne. destruct (apply_peer_config_interface peer m) as [psk ->].
  destruct (wg_accepts _ _); [|reflexivity].
  apply find_peer_set_other. assumption.
Qed.

Lemma sync_one_other (local : gmap string Agent.LocalPeer.t) m (peer : Agent.PeerDict.t) key :
  Agent.PeerDict.public_key peer <> key ->
  Agent.find_peer key (Agent.interface (Agent.sync_one wg_accepts local m peer))
  = Agent.find_peer key (Agent.interface m).
Proof.
  intros Hne. unfold Agent.sync_one.
  destruct (local !! Agent.PeerDict.public_key peer).
  - destruct (negb (Agent.get_enabled peer)); [|reflexivity].
    simpl. apply find_peer_remove_other. assumption.
  - destruct (Agent.get_enabled peer); [|reflexivity].
    apply apply_peer_config_other. assumption.
Qed.

Lemma sync_one_left_alone (local : gmap string Agent.LocalPeer.t) m (peer : Agent.PeerDict.t) :
  Agent.get_enabled peer
  = match local !! Agent.PeerDict.public_key peer with Some _ => true | None => false end ->
  Agent.sync_one wg_accepts local m peer = m.
Proof.
  unfold Agent.sync_one.
  destruct (local !! Agent.PeerDict.public_key peer); intros ->; reflexivity.
Qed.

Lemma fold_sync_unchanged (local : gmap string Agent.LocalPeer.t) key
    (remote : list Agent.PeerDict.t) m :
  (forall peer, In peer remote -> Agent.PeerDict.public_key peer = key ->
                Agent.get_enabled peer
                = match local !! key with Some _ => true | None => false end) ->
  Agent.find_peer key (Agent.interface (fold_left (Agent.sync_one wg_accepts local) remote m))
  = Agent.find_peer key (Agent.interface m).
Proof.
  revert m. induction remote as [|peer remote IH]; intros m Hall; [reflexivity|].
  simpl. rewrite IH by (intros; apply Hall; simpl; auto).
  destruct (decide (Agent.PeerDict.public_key peer = key)) as [Heq|Hne].
  - rewrite sync_one_left_alone; [reflexivity|]. rewrite Heq. apply Hall; simpl; auto.
  - apply sync_one_other. assumption.
Qed.

Lemma fold_sync_removed (local : gmap string Agent.LocalPeer.t) key
    (remote : list Agent.PeerDict.t) m :
  local !! key <> None ->
  (exists peer, In peer remote /\ Agent.PeerDict.public_key peer = key
                /\ Agent.get_enabled peer = false)
  \/ Agent.has_peer key (Agent.interface m) = false ->
  Agent.has_peer key
    (Agent.interface (fold_left (Agent.sync_one wg_accepts local) remote m)) = false.
Proof.
  intros Hlocal. revert m.
  induction remote as [|peer remote IH]; intros m Hcase; simpl.
  - destruct Hcase as [(peer & [] & _)|H]; exact H.
  - apply IH.
    destruct (decide (Agent.PeerDict.public_key peer = key)) as [Heq|Hne].
    + unfold Agent.sync_one. rewrite Heq.
      destruct (local !! key); [|congruence].
      destruct (Agent.get_enabled peer) eqn:Hen; simpl.
      * destruct Hcase as [(peer' & [<-|Hin] & Hkey & Hdis)|H]; [congruence| |auto].
        left. eauto.
      * right. apply has_peer_remove_same.
    + destruct Hcase as [(peer' & [<-|Hin] & Hkey & Hdis)|H]; [congruence| |].
      * left. eauto.
      * right. apply has_peer_false. rewrite sync_one_other by assumption.
        apply has_peer_false. assumption.
Qed.

Lemma fold_sync_added (local : gmap string Agent.LocalPeer.t) key
    (remote : list Agent.PeerDict.t) m :
  local !! key = None ->
  (exists peer, In peer remote /\ Agent.PeerDict.public_key peer = key
                /\ Agent.get_enabled peer = true
                /\ wg_accepts key (Agent.PeerDict.allowed_ips peer) = true)
  \/ Agent.has_peer key (Agent.interface m) = true ->
  Agent.has_peer key
    (Agent.interface (fold_left (Agent.sync_one wg_accepts local) remote m)) = true.
Proof.
  intros Hlocal. revert m.
  induction remote as [|peer remote IH]; intros m Hcase; simpl.
  - destruct Hcase as [(peer & [] & _)|H]; exact H.
  - apply IH.
    destruct (decide (Agent.PeerDict.public_key peer = key)) as [Heq|Hne].
    + unfold Agent.sync_one. rewrite Heq, Hlocal.
      destruct (apply_peer_config_interface peer m) as [psk Hiface].
      rewrite Heq in Hiface.
      destruct (Agent.get_enabled peer) eqn:Hen.
      * rewrite Hiface.
        destruct (wg_accepts key (Agent.PeerDict.allowed_ips peer)) eqn:Hacc.
        -- right. apply has_peer_set_same.
        -- destruct Hcase as [(peer' & [<-|Hin] & Hkey & Hen' & Hacc')|H];
             [congruence| |auto].
           left. eauto.
      * destruct Hcase as [(peer' & [<-|Hin] & Hkey & Hen' & Hacc')|H];
          [congruence| |auto].
        left. eauto.
    + destruct Hcase as [(peer' & [<-|Hin] & Hkey & Hen' & Hacc')|H]; [congruence| |].
      * left. eauto.
      * right. apply has_peer_true. rewrite sync_one_other by assumption.
        apply has_peer_true. assumption.
Qed.

End Loop.

(** ** Reconciliation (C1) *)

(** C1, as stated, fails.  Bob has been deleted from the registry, so
    the pull of gw-paris lists Alice alone; Alice and Bob are on the
    interface.  After [sync_configs] Bob is still there: the loop runs over
    the pulled peers only and never looks at a local peer that the pull
    does not list. *)
Lemma deleted_peer_stays_on_the_interface :
  map Agent.PeerDict.public_key
      (Agent.fetch_peer_configs
         (Fleet.pull Sample.tokens "gw-paris" "s3cret-paris" Sample.bob_deleted))
  = [Sample.key_alice]
  /\ map Agent.WgPeer.public_key (Agent.interface Sample.paris_cycle_1)
     = [Sample.key_alice; Sample.key_bob]
  /\ map Agent.WgPeer.public_key
         (Agent.interface
            (Agent.sync_configs Sample.wg_accepts
               (Fleet.pull Sample.tokens "gw-paris" "s3cret-paris" Sample.bob_deleted)
               Sample.paris_cycle_1))
     = [Sample.key_alice; Sample.key_bob].
Proof. vm_compute. repeat split. Qed.

(** C1, amended: one cycle of [sync_configs] acts on the peers the pull
    lists, each judged against the local peers read before the loop, and
    on no other.  For every public key:
    - when the pull does not list it, its peer on the interface is left as
      it was (so a peer deleted from the registry stays);
    - more generally, when every listed entry of the key is enabled and the
      key is on the interface, or disabled and the key is not, nothing
      changes for it;
    - when the key is on the interface and a listed entry of it has
      [enabled] false, the peer is removed;
    - when the key is not on the interface and a listed entry of it is
      enabled and accepted by [wg], the peer is on the interface
      afterwards. *)
Theorem sync_configs_acts_on_listed_peers_only
    (wg_accepts : string -> list string -> bool)
    (answer : option (list Agent.PeerDict.t)) (m : Agent.machine) (key : string) :
  (~ In key (map Agent.PeerDict.public_key (Agent.fetch_peer_configs answer)) ->
   Agent.find_peer key (Agent.interface (Agent.sync_configs wg_accepts answer m))
   = Agent.find_peer key (Agent.interface m))
  /\ ((forall peer, In peer (Agent.fetch_peer_configs answer) ->
                    Agent.PeerDict.public_key peer = key ->
                    Agent.get_enabled peer = Agent.has_peer key (Agent.interface m)) ->
      Agent.find_peer key (Agent.interface (Agent.sync_configs wg_accepts answer m))
      = Agent.find_peer key (Agent.interface m))
  /\ (Agent.has_peer key (Agent.interface m) = true ->
      (exists peer, In peer (Agent.fetch_peer_configs answer)
                    /\ Agent.PeerDict.public_key peer = key
                    /\ Agent.get_enabled peer = false) ->
      Agent.has_peer key (Agent.interface (Agent.sync_configs wg_accepts answer m)) = false)
  /\ (Agent.has_peer key (Agent.interface m) = false ->
      (exists peer, In peer (Agent.fetch_peer_configs answer)
                    /\ Agent.PeerDict.public_key peer = key
                    /\ Agent.get_enabled peer = true
                    /\ wg_accepts key (Agent.PeerDict.allowed_ips peer) = true) ->
      Agent.has_peer key (Agent.interface (Agent.sync_configs wg_accepts answer m)) = true).
Proof.
  unfold Agent.sync_configs.
  assert (Hlocal : match Agent.local_peers m !! key with Some _ => true | None => false end
                   = Agent.has_peer key (Agent.interface m)).
  { destruct (Agent.local_peers m !! key) eqn:Hl; symmetry.
    - apply has_peer_true. intros Hnone. apply local_peers_lookup_None in Hnone.
      congruence.
    - apply has_peer_false. apply local_peers_lookup_None. assumption. }
  assert (Hunchanged :
    (forall peer, In peer (Agent.fetch_peer_configs answer) ->
                  Agent.PeerDict.public_key peer = key ->
                  Agent.get_enabled peer = Agent.has_peer key (Agent.interface m)) ->
    Agent.find_peer key
      (Agent.interface
         (fold_left (Agent.sync_one wg_accepts (Agent.local_peers m))
                    (Agent.fetch_peer_configs answer) m))
    = Agent.find_peer key (Agent.interface m)).
  { intros Hall. apply fold_sync_unchanged. intros peer Hin Hkey.
    rewrite Hlocal. auto. }
  split; [|split; [exact Hunchanged|split]].
  - intros Hnot. apply Hunchanged. intros peer Hin Hkey.
    exfalso. apply Hnot. rewrite <- Hkey. apply in_map. assumption.
  - intros Hhas Hex. apply fold_sync_removed; [|left; exact Hex].
    rewrite Hhas in Hlocal. destruct (Agent.local_peers m !! key); congruence.
  - intros Hhas Hex. apply fold_sync_added; [|left; exact Hex].
    rewrite Hhas in Hlocal. destruct (Agent.local_peers m !! key); congruence.
Qed.

(** Bob, deleted from the registry, is not in the pull of gw-paris and
    keeps his place on the interface. *)
Lemma sync_configs_acts_on_listed_peers_only_witness :
  Agent.find_peer Sample.key_bob
    (Agent.interface
       (Agent.sync_configs Sample.wg_accepts
          (Fleet.pull Sample.tokens "gw-paris" "s3cret-paris" Sample.bob_deleted)
          Sample.paris_cycle_1))
  = Agent.find_peer Sample.key_bob (Agent.interface Sample.paris_cycle_1).
Proof.
  apply (proj1 (sync_configs_acts_on_listed_peers_only Sample.wg_accepts
                  (Fleet.pull Sample.tokens "gw-paris" "s3cret-paris" Sample.bob_deleted)
                  Sample.paris_cycle_1 Sample.key_bob)).
  vm_compute. intros [H|[]]. discriminate H.
Defined.

(** ** Applying a peer without a pre-shared key (C10) *)

(** C10, as stated, fails.  Dave's dictionary has no [preshared_key].
    [apply_peer_config] does end in the unbound [psk_file] and returns
    [False], but [wg set] has run before the variable is read: Dave is on
    the interface afterwards, though not in the saved configuration. *)
Lemma peer_without_psk_is_added_before_the_error :
  Agent.PeerDict.preshared_key Sample.dave = None
  /\ (Agent.apply_peer_config_try Sample.wg_accepts Sample.dave Sample.paris_cycle_1).1
     = inl (Agent.UnboundLocalError "psk_file")
  /\ (Agent.apply_peer_config Sample.wg_accepts Sample.dave Sample.paris_cycle_1).1 = false
  /\ map Agent.WgPeer.public_key
         (Agent.interface
            (Agent.apply_peer_config Sample.wg_accepts Sample.dave Sample.paris_cycle_1).2)
     = [Sample.key_alice; Sample.key_bob; Sample.key_dave]
  /\ map Agent.WgPeer.public_key
         (Agent.saved
            (Agent.apply_peer_config Sample.wg_accepts Sample.dave Sample.paris_cycle_1).2)
     = [Sample.key_alice; Sample.key_bob].
Proof. vm_compute. repeat split. Qed.

(** C10, amended: for every peer dictionary without a [preshared_key]
    (every peer of the gateway pull is one), [apply_peer_config] first runs
    [wg set <interface> peer <key> allowed-ips <ips>], then reads the
    unbound local variable [psk_file]; the handler turns the error into a
    [False] return and [wg-quick save] is skipped.  So the peer is on the
    running interface whenever [wg] accepts it, and the saved configuration
    is what it was. *)
Theorem apply_peer_config_without_psk
    (wg_accepts : string -> list string -> bool)
    (peer : Agent.PeerDict.t) (m : Agent.machine) :
  Agent.PeerDict.preshared_key peer = None ->
  Agent.apply_peer_config_try wg_accepts peer m
  = (inl (Agent.UnboundLocalError "psk_file"),
     (Agent.wg_set_peer wg_accepts (Agent.PeerDict.public_key peer)
        (Agent.PeerDict.allowed_ips peer) None m).2)
  /\ (Agent.apply_peer_config wg_accepts peer m).1 = false
  /\ Agent.saved (Agent.apply_peer_config wg_accepts peer m).2 = Agent.saved m
  /\ Agent.has_peer (Agent.PeerDict.public_key peer)
       (Agent.interface (Agent.apply_peer_config wg_accepts peer m).2)
     = wg_accepts (Agent.PeerDict.public_key peer) (Agent.PeerDict.allowed_ips peer)
       || Agent.has_peer (Agent.PeerDict.public_key peer) (Agent.interface m)
  /\ (forall pulled : Registry.PulledPeer.t,
        Agent.PeerDict.preshared_key (Agent.of_pulled pulled) = None).
Proof.
  intros Hpsk.
  assert (Htry :
    Agent.apply_peer_config_try wg_accepts peer m
    = (inl (Agent.UnboundLocalError "psk_file"),
       (Agent.wg_set_peer wg_accepts (Agent.PeerDict.public_key peer)
          (Agent.PeerDict.allowed_ips peer) None m).2)).
  { unfold Agent.apply_peer_config_try. rewrite Hpsk. simpl.
    destruct (Agent.wg_set_peer _ _ _ _ _). reflexivity. }
  unfold Agent.apply_peer_config. rewrite Htry. simpl.
  split; [reflexivity|]. split; [reflexivity|].
  unfold Agent.wg_set_peer.
  destruct (wg_accepts _ _); simpl.
  - split; [reflexivity|]. split; [|reflexivity]. apply has_peer_set_same.
  - split; [reflexivity|]. split; reflexivity.
Qed.

(** Dave is accepted by [wg] and was not on the interface. *)
Lemma apply_peer_config_without_psk_witness :
  (Agent.apply_peer_config Sample.wg_accepts Sample.dave Sample.paris_cycle_1).1 = false
  /\ Agent.has_peer Sample.key_dave
       (Agent.interface
          (Agent.apply_peer_config Sample.wg_accepts Sample.dave Sample.paris_cycle_1).2)
     = true.
Proof.
  destruct (apply_peer_config_without_psk Sample.wg_accepts Sample.dave
              Sample.paris_cycle_1 eq_refl) as (_ & Hfalse & _ & Hadded & _).
  split; [exact Hfalse|exact Hadded].
Defined.

(** * More of the registry and of the agent *)

(** Distinct sample names. *)
Ltac distinct :=
  first [ apply (bool_decide_unpack _); vm_compute; exact I
        | cbn; repeat (apply List.NoDup_cons; [cbn; intuition discriminate|]);
          apply List.NoDup_nil ].

(** * Further properties of the registry *)

(** ** [ORDER BY] *)

Lemma insert_by_Permutation {A} (key : A -> Z) (x : A) (l : list A) :
  Permutation (insert_by key x l) (x :: l).
Proof.
  induction l as [|y l IH]; simpl; [reflexivity|].
  destruct (key x <=? key y); [reflexivity|].
  rewrite IH. apply perm_swap.
Qed.

Lemma order_by_Permutation {A} (key : A -> Z) (l : list A) :
  Permutation (order_by key l) l.
Proof.
  induction l as [|x l IH]; simpl; [reflexivity|].
  rewrite insert_by_Permutation, IH. reflexivity.
Qed.

Lemma insert_by_sorted {A} (key : A -> Z) (x : A) (l : list A) :
  StronglySorted (fun a b => key a <= key b) l ->
  StronglySorted (fun a b => key a <= key b) (insert_by key x l).
Proof.
  induction l as [|y l IH]; simpl; intros Hsorted.
  - repeat constructor.
  - apply StronglySorted_inv in Hsorted as [Hl Hy].
    destruct (Z.leb_spec (key x) (key y)) as [Hle|Hgt].
    + constructor; [constructor; assumption|].
      constructor; [exact Hle|].
      eapply Forall_impl; [exact Hy|]. simpl. intros b Hb. lia.
    + constructor; [apply IH; exact Hl|].
      rewrite (insert_by_Permutation key x l). constructor; [lia|exact Hy].
Qed.

Lemma order_by_sorted {A} (key : A -> Z) (l : list A) :
  StronglySorted (fun a b => key a <= key b) (order_by key l).
Proof.
  induction l as [|x l IH]; simpl; [constructor|].
  apply insert_by_sorted. exact IH.
Qed.

(** The first row of an ordered result has the least key. *)
Lemma head_order_by {A} (key : A -> Z) (l : list A) (x : A) :
  head (order_by key l) = Some x ->
  In x l /\ forall y, In y l -> key x <= key y.
Proof.
  intros Hhead.
  pose proof (order_by_sorted key l) as Hsorted.
  pose proof (order_by_Permutation key l) as Hperm.
  destruct (order_by key l) as [|x' rest]; [discriminate|].
  injection Hhead as ->.
  apply StronglySorted_inv in Hsorted as [_ Hall].
  split.
  - apply list_elem_of_In. rewrite <- Hperm. left.
  - intros y Hy. apply list_elem_of_In in Hy. rewrite <- Hperm in Hy.
    apply elem_of_cons in Hy as [->|Hy]; [lia|].
    rewrite Forall_forall in Hall. apply Hall. exact Hy.
Qed.

Lemma head_order_by_None {A} (key : A -> Z) (l : list A) :
  head (order_by key l) = None -> l = [].
Proof.
  intros Hhead. pose proof (order_by_Permutation key l) as Hperm.
  destruct (order_by key l); [|discriminate].
  symmetry in Hperm. apply Permutation_nil_r in Hperm. exact Hperm.
Qed.

(** ** The gateway pull *)

(** X1: [get_gateway_peers] answers 404 exactly when no server row has
    the gateway's hostname; otherwise it lists the peer rows of that server
    and no other, each once, by increasing [created_at].  It never changes
    the registry. *)
Theorem gateway_pull_lists_own_peers_oldest_first (gateway_id : string) (d : Registry.db) :
  match Registry.get_gateway_peers gateway_id d with
  | (Registry.Ok peers, d') =>
      d' = d
      /\ exists server rows,
           In server (Registry.vpn_servers d)
           /\ Registry.Server.hostname server = gateway_id
           /\ peers = map Registry.pulled rows
           /\ Permutation rows (Registry.peers_of (Registry.Server.id server) d)
           /\ (forall p, In p rows <->
                         In p (Registry.vpn_peers d)
                         /\ Registry.Peer.server_id p = Registry.Server.id server)
           /\ StronglySorted
                (fun a b => Registry.Peer.created_at a <= Registry.Peer.created_at b) rows
  | (Registry.Raise e, d') =>
      d' = d
      /\ e = Registry.HTTPException 404 "Gateway not registered"
      /\ forall s, In s (Registry.vpn_servers d) -> Registry.Server.hostname s <> gateway_id
  end.
Proof.
  unfold Registry.get_gateway_peers.
  lookup_server d server Hin Hname.
  - unfold Registry.ret. split; [reflexivity|].
    exists server, (order_by Registry.Peer.created_at
                      (Registry.peers_of (Registry.Server.id server) d)).
    split; [exact Hin|]. split; [exact Hname|]. split; [reflexivity|].
    split; [apply order_by_Permutation|]. split; [|apply order_by_sorted].
    intros p. rewrite In_order_by. unfold Registry.peers_of.
    rewrite filter_In, eqs_true. reflexivity.
  - unfold Registry.raise. repeat split.
    intros s Hs Heq. apply (find_none _ _ Hin) in Hs.
    apply eqs_false in Hs. contradiction.
Qed.

(** ** Server selection *)

(** X2: [select_server] for a request that names no server.  It selects
    an active server with the fewest peers among the active servers (of
    the requested region, when the request names one), and none only
    when there is no such server.  It never changes the registry. *)
Theorem select_server_picks_least_loaded_active
    (config_req : Registry.ConfigCreate.t) (d : Registry.db) :
  Registry.truthy (Registry.ConfigCreate.server_id config_req) = false ->
  exists selected,
    Registry.select_server config_req d = (Registry.Ok selected, d)
    /\ match selected with
       | Some s =>
           In s (Registry.vpn_servers d)
           /\ Registry.Server.status s = "active"
           /\ (Registry.truthy (Registry.ConfigCreate.region config_req) = true ->
               Some (Registry.Server.region s) = Registry.ConfigCreate.region config_req)
           /\ forall s',
                In s' (Registry.vpn_servers d) ->
                Registry.Server.status s' = "active" ->
                (Registry.truthy (Registry.ConfigCreate.region config_req) = true ->
                 Some (Registry.Server.region s') = Registry.ConfigCreate.region config_req) ->
                Registry.peer_count d s <= Registry.peer_count d s'
       | None =>
           forall s',
             In s' (Registry.vpn_servers d) ->
             Registry.Server.status s' = "active" ->
             Registry.truthy (Registry.ConfigCreate.region config_req) = true
             /\ Some (Registry.Server.region s') <> Registry.ConfigCreate.region config_req
       end.
Proof.
  intros Hno_id. unfold Registry.select_server. rewrite Hno_id.
  unfold Registry.query, Registry.least_loaded.
  destruct (Registry.ConfigCreate.region config_req) as [region|] eqn:Hregion0; simpl.
  - destruct (bool_decide (region = "")) eqn:Hempty; simpl.
    + match goal with |- context [head ?l] => destruct (head l) as [s|] eqn:Hhead end;
        eexists; (split; [reflexivity|]).
      * apply head_order_by in Hhead as [Hs Hmin].
        apply filter_In in Hs as [Hs Hactive]. apply eqs_true in Hactive.
        repeat split; auto; [discriminate|].
        intros s' Hs' Hactive' _. apply Hmin, filter_In. split; [exact Hs'|].
        apply eqs_true. exact Hactive'.
      * apply head_order_by_None in Hhead. intros s' Hs' Hactive'. exfalso.
        assert (Hin : In s' (List.filter Registry.active (Registry.vpn_servers d))).
        { apply filter_In. split; [exact Hs'|]. apply eqs_true. exact Hactive'. }
        rewrite Hhead in Hin. exact Hin.
    + match goal with |- context [head ?l] => destruct (head l) as [s|] eqn:Hhead end;
        eexists; (split; [reflexivity|]).
      * apply head_order_by in Hhead as [Hs Hmin].
        apply filter_In in Hs as [Hs Hok]. apply andb_true_iff in Hok as [Hactive Hreg].
        apply eqs_true in Hactive, Hreg.
        repeat split; auto; [intros _; congruence|].
        intros s' Hs' Hactive' Hreg'. apply Hmin, filter_In. split; [exact Hs'|].
        apply andb_true_iff. split; apply eqs_true; [exact Hactive'|].
        specialize (Hreg' eq_refl). congruence.
      * apply head_order_by_None in Hhead. intros s' Hs' Hactive'.
        split; [reflexivity|]. intros Hreg'.
        assert (Hin : In s' (List.filter
                               (fun s => Registry.active s
                                         && Registry.eqs (Registry.Server.region s) region)
                               (Registry.vpn_servers d))).
        { apply filter_In. split; [exact Hs'|].
          apply andb_true_iff. split; apply eqs_true; congruence. }
        rewrite Hhead in Hin. exact Hin.
  - match goal with |- context [head ?l] => destruct (head l) as [s|] eqn:Hhead end;
      eexists; (split; [reflexivity|]).
    + apply head_order_by in Hhead as [Hs Hmin].
      apply filter_In in Hs as [Hs Hactive]. apply eqs_true in Hactive.
      repeat split; auto; [discriminate|].
      intros s' Hs' Hactive' _. apply Hmin, filter_In. split; [exact Hs'|].
      apply eqs_true. exact Hactive'.
    + apply head_order_by_None in Hhead. intros s' Hs' Hactive'. exfalso.
      assert (Hin : In s' (List.filter Registry.active (Registry.vpn_servers d))).
      { apply filter_In. split; [exact Hs'|]. apply eqs_true. exact Hactive'. }
      rewrite Hhead in Hin. exact Hin.
Qed.

(** In [Sample.three_peers] gw-paris has two peers and gw-oslo one. *)
Lemma select_server_picks_least_loaded_active_witness :
  exists s,
    Registry.select_server (Sample.config_request (Some "europe")) Sample.three_peers
    = (Registry.Ok (Some s), Sample.three_peers)
    /\ Registry.Server.hostname s = "gw-oslo"
    /\ Registry.peer_count Sample.three_peers s
       <= Registry.peer_count Sample.three_peers Sample.paris.
Proof.
  destruct (select_server_picks_least_loaded_active
              (Sample.config_request (Some "europe")) Sample.three_peers eq_refl)
    as ([s|] & Hsel & Hprop).
  - exists s. split; [exact Hsel|]. destruct Hprop as (_ & _ & _ & Hmin). split.
    + vm_compute in Hsel. injection Hsel as <-. reflexivity.
    + apply Hmin; [vm_compute; auto|reflexivity|reflexivity].
  - vm_compute in Hsel. discriminate Hsel.
Defined.

(** ** Registration *)

(** The two cases of the upsert, with the table as it was. *)
Lemma upsert_server_cases (server : Registry.ServerRegistration.t) (now : Z)
    (fresh_id : string) (d : Registry.db) :
  (exists before r after,
      Registry.vpn_servers d = before ++ r :: after
      /\ ~ In (Registry.ServerRegistration.hostname server)
              (map Registry.Server.hostname before)
      /\ Registry.Server.hostname r = Registry.ServerRegistration.hostname server
      /\ Registry.upsert_server server now fresh_id d
         = (Registry.Ok (Registry.excluded server now r),
            Registry.with_servers (before ++ Registry.excluded server now r :: after) d))
  \/ (~ In (Registry.ServerRegistration.hostname server)
           (map Registry.Server.hostname (Registry.vpn_servers d))
      /\ Registry.upsert_server server now fresh_id d
         = (Registry.Ok (Registry.inserted server now fresh_id),
            Registry.with_servers
              (Registry.vpn_servers d ++ [Registry.inserted server now fresh_id]) d)).
Proof.
  unfold Registry.upsert_server.
  destruct (Registry.on_conflict_update _ _ (Registry.vpn_servers d)) as [[rows r']|] eqn:Hupd.
  - apply on_conflict_update_Some in Hupd
      as (before & r & after & Hrows & Hbefore & Hname & -> & ->).
    left. exists before, r, after. auto.
  - apply on_conflict_update_None in Hupd. right. auto.
Qed.

Lemma register_gateway_run (server : Registry.ServerRegistration.t) (gateway_id : string)
    (now : Z) (fresh_id : string) (d : Registry.db) :
  exists row,
    (Registry.upsert_server server now fresh_id d).1 = Registry.Ok row
    /\ (Registry.register_gateway server gateway_id now fresh_id d).1
       = Registry.Ok (Registry.Server.id row, Registry.Server.hostname row)
    /\ Registry.vpn_servers (Registry.register_gateway server gateway_id now fresh_id d).2
       = Registry.vpn_servers (Registry.upsert_server server now fresh_id d).2
    /\ Registry.vpn_peers (Registry.register_gateway server gateway_id now fresh_id d).2
       = Registry.vpn_peers d.
Proof.
  unfold Registry.register_gateway, Registry.bind.
  destruct (upsert_server_shape server now fresh_id d)
    as (before & r0 & after & Hres & _ & _ & Hpeers & _).
  destruct (Registry.upsert_server server now fresh_id d) as [res dU].
  cbn [fst snd] in *. subst res.
  destruct (insert_pool_do_nothing_shape
              (Registry.Server.id (Registry.excluded server now r0)) dU)
    as (Hok & Hservers & Hpeers' & _).
  destruct (Registry.insert_pool_do_nothing _ dU) as [res dP].
  cbn [fst snd] in *. subst res.
  eexists. split; [reflexivity|]. unfold Registry.ret. cbn [fst snd].
  repeat split; congruence.
Qed.

(** X3: [register_gateway] keeps hostnames unique and rewrites no row but
    the one of the hostname in the request.  When that row exists, it keeps
    its id, region, country code, city and status, whatever the request
    says of them, and takes its address, port and public key from the
    request; the answer carries the id of the existing row.  The
    authenticated gateway id plays no part. *)
Theorem register_gateway_rewrites_only_the_named_row
    (server : Registry.ServerRegistration.t) (gateway_id : string)
    (now : Z) (fresh_id : string) (d : Registry.db) :
  List.NoDup (map Registry.Server.hostname (Registry.vpn_servers d)) ->
  List.NoDup (map Registry.Server.hostname
                (Registry.vpn_servers
                   (Registry.register_gateway server gateway_id now fresh_id d).2))
  /\ (forall r, Registry.Server.hostname r <> Registry.ServerRegistration.hostname server ->
                (In r (Registry.vpn_servers
                         (Registry.register_gateway server gateway_id now fresh_id d).2)
                 <-> In r (Registry.vpn_servers d)))
  /\ (forall r,
         In r (Registry.vpn_servers d) ->
         Registry.Server.hostname r = Registry.ServerRegistration.hostname server ->
         (Registry.register_gateway server gateway_id now fresh_id d).1
         = Registry.Ok (Registry.Server.id r, Registry.Server.hostname r)
         /\ exists r',
              In r' (Registry.vpn_servers
                       (Registry.register_gateway server gateway_id now fresh_id d).2)
              /\ Registry.Server.hostname r' = Registry.Server.hostname r
              /\ Registry.Server.id r' = Registry.Server.id r
              /\ Registry.Server.region r' = Registry.Server.region r
              /\ Registry.Server.country_code r' = Registry.Server.country_code r
              /\ Registry.Server.city r' = Registry.Server.city r
              /\ Registry.Server.status r' = Registry.Server.status r
              /\ Registry.Server.public_ip r' = Registry.ServerRegistration.public_ip server
              /\ Registry.Server.listen_port r'
                 = Registry.ServerRegistration.listen_port server
              /\ Registry.Server.public_key r'
                 = Registry.ServerRegistration.public_key server
              /\ Registry.Server.updated_at r' = now).
Proof.
  intros Hnodup.
  destruct (register_gateway_run server gateway_id now fresh_id d)
    as (row & Hrow & -> & -> & _).
  destruct (upsert_server_cases server now fresh_id d)
    as [(before & r0 & after & Hd & Hbefore & Hname & Hup)|[Hnew Hup]];
    rewrite Hup in Hrow |- *; cbn [fst snd Registry.vpn_servers Registry.with_servers] in *;
    injection Hrow as <-.
  - assert (Hafter : ~ In (Registry.ServerRegistration.hostname server)
                          (map Registry.Server.hostname after)).
    { rewrite Hd, map_app in Hnodup. cbn [map] in Hnodup.
      apply List.NoDup_remove_2 in Hnodup. rewrite Hname in Hnodup.
      intros Hin. apply Hnodup, in_or_app. auto. }
    split; [|split].
    + rewrite Hd in Hnodup. rewrite map_app in Hnodup |- *. exact Hnodup.
    + intros r Hr. rewrite Hd, !in_app_iff. cbn [In].
      split; (intros [H|[H|H]]; [auto| |auto]); subst; simpl in Hr; congruence.
    + intros r Hr Hnamer. rewrite Hd in Hr.
      assert (r = r0) as ->.
      { apply in_app_or in Hr as [Hr|[Hr|Hr]]; [|congruence|].
        - exfalso. apply Hbefore. rewrite <- Hnamer. apply in_map. exact Hr.
        - exfalso. apply Hafter. rewrite <- Hnamer. apply in_map. exact Hr. }
      split; [reflexivity|].
      exists (Registry.excluded server now r0). simpl.
      repeat split. apply in_or_app. right. left. reflexivity.
  - split; [|split].
    + rewrite map_app. cbn [map].
      apply (List.NoDup_Add (List.Add_app _ _ [])). rewrite app_nil_r. auto.
    + intros r Hr. rewrite in_app_iff. cbn [In].
      split; [intros [H|[H|[]]]; [exact H|]|auto]. subst. simpl in Hr. congruence.
    + intros r Hr Hnamer. exfalso. apply Hnew. rewrite <- Hnamer. apply in_map. exact Hr.
Qed.

(** gw-paris registers again with a new address, authenticated as gw-oslo. *)
Lemma register_gateway_rewrites_only_the_named_row_witness :
  (Registry.register_gateway (Sample.registration "gw-paris" "203.0.113.99") "gw-oslo"
     1060 "srv-9" Sample.two_gateways).1
  = Registry.Ok ("srv-1", "gw-paris").
Proof.
  destruct (register_gateway_rewrites_only_the_named_row
              (Sample.registration "gw-paris" "203.0.113.99") "gw-oslo" 1060 "srv-9"
              Sample.two_gateways) as (_ & _ & Hrow).
  - distinct.
  - destruct (Hrow Sample.paris) as [Hanswer _].
    + vm_compute. auto.
    + reflexivity.
    + exact Hanswer.
Defined.

(** ** Tokens *)

Lemma find_app_fresh {A} (P : A -> bool) (l : list A) (x : A) :
  (forall y, In y l -> P y = false) -> P x = true -> List.find P (l ++ [x]) = Some x.
Proof.
  intros Hnone Hx. induction l as [|y l IH]; simpl.
  - rewrite Hx. reflexivity.
  - rewrite (Hnone y) by (left; reflexivity). apply IH.
    intros z Hz. apply Hnone. right. exact Hz.
Qed.

(** What a successful [create_peer] did: the row it appended. *)
Lemma create_peer_row
    (peer_constraints : list Registry.Peer.row -> Registry.Peer.row -> bool)
    (peer : Registry.PeerCreate.t) (gateway_id : string) (utcnow : Z)
    (token_urlsafe fresh_id : string) (d d' : Registry.db)
    (peer_id assigned_ip client_token : string) :
  Registry.create_peer peer_constraints peer gateway_id utcnow token_urlsafe fresh_id d
  = (Registry.Ok (peer_id, assigned_ip, client_token), d') ->
  exists server row,
    List.find (fun s => Registry.eqs (Registry.Server.hostname s) gateway_id)
              (Registry.vpn_servers d) = Some server
    /\ d' = Registry.with_peers (Registry.vpn_peers d ++ [row]) d
    /\ client_token = token_urlsafe
    /\ Registry.Peer.id row = peer_id
    /\ Registry.Peer.server_id row = Registry.Server.id server
    /\ Registry.Peer.public_key row = Registry.PeerCreate.public_key peer
    /\ Registry.Peer.allowed_ips row = Registry.PeerCreate.allowed_ips peer
    /\ Registry.Peer.api_token_hash row = Hashlib.sha256_hexdigest token_urlsafe
    /\ Registry.Peer.enabled row = true.
Proof.
  unfold Registry.create_peer, Registry.bind, Registry.server_by_hostname,
    Registry.query, Registry.fetchrow.
  destruct (find _ (Registry.vpn_servers d)) as [server|] eqn:Hserver; [|discriminate].
  unfold Registry.allocate_ip.
  destruct (Registry.first_free _ _ _) as [a|]; [|discriminate].
  unfold Registry.insert_peer. destruct (peer_constraints _ _); [|discriminate].
  unfold Registry.ret. intros [= <- <- <- <-].
  eexists server, _. split; [reflexivity|]. split; [reflexivity|].
  repeat split.
Qed.

(** The pull of a gateway lists the rows of its server. *)
Lemma get_gateway_peers_lists (gateway_id : string) (d : Registry.db)
    (server : Registry.Server.row) (row : Registry.Peer.row) :
  List.find (fun s => Registry.eqs (Registry.Server.hostname s) gateway_id)
            (Registry.vpn_servers d) = Some server ->
  In row (Registry.vpn_peers d) ->
  Registry.Peer.server_id row = Registry.Server.id server ->
  exists peers,
    Registry.get_gateway_peers gateway_id d = (Registry.Ok peers, d)
    /\ In (Registry.pulled row) peers.
Proof.
  intros Hserver Hrow Hid.
  unfold Registry.get_gateway_peers, Registry.bind, Registry.server_by_hostname,
    Registry.query, Registry.fetchrow.
  rewrite Hserver. eexists. split; [reflexivity|].
  apply in_map, In_order_by, filter_In. split; [exact Hrow|].
  apply eqs_true. exact Hid.
Qed.

(** X4: the token [create_peer] answers with authenticates the peer it
    created: unless an older row already holds the same token hash,
    [verify_client_token] on the new token answers with the new peer's id,
    enabled, and the gateway's next pull lists the peer. *)
Theorem created_peer_is_retrievable_by_its_token
    (peer_constraints : list Registry.Peer.row -> Registry.Peer.row -> bool)
    (peer : Registry.PeerCreate.t) (gateway_id : string) (utcnow : Z)
    (token_urlsafe fresh_id : string) (d d' : Registry.db)
    (peer_id assigned_ip client_token : string) :
  Registry.create_peer peer_constraints peer gateway_id utcnow token_urlsafe fresh_id d
  = (Registry.Ok (peer_id, assigned_ip, client_token), d') ->
  (forall q, In q (Registry.vpn_peers d) ->
             Registry.Peer.api_token_hash q <> Hashlib.sha256_hexdigest token_urlsafe) ->
  (exists server_id,
      Registry.verify_client_token client_token d'
      = (Registry.Ok (peer_id, server_id, true), d'))
  /\ exists peers listed,
       Registry.get_gateway_peers gateway_id d' = (Registry.Ok peers, d')
       /\ In listed peers
       /\ Registry.PulledPeer.id listed = peer_id
       /\ Registry.PulledPeer.public_key listed = Registry.PeerCreate.public_key peer
       /\ Registry.PulledPeer.enabled listed = true.
Proof.
  intros Hcreate Hfresh.
  destruct (create_peer_row _ _ _ _ _ _ _ _ _ _ _ Hcreate)
    as (server & row & Hserver & -> & -> & Hid & Hsid & Hkey & _ & Hhash & Hen).
  split.
  - exists (Registry.Server.id server).
    unfold Registry.verify_client_token, Registry.bind, Registry.query, Registry.fetchrow.
    cbn [Registry.vpn_peers Registry.with_peers].
    rewrite (find_app_fresh _ _ row).
    + rewrite Hen, Hid, Hsid. reflexivity.
    + intros q Hq. apply eqs_false. apply Hfresh. exact Hq.
    + apply eqs_true. exact Hhash.
  - destruct (get_gateway_peers_lists gateway_id
                (Registry.with_peers (Registry.vpn_peers d ++ [row]) d) server row)
      as (peers & Hpull & Hin).
    + exact Hserver.
    + cbn [Registry.vpn_peers Registry.with_peers]. apply in_or_app. right. left.
      reflexivity.
    + exact Hsid.
    + exists peers, (Registry.pulled row). split; [exact Hpull|]. split; [exact Hin|].
      cbn [Registry.pulled Registry.PulledPeer.id Registry.PulledPeer.public_key
           Registry.PulledPeer.enabled]. auto.
Qed.

(** Dave, created on gw-paris. *)
Lemma created_peer_is_retrievable_by_its_token_witness :
  exists server_id,
    Registry.verify_client_token "tok-dave"
      (Registry.create_peer Sample.unconstrained
         (Sample.peer_request "dave" Sample.key_dave None)
         "gw-paris" 3000 "tok-dave" "peer-4" Sample.three_peers).2
    = (Registry.Ok ("peer-4", server_id, true),
       (Registry.create_peer Sample.unconstrained
          (Sample.peer_request "dave" Sample.key_dave None)
          "gw-paris" 3000 "tok-dave" "peer-4" Sample.three_peers).2).
Proof.
  destruct (created_peer_is_retrievable_by_its_token Sample.unconstrained
              (Sample.peer_request "dave" Sample.key_dave None)
              "gw-paris" 3000 "tok-dave" "peer-4" Sample.three_peers
              (Registry.create_peer Sample.unconstrained
                 (Sample.peer_request "dave" Sample.key_dave None)
                 "gw-paris" 3000 "tok-dave" "peer-4" Sample.three_peers).2
              "peer-4" "10.66.66.4" "tok-dave") as [Hverify _].
  - vm_compute. reflexivity.
  - intros q Hq. vm_compute in Hq.
    destruct Hq as [<-|[<-|[<-|[]]]]; vm_compute; intros H; discriminate H.
  - exact Hverify.
Defined.

Lemma eqs_eq (a b : string) : a = b -> Registry.eqs a b = true.
Proof. apply eqs_true. Qed.

Lemma eqs_neq (a b : string) : a <> b -> Registry.eqs a b = false.
Proof. apply eqs_false. Qed.

(** ** Revoking, restoring and deleting a peer *)

Lemma find_map_same {A} (P : A -> bool) (f : A -> A) (l : list A) :
  (forall x, P (f x) = P x) ->
  List.find P (map f l) = option_map f (List.find P l).
Proof.
  intros HP; induction l as [|x l IH]; [reflexivity|].
  cbn [map List.find]. rewrite HP. destruct (P x); [reflexivity|exact IH].
Qed.

Lemma set_enabled_same (p : Registry.Peer.row) :
  Registry.Peer.set_enabled (Registry.Peer.enabled p) p = p.
Proof. destruct p; reflexivity. Qed.

Lemma with_peers_same (d : Registry.db) :
  Registry.with_peers (Registry.vpn_peers d) d = d.
Proof. destruct d; reflexivity. Qed.

Lemma update_enabled_run (b : bool) (peer_id : string) (d : Registry.db) :
  Registry.update_enabled b peer_id d =
  (Registry.Ok tt,
   Registry.with_peers
     (map (fun p => if Registry.eqs (Registry.Peer.id p) peer_id
                    then Registry.Peer.set_enabled b p else p)
          (Registry.vpn_peers d)) d).
Proof. reflexivity. Qed.

Lemma admin_endpoint_accepts {A} (key : string) (handler : Registry.App A) :
  Registry.admin_endpoint key key handler = handler.
Proof. unfold Registry.admin_endpoint. rewrite eqs_eq by reflexivity. reflexivity. Qed.

Lemma admin_endpoint_refuses {A} (ADMIN_API_KEY key : string)
    (handler : Registry.App A) (d : Registry.db) :
  key <> ADMIN_API_KEY ->
  Registry.admin_endpoint ADMIN_API_KEY key handler d =
  (Registry.Raise (Registry.HTTPException 401 "Invalid admin key"), d).
Proof.
  intros Hkey. unfold Registry.admin_endpoint.
  rewrite eqs_neq by exact Hkey. reflexivity.
Qed.

Lemma disable_config_run (key peer_id : string) (d : Registry.db) :
  Registry.disable_config key peer_id key d =
  (Registry.Ok ("disabled", peer_id),
   Registry.with_peers
     (map (fun p => if Registry.eqs (Registry.Peer.id p) peer_id
                    then Registry.Peer.set_enabled false p else p)
          (Registry.vpn_peers d)) d).
Proof. unfold Registry.disable_config. rewrite admin_endpoint_accepts. reflexivity. Qed.

Lemma enable_config_run (key peer_id : string) (d : Registry.db) :
  Registry.enable_config key peer_id key d =
  (Registry.Ok ("enabled", peer_id),
   Registry.with_peers
     (map (fun p => if Registry.eqs (Registry.Peer.id p) peer_id
                    then Registry.Peer.set_enabled true p else p)
          (Registry.vpn_peers d)) d).
Proof. unfold Registry.enable_config. rewrite admin_endpoint_accepts. reflexivity. Qed.

Lemma map_unchanged {A} (f : A -> A) (l : list A) :
  (forall x, In x l -> f x = x) -> map f l = l.
Proof.
  intros Hf. induction l as [|x l IH]; [reflexivity|].
  cbn [map]. rewrite Hf by (left; reflexivity).
  rewrite IH; [reflexivity|]. intros y Hy. apply Hf. right. exact Hy.
Qed.

(** X5: disabling a peer revokes its token and nothing else.  When [token]
    is the token of a row whose id is [peer_id], [disable_config] answers
    "disabled"; afterwards the token is refused with 403 "Peer disabled",
    by [verify_client_token] and so by [get_client_config]; servers and
    pools are untouched and every peer row is either unchanged or a row
    of that id with only [enabled] set to false, so the address and the
    token hash stay assigned. *)
Theorem disable_config_revokes_the_token
    (generate_peer_config : Registry.db -> string -> option string)
    (ADMIN_API_KEY peer_id token : string) (d : Registry.db) (p : Registry.Peer.row)
    (Hrow : Registry.fetchrow
              (fun r => Registry.eqs (Registry.Peer.api_token_hash r)
                                     (Hashlib.sha256_hexdigest token))
              (Registry.vpn_peers d) = Some p)
    (Hid : Registry.Peer.id p = peer_id) :
  exists d',
    Registry.disable_config ADMIN_API_KEY peer_id ADMIN_API_KEY d
      = (Registry.Ok ("disabled", peer_id), d') /\
    Registry.verify_client_token token d'
      = (Registry.Raise (Registry.HTTPException 403 "Peer disabled"), d') /\
    Registry.get_client_config generate_peer_config token d'
      = (Registry.Raise (Registry.HTTPException 403 "Peer disabled"), d') /\
    Registry.vpn_servers d' = Registry.vpn_servers d /\
    Registry.ip_pools d' = Registry.ip_pools d /\
    Forall2 (fun r r' =>
               r' = r \/
               (Registry.Peer.id r = peer_id /\ r' = Registry.Peer.set_enabled false r))
            (Registry.vpn_peers d) (Registry.vpn_peers d').
Proof.
  eexists. split; [apply disable_config_run|].
  set (f := fun p0 => if Registry.eqs (Registry.Peer.id p0) peer_id
                      then Registry.Peer.set_enabled false p0 else p0).
  assert (Hverify :
    Registry.verify_client_token token (Registry.with_peers (map f (Registry.vpn_peers d)) d)
    = (Registry.Raise (Registry.HTTPException 403 "Peer disabled"),
       Registry.with_peers (map f (Registry.vpn_peers d)) d)).
  { unfold Registry.verify_client_token, Registry.bind, Registry.query,
      Registry.fetchrow in *.
    cbn [Registry.vpn_peers Registry.with_peers].
    rewrite find_map_same.
    - rewrite Hrow. cbn [option_map]. unfold f.
      rewrite eqs_eq by exact Hid. reflexivity.
    - intros x. unfold f. destruct (Registry.eqs (Registry.Peer.id x) peer_id); reflexivity. }
  split; [exact Hverify|].
  split.
  { unfold Registry.get_client_config, Registry.bind. rewrite Hverify. reflexivity. }
  split; [reflexivity|]. split; [reflexivity|].
  cbn [Registry.vpn_peers Registry.with_peers].
  clear Hverify Hrow.
  induction (Registry.vpn_peers d) as [|r l IH]; [constructor|].
  cbn [map]. constructor; [|exact IH].
  unfold f. destruct (Registry.eqs (Registry.Peer.id r) peer_id) eqn:E.
  - right. split; [|reflexivity]. unfold Registry.eqs in E.
    apply bool_decide_eq_true in E. exact E.
  - left. reflexivity.
Qed.

(** Bob, revoked. *)
Lemma disable_config_revokes_the_token_witness :
  exists d',
    Registry.disable_config "admin-key" "peer-2" "admin-key" Sample.three_peers
    = (Registry.Ok ("disabled", "peer-2"), d')
    /\ Registry.verify_client_token "tok-bob" d'
       = (Registry.Raise (Registry.HTTPException 403 "Peer disabled"), d').
Proof.
  destruct (disable_config_revokes_the_token (fun _ _ => None)
              "admin-key" "peer-2" "tok-bob" Sample.three_peers Sample.bob)
    as (d' & Hdisable & Hverify & _).
  - vm_compute. reflexivity.
  - reflexivity.
  - exists d'. split; [exact Hdisable|exact Hverify].
Defined.

(** X6: enabling undoes disabling.  For both flags the later of two
    updates of the same id decides; when the rows of that id were
    enabled, disabling and then enabling gives back the registry as it
    was. *)
Theorem enable_config_undoes_disable_config
    (ADMIN_API_KEY peer_id : string) (d : Registry.db)
    (Henabled : forall r, In r (Registry.vpn_peers d) ->
                  Registry.Peer.id r = peer_id -> Registry.Peer.enabled r = true) :
  (Registry.enable_config ADMIN_API_KEY peer_id ADMIN_API_KEY
     (Registry.disable_config ADMIN_API_KEY peer_id ADMIN_API_KEY d).2).2 = d /\
  (Registry.disable_config ADMIN_API_KEY peer_id ADMIN_API_KEY
     (Registry.disable_config ADMIN_API_KEY peer_id ADMIN_API_KEY d).2).2
  = (Registry.disable_config ADMIN_API_KEY peer_id ADMIN_API_KEY d).2 /\
  (Registry.disable_config ADMIN_API_KEY peer_id ADMIN_API_KEY
     (Registry.enable_config ADMIN_API_KEY peer_id ADMIN_API_KEY d).2).2
  = (Registry.disable_config ADMIN_API_KEY peer_id ADMIN_API_KEY d).2.
Proof.
  repeat (progress (rewrite ?disable_config_run, ?enable_config_run; cbn [snd])).
  unfold Registry.with_peers. cbn [Registry.vpn_peers Registry.vpn_servers Registry.ip_pools].
  rewrite !map_map.
  split; [|split].
  - rewrite map_unchanged; [destruct d; reflexivity|].
    intros r Hr. destruct (Registry.eqs (Registry.Peer.id r) peer_id) eqn:E.
    + assert (Hr' : Registry.Peer.id r = peer_id)
        by (apply bool_decide_eq_true in E; exact E).
      cbn. rewrite E. rewrite <- (Henabled r Hr Hr') at 1.
      destruct r; reflexivity.
    + rewrite E. reflexivity.
  - f_equal. apply map_ext. intros r.
    destruct (Registry.eqs (Registry.Peer.id r) peer_id) eqn:E; cbn; rewrite E; reflexivity.
  - f_equal. apply map_ext. intros r.
    destruct (Registry.eqs (Registry.Peer.id r) peer_id) eqn:E; cbn; rewrite E; reflexivity.
Qed.

(** Bob, revoked and restored. *)
Lemma enable_config_undoes_disable_config_witness :
  (Registry.enable_config "admin-key" "peer-2" "admin-key"
     (Registry.disable_config "admin-key" "peer-2" "admin-key" Sample.three_peers).2).2
  = Sample.three_peers.
Proof.
  apply (enable_config_undoes_disable_config "admin-key" "peer-2" Sample.three_peers).
  intros r Hr _. vm_compute in Hr.
  destruct Hr as [<-|[<-|[<-|[]]]]; reflexivity.
Defined.

Lemma filter_none {A} (P : A -> bool) (l : list A) :
  (forall x, In x l -> P x = false) -> List.filter P l = [].
Proof.
  intros HP. induction l as [|x l IH]; [reflexivity|].
  cbn [List.filter]. rewrite HP by (left; reflexivity).
  apply IH. intros y Hy. apply HP. right. exact Hy.
Qed.

Lemma filter_all {A} (P : A -> bool) (l : list A) :
  (forall x, In x l -> P x = true) -> List.filter P l = l.
Proof.
  intros HP. induction l as [|x l IH]; [reflexivity|].
  cbn [List.filter]. rewrite HP by (left; reflexivity).
  rewrite IH; [reflexivity|]. intros y Hy. apply HP. right. exact Hy.
Qed.

Lemma filter_shorter {A} (P : A -> bool) (l : list A) (x : A) :
  In x l -> P x = false -> (length (List.filter P l) < length l)%nat.
Proof.
  intros Hin HP. induction l as [|y l IH]; [destruct Hin|].
  cbn [List.filter length].
  pose proof (List.filter_length_le P l) as Hle.
  destruct Hin as [->|Hin].
  - rewrite HP. lia.
  - specialize (IH Hin). destruct (P y); cbn [length]; lia.
Qed.

(** X7: an id that no row carries.  [disable_config], [enable_config]
    and the gateway's [sync_peer_status] answer with success and change
    nothing; [delete_config] alone reports it, with 404. *)
Theorem unknown_peer_id_is_reported_by_delete_only
    (ADMIN_API_KEY peer_id gateway_id : string) (last_handshake : option Z)
    (rx_bytes tx_bytes : Z) (d : Registry.db)
    (Hunknown : forall r, In r (Registry.vpn_peers d) -> Registry.Peer.id r <> peer_id) :
  Registry.disable_config ADMIN_API_KEY peer_id ADMIN_API_KEY d
    = (Registry.Ok ("disabled", peer_id), d) /\
  Registry.enable_config ADMIN_API_KEY peer_id ADMIN_API_KEY d
    = (Registry.Ok ("enabled", peer_id), d) /\
  Registry.sync_peer_status peer_id last_handshake rx_bytes tx_bytes gateway_id d
    = (Registry.Ok "synced", d) /\
  Registry.delete_config ADMIN_API_KEY peer_id ADMIN_API_KEY d
    = (Registry.Raise (Registry.HTTPException 404 "Peer not found"), d).
Proof.
  assert (Hmap : forall g : Registry.Peer.row -> Registry.Peer.row,
            map (fun p => if Registry.eqs (Registry.Peer.id p) peer_id then g p else p)
                (Registry.vpn_peers d) = Registry.vpn_peers d).
  { intros g. apply map_unchanged. intros r Hr.
    rewrite eqs_neq by (apply Hunknown; exact Hr). reflexivity. }
  split; [|split; [|split]].
  - rewrite disable_config_run, Hmap, with_peers_same. reflexivity.
  - rewrite enable_config_run, Hmap, with_peers_same. reflexivity.
  - unfold Registry.sync_peer_status, Registry.bind, Registry.execute, Registry.ret.
    rewrite Hmap, with_peers_same. reflexivity.
  - unfold Registry.delete_config. rewrite admin_endpoint_accepts.
    unfold Registry.bind.
    rewrite filter_all.
    + rewrite Nat.sub_diag, with_peers_same. reflexivity.
    + intros r Hr. rewrite eqs_neq by (apply Hunknown; exact Hr). reflexivity.
Qed.

(** No row of [Sample.three_peers] has the id peer-9. *)
Lemma unknown_peer_id_is_reported_by_delete_only_witness :
  Registry.disable_config "admin-key" "peer-9" "admin-key" Sample.three_peers
  = (Registry.Ok ("disabled", "peer-9"), Sample.three_peers)
  /\ Registry.delete_config "admin-key" "peer-9" "admin-key" Sample.three_peers
     = (Registry.Raise (Registry.HTTPException 404 "Peer not found"), Sample.three_peers).
Proof.
  destruct (unknown_peer_id_is_reported_by_delete_only "admin-key" "peer-9" "gw-paris"
              None 0 0 Sample.three_peers) as (Hdisable & _ & _ & Hdelete).
  - intros r Hr. vm_compute in Hr.
    destruct Hr as [<-|[<-|[<-|[]]]]; cbn; discriminate.
  - split; [exact Hdisable|exact Hdelete].
Defined.

(** X8: deleting a peer.  When a row has the id, [delete_config] answers
    "deleted" and the peer table keeps exactly the rows of other ids;
    servers and pools are untouched.  A token whose hash only rows of
    that id carry is then unknown (401 "Invalid token", not 403), and a
    second deletion answers 404. *)
Theorem delete_config_removes_the_rows_and_the_token
    (ADMIN_API_KEY peer_id token : string) (d : Registry.db) (p : Registry.Peer.row)
    (Hp : In p (Registry.vpn_peers d))
    (Hid : Registry.Peer.id p = peer_id)
    (Htoken : forall r, In r (Registry.vpn_peers d) ->
                Registry.Peer.api_token_hash r = Hashlib.sha256_hexdigest token ->
                Registry.Peer.id r = peer_id) :
  exists d',
    Registry.delete_config ADMIN_API_KEY peer_id ADMIN_API_KEY d
      = (Registry.Ok ("deleted", peer_id), d') /\
    (forall r, In r (Registry.vpn_peers d') <->
               In r (Registry.vpn_peers d) /\ Registry.Peer.id r <> peer_id) /\
    Registry.vpn_servers d' = Registry.vpn_servers d /\
    Registry.ip_pools d' = Registry.ip_pools d /\
    Registry.verify_client_token token d'
      = (Registry.Raise (Registry.HTTPException 401 "Invalid token"), d') /\
    Registry.delete_config ADMIN_API_KEY peer_id ADMIN_API_KEY d'
      = (Registry.Raise (Registry.HTTPException 404 "Peer not found"), d').
Proof.
  set (keep := fun r : Registry.Peer.row => negb (Registry.eqs (Registry.Peer.id r) peer_id)).
  exists (Registry.with_peers (List.filter keep (Registry.vpn_peers d)) d).
  assert (Hkeep : forall r, keep r = true <-> Registry.Peer.id r <> peer_id).
  { intros r. unfold keep, Registry.eqs. rewrite negb_true_iff, bool_decide_eq_false.
    reflexivity. }
  assert (Hmem : forall r,
            In r (List.filter keep (Registry.vpn_peers d)) <->
            In r (Registry.vpn_peers d) /\ Registry.Peer.id r <> peer_id).
  { intros r. rewrite List.filter_In, Hkeep. reflexivity. }
  split.
  { unfold Registry.delete_config. rewrite admin_endpoint_accepts.
    unfold Registry.bind. fold keep.
    assert (Hlt : (length (List.filter keep (Registry.vpn_peers d))
                   < length (Registry.vpn_peers d))%nat).
    { apply (filter_shorter keep _ p Hp). unfold keep.
      rewrite eqs_eq by exact Hid. reflexivity. }
    destruct (Nat.eqb_spec
                (length (Registry.vpn_peers d)
                 - length (List.filter keep (Registry.vpn_peers d))) 0) as [E|E];
      [lia|reflexivity]. }
  split; [exact Hmem|]. split; [reflexivity|]. split; [reflexivity|].
  split.
  - unfold Registry.verify_client_token, Registry.bind, Registry.query, Registry.fetchrow.
    cbn [Registry.vpn_peers Registry.with_peers].
    destruct (List.find _ _) as [r|] eqn:E; [exfalso|reflexivity].
    apply List.find_some in E. destruct E as [Hr Hhash].
    apply Hmem in Hr. destruct Hr as [Hr Hne].
    apply Hne, (Htoken r Hr). unfold Registry.eqs in Hhash.
    apply bool_decide_eq_true in Hhash. exact Hhash.
  - unfold Registry.delete_config. rewrite admin_endpoint_accepts.
    unfold Registry.bind. cbn [Registry.vpn_peers Registry.with_peers]. fold keep.
    rewrite (filter_all keep (List.filter keep (Registry.vpn_peers d))).
    + rewrite Nat.sub_diag. cbn [Nat.eqb].
      unfold Registry.with_peers. reflexivity.
    + intros r Hr. apply List.filter_In in Hr. apply Hr.
Qed.

(** Bob, deleted. *)
Lemma delete_config_removes_the_rows_and_the_token_witness :
  exists d',
    Registry.delete_config "admin-key" "peer-2" "admin-key" Sample.three_peers
    = (Registry.Ok ("deleted", "peer-2"), d')
    /\ Registry.verify_client_token "tok-bob" d'
       = (Registry.Raise (Registry.HTTPException 401 "Invalid token"), d').
Proof.
  assert (Hsha : Hashlib.sha256_hexdigest "tok-bob"
                 = Registry.Peer.api_token_hash Sample.bob)
    by (vm_compute; reflexivity).
  destruct (delete_config_removes_the_rows_and_the_token
              "admin-key" "peer-2" "tok-bob" Sample.three_peers Sample.bob)
    as (d' & Hdelete & _ & _ & _ & Hverify & _).
  - vm_compute. auto.
  - reflexivity.
  - intros r Hr Hhash. rewrite Hsha in Hhash. vm_compute in Hr.
    destruct Hr as [<-|[<-|[<-|[]]]]; first [reflexivity | discriminate Hhash].
  - exists d'. split; [exact Hdelete|exact Hverify].
Defined.

(** ** The admin key *)

(** X9: the admin key when [ADMIN_API_KEY] is not set.  The handlers
    compare the header with [os.getenv("ADMIN_API_KEY", "")], so on a
    registry started without the variable the empty header value passes
    as the key, and every other value is answered with 401 and changes
    nothing. *)
Theorem unset_admin_key_accepts_the_empty_header
    (environ : gmap string string) (peer_id : string) (now : Z) (d : Registry.db)
    (Hunset : environ !! "ADMIN_API_KEY" = None) :
  let ADMIN_API_KEY := Registry.getenv environ "ADMIN_API_KEY" "" in
  Registry.disable_config ADMIN_API_KEY peer_id "" d
    = (Registry.Ok ("disabled", peer_id), (Registry.update_enabled false peer_id d).2)
  /\ (exists stats, Registry.get_global_stats ADMIN_API_KEY "" now d = (Registry.Ok stats, d))
  /\ forall x_admin_key, x_admin_key <> "" ->
       let refused {A} : Registry.reply A * Registry.db :=
         (Registry.Raise (Registry.HTTPException 401 "Invalid admin key"), d) in
       Registry.delete_config ADMIN_API_KEY peer_id x_admin_key d = refused
       /\ Registry.disable_config ADMIN_API_KEY peer_id x_admin_key d = refused
       /\ Registry.enable_config ADMIN_API_KEY peer_id x_admin_key d = refused
       /\ Registry.get_global_stats ADMIN_API_KEY x_admin_key now d = refused.
Proof.
  unfold Registry.getenv. rewrite Hunset. cbn [default].
  split; [|split].
  - rewrite disable_config_run, update_enabled_run. reflexivity.
  - unfold Registry.get_global_stats. rewrite admin_endpoint_accepts.
    eexists. reflexivity.
  - intros key Hkey.
    unfold Registry.delete_config, Registry.disable_config, Registry.enable_config,
      Registry.get_global_stats.
    rewrite !admin_endpoint_refuses by exact Hkey. repeat split.
Qed.

(** [Sample.environ] does not set [ADMIN_API_KEY]. *)
Lemma unset_admin_key_accepts_the_empty_header_witness :
  Registry.disable_config (Registry.getenv Sample.environ "ADMIN_API_KEY" "") "peer-1" ""
    Sample.three_peers
  = (Registry.Ok ("disabled", "peer-1"),
     (Registry.update_enabled false "peer-1" Sample.three_peers).2).
Proof.
  apply (unset_admin_key_accepts_the_empty_header Sample.environ "peer-1" 0
           Sample.three_peers).
  vm_compute. reflexivity.
Defined.

(** ** Switching servers *)


(** ** Statistics *)

Lemma count_where_bounds {A} (P : A -> bool) (rows : list A) :
  0 <= Registry.count_where P rows <= Z.of_nat (length rows).
Proof.
  unfold Registry.count_where. pose proof (List.filter_length_le P rows). lia.
Qed.

Lemma sum_of_cons {A} (column : A -> Z) (r : A) (rows : list A) :
  Registry.sum_of column (r :: rows)
  = Some (column r + default 0 (Registry.sum_of column rows)).
Proof. destruct rows; cbn; f_equal; lia. Qed.

(** The traffic a status report adds to the sum of a column, for a table
    in which one row has the id. *)
Lemma sum_of_status_report (column : Registry.Peer.row -> Z) (delta : Z)
    (f : Registry.Peer.row -> Registry.Peer.row) (peer_id : string)
    (rows : list Registry.Peer.row) (p : Registry.Peer.row) :
  (forall r, Registry.Peer.id (f r) = Registry.Peer.id r) ->
  (forall r, column (f r) = column r + delta) ->
  In p rows -> Registry.Peer.id p = peer_id ->
  NoDup (map Registry.Peer.id rows) ->
  default 0 (Registry.sum_of column
               (map (fun r => if Registry.eqs (Registry.Peer.id r) peer_id then f r else r)
                    rows))
  = default 0 (Registry.sum_of column rows) + delta.
Proof.
  intros Hfid Hcol Hin Hid Hnodup.
  induction rows as [|r rows IH]; [destruct Hin|].
  cbn [map]. rewrite !sum_of_cons.
  repeat match goal with |- context [default 0 (Some ?x)] =>
    change (default 0 (Some x)) with x end.
  cbn [map] in Hnodup. apply NoDup_cons in Hnodup. destruct Hnodup as [Hr Hnodup].
  destruct (Registry.eqs (Registry.Peer.id r) peer_id) eqn:E.
  - apply eqs_true in E. rewrite map_unchanged.
    + rewrite Hcol. lia.
    + intros x Hx. rewrite eqs_neq; [reflexivity|].
      intros Hxid. apply Hr. rewrite E, <- Hxid.
      apply list_elem_of_In, in_map, Hx.
  - apply eqs_false in E. destruct Hin as [->|Hin]; [congruence|].
    rewrite (IH Hin Hnodup). lia.
Qed.

(** X11: the statistics.  [get_global_stats] reads only, and the counts
    of enabled and of connected peers never exceed the count of all
    peers.  When the rows have distinct ids, a status report for a row
    leaves the counts of peers and of servers as they were and adds its
    bytes to the traffic sums the statistics show next. *)
Theorem get_global_stats_follow_status_reports
    (ADMIN_API_KEY peer_id gateway_id : string) (last_handshake : option Z)
    (rx_bytes tx_bytes now : Z) (d : Registry.db) (p : Registry.Peer.row)
    (Hp : In p (Registry.vpn_peers d))
    (Hid : Registry.Peer.id p = peer_id)
    (Hids : NoDup (map Registry.Peer.id (Registry.vpn_peers d))) :
  exists before after d',
    Registry.get_global_stats ADMIN_API_KEY ADMIN_API_KEY now d = (Registry.Ok before, d)
    /\ Registry.sync_peer_status peer_id last_handshake rx_bytes tx_bytes gateway_id d
       = (Registry.Ok "synced", d')
    /\ Registry.get_global_stats ADMIN_API_KEY ADMIN_API_KEY now d' = (Registry.Ok after, d')
    /\ 0 <= Registry.Stats.active_peers before <= Registry.Stats.total_peers before
    /\ 0 <= Registry.Stats.connected_now before <= Registry.Stats.total_peers before
    /\ Registry.Stats.total_peers after = Registry.Stats.total_peers before
    /\ Registry.Stats.active_peers after = Registry.Stats.active_peers before
    /\ Registry.Stats.active_servers after = Registry.Stats.active_servers before
    /\ (exists rx tx,
          Registry.Stats.total_rx_bytes before = Some rx
          /\ Registry.Stats.total_tx_bytes before = Some tx
          /\ Registry.Stats.total_rx_bytes after = Some (rx + rx_bytes)
          /\ Registry.Stats.total_tx_bytes after = Some (tx + tx_bytes)).
Proof.
  unfold Registry.get_global_stats. rewrite admin_endpoint_accepts.
  unfold Registry.sync_peer_status, Registry.bind, Registry.execute, Registry.ret,
    Registry.query.
  do 3 eexists. split; [reflexivity|]. split; [reflexivity|]. split; [reflexivity|].
  cbn [Registry.Stats.active_peers Registry.Stats.total_peers Registry.Stats.connected_now
       Registry.Stats.active_servers Registry.Stats.total_rx_bytes
       Registry.Stats.total_tx_bytes Registry.vpn_peers Registry.vpn_servers
       Registry.with_peers].
  set (f := Registry.Peer.set_status last_handshake rx_bytes tx_bytes).
  set (upd := fun r => if Registry.eqs (Registry.Peer.id r) peer_id then f r else r).
  assert (Hall : forall l : list Registry.Peer.row,
            Registry.count_where (fun _ => true) l = Z.of_nat (length l)).
  { intros l. unfold Registry.count_where. rewrite filter_all; [reflexivity|]. reflexivity. }
  split; [rewrite Hall; apply count_where_bounds|].
  split; [rewrite Hall; apply count_where_bounds|].
  split; [rewrite !Hall, length_map; reflexivity|].
  split.
  { unfold Registry.count_where. f_equal. clear Hp Hids.
    induction (Registry.vpn_peers d) as [|r l IH]; [reflexivity|].
    cbn [map List.filter].
    assert (Hen : Registry.Peer.enabled (upd r) = Registry.Peer.enabled r).
    { unfold upd. destruct (Registry.eqs _ _); reflexivity. }
    rewrite Hen. destruct (Registry.Peer.enabled r); cbn [length]; rewrite IH; reflexivity. }
  split; [reflexivity|].
  pose proof (sum_of_status_report Registry.Peer.total_rx_bytes rx_bytes f peer_id
                (Registry.vpn_peers d) p) as Hrx.
  pose proof (sum_of_status_report Registry.Peer.total_tx_bytes tx_bytes f peer_id
                (Registry.vpn_peers d) p) as Htx.
  fold upd in Hrx, Htx.
  specialize (Hrx ltac:(reflexivity) ltac:(reflexivity) Hp Hid Hids).
  specialize (Htx ltac:(reflexivity) ltac:(reflexivity) Hp Hid Hids).
  destruct (Registry.vpn_peers d) as [|r l] eqn:Hrows; [destruct Hp|].
  exists (default 0 (Registry.sum_of Registry.Peer.total_rx_bytes (r :: l))),
         (default 0 (Registry.sum_of Registry.Peer.total_tx_bytes (r :: l))).
  rewrite <- Hrx, <- Htx. repeat split.
Qed.

(** A report of 1000 bytes received for Alice. *)
Lemma get_global_stats_follow_status_reports_witness :
  exists before after d',
    Registry.get_global_stats "admin-key" "admin-key" 5100 Sample.three_peers
    = (Registry.Ok before, Sample.three_peers)
    /\ Registry.sync_peer_status "peer-1" (Some 5000) 1000 400 "gw-paris" Sample.three_peers
       = (Registry.Ok "synced", d')
    /\ Registry.get_global_stats "admin-key" "admin-key" 5100 d' = (Registry.Ok after, d')
    /\ exists rx,
         Registry.Stats.total_rx_bytes before = Some rx
         /\ Registry.Stats.total_rx_bytes after = Some (rx + 1000).
Proof.
  destruct (get_global_stats_follow_status_reports "admin-key" "peer-1" "gw-paris"
              (Some 5000) 1000 400 5100 Sample.three_peers Sample.alice)
    as (before & after & d' & Hbefore & Hsync & Hafter & _ & _ & _ & _ & _
        & rx & tx & Hrx & _ & Hrx' & _).
  - vm_compute. auto.
  - reflexivity.
  - distinct.
  - exists before, after, d'. split; [exact Hbefore|]. split; [exact Hsync|].
    split; [exact Hafter|]. exists rx. split; [exact Hrx|exact Hrx'].
Defined.

(** ** Status reports add up *)

(** X12: two status reports for a peer id act as one report with the
    sums of their bytes; the stored handshake is the later one given
    (a report without a handshake keeps what is stored). *)
Theorem status_reports_accumulate
    (peer_id gateway_1 gateway_2 : string) (h1 h2 : option Z) (rx1 tx1 rx2 tx2 : Z)
    (d : Registry.db) :
  Registry.sync_peer_status peer_id h2 rx2 tx2 gateway_2
    (Registry.sync_peer_status peer_id h1 rx1 tx1 gateway_1 d).2
  = Registry.sync_peer_status peer_id
      (match h2 with Some t => Some t | None => h1 end) (rx1 + rx2) (tx1 + tx2)
      gateway_1 d.
Proof.
  unfold Registry.sync_peer_status, Registry.bind, Registry.execute, Registry.ret.
  cbn [snd]. f_equal. unfold Registry.with_peers.
  cbn [Registry.vpn_peers Registry.vpn_servers Registry.ip_pools]. f_equal.
  rewrite map_map. apply map_ext. intros p.
  destruct (Registry.eqs (Registry.Peer.id p) peer_id) eqn:E.
  - cbn [Registry.Peer.set_status Registry.Peer.id]. rewrite E.
    unfold Registry.Peer.set_status. cbn.
    rewrite <- !Z.add_assoc. destruct h2, h1; reflexivity.
  - rewrite E. reflexivity.
Qed.

(** ** Provisioning *)

(** What a successful [create_vpn_config] did: the server it chose, the
    row it appended and what it answered. *)
Lemma create_vpn_config_row
    (peer_constraints : list Registry.Peer.row -> Registry.Peer.row -> bool)
    (ADMIN_API_KEY x_admin_key : string) (config_req : Registry.ConfigCreate.t)
    (h : Registry.host) (utcnow : Z) (token_urlsafe fresh_id : string)
    (d d' : Registry.db) (response : Registry.ConfigCreateResponse.t) :
  Registry.create_vpn_config peer_constraints ADMIN_API_KEY config_req
    x_admin_key h utcnow token_urlsafe fresh_id d
  = (Registry.Ok response, d') ->
  x_admin_key = ADMIN_API_KEY
  /\ exists server row,
       Registry.select_server config_req d = (Registry.Ok (Some server), d)
       /\ In server (Registry.vpn_servers d)
       /\ d' = Registry.with_peers (Registry.vpn_peers d ++ [row]) d
       /\ Registry.Peer.server_id row = Registry.Server.id server
       /\ Registry.Peer.id row = fresh_id
       /\ Registry.Peer.id row = Registry.ConfigCreateResponse.peer_id response
       /\ Registry.Peer.name row = Registry.ConfigCreateResponse.name response
       /\ Registry.Peer.public_key row = Registry.ConfigCreateResponse.public_key response
       /\ ip_to_string (Registry.Peer.assigned_ip row)
          = Registry.ConfigCreateResponse.assigned_ip response
       /\ Registry.Peer.api_token_hash row
          = Hashlib.sha256_hexdigest (Registry.ConfigCreateResponse.client_token response)
       /\ Registry.Peer.enabled row = true
       /\ Registry.Peer.created_at row = utcnow
       /\ Registry.Peer.last_handshake row = None
       /\ Registry.ConfigCreateResponse.server_public_key response
          = Registry.Server.public_key server
       /\ Registry.ConfigCreateResponse.server_endpoint response
          = Registry.Server.public_ip server +:+ ":"
            +:+ pretty (Registry.Server.listen_port server).
Proof.
  unfold Registry.create_vpn_config, Registry.admin_endpoint.
  destruct (Registry.eqs x_admin_key ADMIN_API_KEY) eqn:Hkey; [|discriminate].
  apply eqs_true in Hkey. unfold Registry.bind at 1.
  destruct (Registry.select_server config_req d) as [[selected|e] d0] eqn:Hselect;
    [|discriminate].
  assert (Hd0 : d0 = d).
  { revert Hselect. unfold Registry.select_server, Registry.query.
    repeat match goal with |- context [if ?b then _ else _] => destruct b end;
      intros [= _ <-]; reflexivity. }
  subst d0. destruct selected as [server|]; [|discriminate].
  assert (Hin : In server (Registry.vpn_servers d)).
  { revert Hselect. unfold Registry.select_server, Registry.query, Registry.fetchrow,
      Registry.least_loaded.
    repeat match goal with |- context [if ?b then _ else _] => destruct b end;
      intros [= Hsel].
    - apply List.find_some in Hsel. apply Hsel.
    - apply head_order_by in Hsel. destruct Hsel as [Hsel _].
      apply List.filter_In in Hsel. apply Hsel.
    - apply head_order_by in Hsel. destruct Hsel as [Hsel _].
      apply List.filter_In in Hsel. apply Hsel. }
  unfold Registry.bind, Registry.lift.
  destruct (Registry.generate_wireguard_keypair h).1 as [[private_key public_key]|e];
    [|discriminate].
  unfold Registry.allocate_ip.
  destruct (Registry.first_free _ _ _) as [a|]; [|discriminate].
  unfold Registry.insert_peer. destruct (peer_constraints _ _); [|discriminate].
  unfold Registry.ret. intros [= <- <-].
  split; [exact Hkey|]. eexists server, _.
  split; [reflexivity|]. split; [exact Hin|]. split; [reflexivity|]. repeat split.
Qed.

(** X13: what [create_vpn_config] answers matches what it stored.  On
    success the registry has gained one row, on the server that
    [select_server] chose; the answer names that server's public key and
    endpoint, the stored row holds the public key of the answer, the
    address of the answer and the hash of its token, and the row is
    enabled, so the gateway of that server (no other server having its
    hostname) lists it at its next pull. *)
Theorem create_vpn_config_answer_matches_the_row
    (peer_constraints : list Registry.Peer.row -> Registry.Peer.row -> bool)
    (ADMIN_API_KEY x_admin_key : string) (config_req : Registry.ConfigCreate.t)
    (h : Registry.host) (utcnow : Z) (token_urlsafe fresh_id : string)
    (d d' : Registry.db) (response : Registry.ConfigCreateResponse.t)
    (Hcreate : Registry.create_vpn_config peer_constraints ADMIN_API_KEY config_req
                 x_admin_key h utcnow token_urlsafe fresh_id d
               = (Registry.Ok response, d')) :
  x_admin_key = ADMIN_API_KEY
  /\ exists server row,
       Registry.select_server config_req d = (Registry.Ok (Some server), d)
       /\ d' = Registry.with_peers (Registry.vpn_peers d ++ [row]) d
       /\ Registry.Peer.server_id row = Registry.Server.id server
       /\ Registry.Peer.id row = Registry.ConfigCreateResponse.peer_id response
       /\ Registry.Peer.public_key row = Registry.ConfigCreateResponse.public_key response
       /\ ip_to_string (Registry.Peer.assigned_ip row)
          = Registry.ConfigCreateResponse.assigned_ip response
       /\ Registry.Peer.api_token_hash row
          = Hashlib.sha256_hexdigest (Registry.ConfigCreateResponse.client_token response)
       /\ Registry.Peer.enabled row = true
       /\ Registry.ConfigCreateResponse.server_public_key response
          = Registry.Server.public_key server
       /\ Registry.ConfigCreateResponse.server_endpoint response
          = Registry.Server.public_ip server +:+ ":"
            +:+ pretty (Registry.Server.listen_port server)
       /\ exists peers,
            Registry.get_gateway_peers (Registry.Server.hostname server) d'
            = (Registry.Ok peers, d')
            /\ ((forall s, In s (Registry.vpn_servers d) ->
                   Registry.Server.hostname s = Registry.Server.hostname server ->
                   s = server) ->
                In (Registry.pulled row) peers).
Proof.
  destruct (create_vpn_config_row _ _ _ _ _ _ _ _ _ _ _ Hcreate)
    as (Hkey & server & row & Hselect & Hin & -> & Hsid & _ & Hid & _ & Hpub & Hip
        & Hhash & Hen & _ & _ & Hspub & Hsend).
  split; [exact Hkey|]. exists server, row.
  split; [exact Hselect|]. split; [reflexivity|].
  do 8 (split; [assumption|]).
  destruct (Registry.get_gateway_peers (Registry.Server.hostname server)
              (Registry.with_peers (Registry.vpn_peers d ++ [row]) d))
    as [answer d1] eqn:Hpull.
  revert Hpull.
  unfold Registry.get_gateway_peers, Registry.bind, Registry.server_by_hostname,
    Registry.query, Registry.fetchrow, Registry.ret, Registry.raise.
  cbn [Registry.vpn_servers Registry.with_peers].
  match goal with
  | |- context [List.find ?P ?l] => destruct (List.find P l) as [s|] eqn:Hfind
  end.
  - intros [= <- <-]. eexists. split; [reflexivity|]. intros Hunique.
    apply List.find_some in Hfind. destruct Hfind as [Hs Hname].
    apply eqs_true in Hname. rewrite (Hunique s Hs Hname).
    apply in_map, In_order_by, filter_In.
    cbn [Registry.vpn_peers Registry.with_peers].
    split; [apply in_or_app; right; left; reflexivity|].
    apply eqs_true. exact Hsid.
  - exfalso.
    pose proof (List.find_none _ _ Hfind server Hin) as Hnone. cbn beta in Hnone.
    rewrite eqs_eq in Hnone by reflexivity. discriminate.
Qed.

(** Erin, provisioned on a host without [wg]. *)
Lemma create_vpn_config_answer_matches_the_row_witness :
  exists response d' server row,
    Registry.create_vpn_config Sample.unconstrained "admin-key"
      (Sample.config_request (Some "europe")) "admin-key" Sample.host_without_wg
      3000 "tok-erin" "peer-5" Sample.three_peers
    = (Registry.Ok response, d')
    /\ Registry.select_server (Sample.config_request (Some "europe")) Sample.three_peers
       = (Registry.Ok (Some server), Sample.three_peers)
    /\ d' = Registry.with_peers (Registry.vpn_peers Sample.three_peers ++ [row])
              Sample.three_peers
    /\ Registry.ConfigCreateResponse.server_public_key response
       = Registry.Server.public_key server.
Proof.
  assert (Hcreate : exists response d',
            Registry.create_vpn_config Sample.unconstrained "admin-key"
              (Sample.config_request (Some "europe")) "admin-key" Sample.host_without_wg
              3000 "tok-erin" "peer-5" Sample.three_peers
            = (Registry.Ok response, d')).
  { vm_compute. eexists. eexists. reflexivity. }
  destruct Hcreate as (response & d' & Hcreate).
  destruct (create_vpn_config_answer_matches_the_row _ _ _ _ _ _ _ _ _ _ _ Hcreate)
    as (_ & server & row & Hselect & Hd' & _ & _ & _ & _ & _ & _ & Hkey & _).
  exists response, d', server, row.
  split; [exact Hcreate|]. split; [exact Hselect|]. split; [exact Hd'|exact Hkey].
Defined.

(** X25: a provisioned configuration is read back.  After a successful
    [create_vpn_config], when the id the database gave the row was not in
    use and server ids are distinct, [get_config_by_id] for the answered
    peer id gives the name, public key, address and endpoint of the
    answer, the hostname of the chosen server, the peer enabled and not
    yet connected; it does not change the registry.  The private key is
    no part of what is read back. *)
Theorem provisioned_config_is_read_back
    (peer_constraints : list Registry.Peer.row -> Registry.Peer.row -> bool)
    (ADMIN_API_KEY : string) (config_req : Registry.ConfigCreate.t)
    (h : Registry.host) (utcnow : Z) (token_urlsafe fresh_id : string)
    (d d' : Registry.db) (response : Registry.ConfigCreateResponse.t)
    (Hcreate : Registry.create_vpn_config peer_constraints ADMIN_API_KEY config_req
                 ADMIN_API_KEY h utcnow token_urlsafe fresh_id d
               = (Registry.Ok response, d'))
    (Hfresh : forall q, In q (Registry.vpn_peers d) -> Registry.Peer.id q <> fresh_id)
    (Hservers : NoDup (map Registry.Server.id (Registry.vpn_servers d))) :
  exists server details,
    Registry.select_server config_req d = (Registry.Ok (Some server), d)
    /\ Registry.get_config_by_id ADMIN_API_KEY
         (Registry.ConfigCreateResponse.peer_id response) ADMIN_API_KEY d'
       = (Registry.Ok details, d')
    /\ Registry.ConfigDetails.peer_id details
       = Registry.ConfigCreateResponse.peer_id response
    /\ Registry.ConfigDetails.name details = Registry.ConfigCreateResponse.name response
    /\ Registry.ConfigDetails.public_key details
       = Registry.ConfigCreateResponse.public_key response
    /\ Registry.ConfigDetails.assigned_ip details
       = Registry.ConfigCreateResponse.assigned_ip response
    /\ Registry.ConfigDetails.server details = Registry.Server.hostname server
    /\ Registry.ConfigDetails.endpoint details
       = Registry.ConfigCreateResponse.server_endpoint response
    /\ Registry.ConfigDetails.enabled details = true
    /\ Registry.ConfigDetails.created_at details = utcnow
    /\ Registry.ConfigDetails.last_handshake details = None.
Proof.
  destruct (create_vpn_config_row _ _ _ _ _ _ _ _ _ _ _ Hcreate)
    as (_ & server & row & Hselect & Hin & -> & Hsid & Hfid & Hid & Hname & Hpub & Hip
        & _ & Hen & Hcreated & Hhs & _ & Hsend).
  assert (Hpeers : List.filter (fun p => Registry.eqs (Registry.Peer.id p) fresh_id)
                               (Registry.vpn_peers d ++ [row]) = [row]).
  { rewrite List.filter_app, filter_none.
    - cbn [List.filter app]. rewrite (eqs_eq _ _ Hfid). reflexivity.
    - intros q Hq. apply eqs_neq, Hfresh, Hq. }
  assert (Hjoin : List.filter
                    (fun s => Registry.eqs (Registry.Peer.server_id row) (Registry.Server.id s))
                    (Registry.vpn_servers d) = [server]).
  { clear - Hin Hservers Hsid. rewrite Hsid.
    induction (Registry.vpn_servers d) as [|s l IH]; [destruct Hin|].
    cbn [map] in Hservers. apply NoDup_cons in Hservers. destruct Hservers as [Hs Hl].
    cbn [List.filter]. destruct Hin as [->|Hin].
    - rewrite eqs_eq by reflexivity. f_equal.
      apply filter_none. intros x Hx. apply eqs_neq. intros Heq. apply Hs.
      rewrite Heq. apply list_elem_of_In, in_map, Hx.
    - rewrite eqs_neq; [apply IH; assumption|].
      intros Heq. apply Hs. rewrite <- Heq. apply list_elem_of_In, in_map, Hin. }
  exists server. eexists. split; [exact Hselect|].
  split.
  { unfold Registry.get_config_by_id. rewrite admin_endpoint_accepts.
    unfold Registry.bind, Registry.query, Registry.peer_join_server.
    cbn [Registry.vpn_peers Registry.vpn_servers Registry.with_peers].
    rewrite <- Hid, Hfid, Hpeers. cbn [flat_map]. rewrite Hjoin.
    reflexivity. }
  cbn [Registry.ConfigDetails.peer_id Registry.ConfigDetails.name
       Registry.ConfigDetails.public_key Registry.ConfigDetails.assigned_ip
       Registry.ConfigDetails.server Registry.ConfigDetails.endpoint
       Registry.ConfigDetails.enabled Registry.ConfigDetails.created_at
       Registry.ConfigDetails.last_handshake].
  rewrite Hsend. repeat split; assumption.
Qed.

(** Erin again; no row of [Sample.three_peers] has the id peer-5. *)
Lemma provisioned_config_is_read_back_witness :
  exists response d' details,
    Registry.create_vpn_config Sample.unconstrained "admin-key"
      (Sample.config_request (Some "europe")) "admin-key" Sample.host_without_wg
      3000 "tok-erin" "peer-5" Sample.three_peers
    = (Registry.Ok response, d')
    /\ Registry.get_config_by_id "admin-key"
         (Registry.ConfigCreateResponse.peer_id response) "admin-key" d'
       = (Registry.Ok details, d')
    /\ Registry.ConfigDetails.public_key details
       = Registry.ConfigCreateResponse.public_key response
    /\ Registry.ConfigDetails.endpoint details
       = Registry.ConfigCreateResponse.server_endpoint response.
Proof.
  assert (Hcreate : exists response d',
            Registry.create_vpn_config Sample.unconstrained "admin-key"
              (Sample.config_request (Some "europe")) "admin-key" Sample.host_without_wg
              3000 "tok-erin" "peer-5" Sample.three_peers
            = (Registry.Ok response, d')).
  { vm_compute. eexists. eexists. reflexivity. }
  destruct Hcreate as (response & d' & Hcreate).
  destruct (provisioned_config_is_read_back _ _ _ _ _ _ _ _ _ _ Hcreate)
    as (server & details & _ & Hread & _ & _ & Hkey & _ & _ & Hendpoint & _).
  - intros q Hq. vm_compute in Hq.
    destruct Hq as [<-|[<-|[<-|[]]]]; cbn; discriminate.
  - distinct.
  - exists response, d', details.
    split; [exact Hcreate|]. split; [exact Hread|]. split; [exact Hkey|exact Hendpoint].
Defined.

(** ** Splitting and joining *)

Lemma append_String (c : ascii) (a b : string) :
  String c a +:+ b = String c (a +:+ b).
Proof. reflexivity. Qed.

Lemma append_empty (b : string) : "" +:+ b = b.
Proof. reflexivity. Qed.

Lemma has_char_app (c : ascii) (a b : string) :
  has_char c (a +:+ b) = has_char c a || has_char c b.
Proof.
  induction a as [|x a IH]; [reflexivity|].
  rewrite ?append_String, ?append_empty; cbn [has_char]. rewrite IH. apply orb_assoc.
Qed.

Lemma str_split_nonempty (sep : ascii) (s : string) : str_split sep s <> [].
Proof.
  destruct s as [|c s]; cbn [str_split]; [discriminate|].
  destruct (Ascii.eqb c sep); [discriminate|].
  destruct (str_split sep s); discriminate.
Qed.

Lemma str_split_plain (sep : ascii) (a : string) :
  has_char sep a = false -> str_split sep a = [a].
Proof.
  induction a as [|c a IH]; [reflexivity|].
  cbn [has_char str_split]. intros H. apply orb_false_iff in H. destruct H as [Hc Ha].
  rewrite Hc, (IH Ha). reflexivity.
Qed.

Lemma str_split_app (sep : ascii) (a b : string) :
  has_char sep a = false ->
  str_split sep (a +:+ String sep b) = a :: str_split sep b.
Proof.
  induction a as [|c a IH]; intros H.
  - rewrite ?append_String, ?append_empty; cbn [str_split]. rewrite Ascii.eqb_refl. reflexivity.
  - cbn [has_char] in H. apply orb_false_iff in H. destruct H as [Hc Ha].
    rewrite ?append_String, ?append_empty; cbn [str_split]. rewrite Hc, (IH Ha). reflexivity.
Qed.

Lemma join_cons (sep x y : string) (l : list string) :
  join sep (x :: y :: l) = x +:+ sep +:+ join sep (y :: l).
Proof. reflexivity. Qed.

(** [sep.join(l).split(sep) == l] for a list that is not empty and whose
    elements are free of [sep]. *)
Lemma str_split_join (sep : ascii) (l : list string) :
  l <> [] -> Forall (fun x => has_char sep x = false) l ->
  str_split sep (join (String sep "") l) = l.
Proof.
  intros Hne Hall. induction Hall as [|x l Hx Hall IH]; [congruence|].
  destruct l as [|y l].
  - cbn [join]. apply str_split_plain, Hx.
  - rewrite join_cons, append_String, append_empty.
    rewrite (str_split_app sep x _ Hx), IH by discriminate. reflexivity.
Qed.

Lemma has_char_join (c sep : ascii) (l : list string) :
  Ascii.eqb sep c = false -> Forall (fun x => has_char c x = false) l ->
  has_char c (join (String sep "") l) = false.
Proof.
  intros Hsep Hall. induction Hall as [|x l Hx Hall IH]; [reflexivity|].
  destruct l as [|y l]; [exact Hx|].
  rewrite join_cons, !has_char_app, Hx, IH. cbn [has_char]. rewrite Hsep. reflexivity.
Qed.

Lemma str_split_once_app (sep : ascii) (a b : string) :
  has_char sep a = false ->
  str_split_once sep (a +:+ String sep b) = Some (a, b).
Proof.
  induction a as [|c a IH]; intros H.
  - rewrite ?append_String, ?append_empty; cbn [str_split_once]. rewrite Ascii.eqb_refl. reflexivity.
  - cbn [has_char] in H. apply orb_false_iff in H. destruct H as [Hc Ha].
    rewrite ?append_String, ?append_empty; cbn [str_split_once]. rewrite Hc, (IH Ha). reflexivity.
Qed.


(** ** Gateway tokens from the environment *)

Lemma load_gateway_tokens_fold (environ : gmap string string)
    (entries : list (string * string)) (GATEWAY_TOKENS : gmap string string) :
  environ !! "GATEWAY_TOKENS" = Some (join "," (map Registry.token_entry entries)) ->
  Forall (fun e => has_char "," e.1 = false /\ has_char ":" e.1 = false
                   /\ has_char "," e.2 = false) entries ->
  Registry.load_gateway_tokens environ GATEWAY_TOKENS
  = fold_left (fun tokens e => <[e.1 := e.2]> tokens) entries GATEWAY_TOKENS.
Proof.
  intros Henv Hwf. unfold Registry.load_gateway_tokens, Registry.getenv.
  rewrite Henv. cbn [default]. cbv zeta. unfold id.
  destruct entries as [|e entries]; [reflexivity|].
  assert (Hsplit : str_split "," (join "," (map Registry.token_entry (e :: entries)))
                   = map Registry.token_entry (e :: entries)).
  { apply str_split_join; [discriminate|].
    apply Forall_map. eapply Forall_impl; [exact Hwf|].
    intros [g t] (Hg & _ & Ht). unfold Registry.token_entry. cbn [fst snd] in *.
    rewrite !has_char_app, Hg, Ht. reflexivity. }
  rewrite Hsplit.
  assert (Hne : join "," (map Registry.token_entry (e :: entries)) <> "").
  { intros Hempty. rewrite Hempty in Hsplit. cbn [str_split] in Hsplit.
    cbn [map] in Hsplit. injection Hsplit as Hentry _.
    destruct e as [g t]. unfold Registry.token_entry in Hentry. cbn [fst snd] in Hentry.
    destruct g; discriminate. }
  rewrite bool_decide_eq_false_2 by exact Hne.
  generalize (e :: entries) GATEWAY_TOKENS Hwf. clear.
  induction l as [|[g t] l IH]; intros tokens Hwf; [reflexivity|].
  apply Forall_cons in Hwf. destruct Hwf as [(_ & Hg & _) Hwf].
  cbn [map fold_left]. change (Registry.token_entry (g, t)) with (g +:+ String ":" t).
  rewrite (str_split_once_app ":" g t Hg). apply IH, Hwf.
Qed.

Lemma fold_insert_other (entries : list (string * string)) (tokens : gmap string string)
    (g : string) :
  ~ In g (map fst entries) ->
  fold_left (fun tokens e => <[e.1 := e.2]> tokens) entries tokens !! g = tokens !! g.
Proof.
  revert tokens. induction entries as [|[g' t'] entries IH]; intros tokens Hnot;
    [reflexivity|].
  cbn [fold_left map fst snd] in *.
  rewrite IH by (intros H; apply Hnot; right; exact H).
  apply lookup_insert_ne. intros ->. apply Hnot. left. reflexivity.
Qed.

Lemma fold_insert_last (entries : list (string * string)) (tokens : gmap string string)
    (g t : string) :
  NoDup (map fst entries) -> In (g, t) entries ->
  fold_left (fun tokens e => <[e.1 := e.2]> tokens) entries tokens !! g = Some t.
Proof.
  revert tokens. induction entries as [|[g' t'] entries IH]; intros tokens Hnodup Hin;
    [destruct Hin|].
  cbn [map fst] in Hnodup. apply NoDup_cons in Hnodup. destruct Hnodup as [Hg' Hnodup].
  cbn [fold_left fst snd]. destruct Hin as [Heq|Hin].
  - injection Heq as -> ->. rewrite fold_insert_other.
    + apply lookup_insert_eq.
    + intros Hin. apply Hg'. apply list_elem_of_In. exact Hin.
  - apply IH; assumption.
Qed.

(** X14: [load_gateway_tokens] reads every pair of [GATEWAY_TOKENS].  For
    a value made of [gateway:token] entries joined by commas, where no
    gateway name has a comma or a colon and no token has a comma (a token
    may have colons: the entry is split at the first one), the gateways
    not named keep what the dictionary held, and, the names being
    distinct, every entry is in the dictionary; its gateway then passes
    [verify_gateway_token] with its token (when ASCII) and fails with
    "Invalid token" with another ASCII one. *)
Theorem load_gateway_tokens_reads_every_pair
    (environ : gmap string string) (entries : list (string * string))
    (GATEWAY_TOKENS : gmap string string)
    (Henv : environ !! "GATEWAY_TOKENS" = Some (join "," (map Registry.token_entry entries)))
    (Hwf : Forall (fun e => has_char "," e.1 = false /\ has_char ":" e.1 = false
                            /\ has_char "," e.2 = false) entries)
    (Hnames : NoDup (map fst entries)) :
  let loaded := Registry.load_gateway_tokens environ GATEWAY_TOKENS in
  (forall gateway, ~ In gateway (map fst entries) ->
     loaded !! gateway = GATEWAY_TOKENS !! gateway)
  /\ forall gateway token, In (gateway, token) entries ->
       loaded !! gateway = Some token
       /\ (Registry.is_ascii token = true ->
           Registry.verify_gateway_token loaded gateway token = Registry.Ok gateway
           /\ forall other, Registry.is_ascii other = true -> other <> token ->
                Registry.verify_gateway_token loaded gateway other
                = Registry.Raise (Registry.HTTPException 401 "Invalid token")).
Proof.
  intros loaded. unfold loaded. rewrite (load_gateway_tokens_fold _ _ _ Henv Hwf).
  split; [intros gateway Hnot; apply fold_insert_other, Hnot|].
  intros gateway token Hin.
  pose proof (fold_insert_last entries GATEWAY_TOKENS gateway token Hnames Hin) as Hlookup.
  split; [exact Hlookup|]. intros Hascii.
  unfold Registry.verify_gateway_token, Registry.compare_digest. rewrite Hlookup, Hascii.
  split.
  - rewrite eqs_eq by reflexivity. reflexivity.
  - intros other Hother Hne. rewrite Hother, eqs_neq by congruence. reflexivity.
Qed.

(** The second entry of [Sample.environ]. *)
Lemma load_gateway_tokens_reads_every_pair_witness :
  Registry.verify_gateway_token (Registry.load_gateway_tokens Sample.environ ∅)
    "gw-oslo" "s3cret-oslo"
  = Registry.Ok "gw-oslo".
Proof.
  destruct (load_gateway_tokens_reads_every_pair Sample.environ Sample.token_entries ∅)
    as [_ Hentries].
  - vm_compute. reflexivity.
  - repeat constructor.
  - distinct.
  - destruct (Hentries "gw-oslo" "s3cret-oslo") as [_ Hverify].
    + right. left. reflexivity.
    + destruct (Hverify eq_refl) as [Hok _]. exact Hok.
Defined.

(** ** Pre-shared keys *)

Lemma b64encode_length (bs : list Z) :
  String.length (Base64.b64encode bs) = (4 * ((length bs + 2) / 3))%nat.
Proof.
  assert (H : forall n bs, (length bs <= n)%nat ->
            String.length (Base64.b64encode bs) = (4 * ((length bs + 2) / 3))%nat).
  { clear bs. intros n. induction n as [n IH] using (well_founded_induction lt_wf).
    intros [|a [|b [|c rest]]] Hle; [reflexivity..|].
    cbn [Base64.b64encode String.length length] in *.
    rewrite (IH (length rest)) by lia.
    replace (S (S (S (length rest))) + 2)%nat with (length rest + 2 + 1 * 3)%nat by lia.
    rewrite Nat.div_add by lia. lia. }
  apply (H (length bs)). lia.
Qed.

(** X15: [generate_preshared_key] does not fail.  When every [wg]
    command fails on the host (not installed, or a non-zero exit), the
    key is the Base64 text of the 32 random bytes, 44 characters; on the
    same host with [wg] installed, [generate_wireguard_keypair] answers
    500 instead of falling back. *)
Theorem preshared_key_falls_back_where_keypair_fails
    (h : Registry.host) (token_bytes : list Z)
    (Hlen : length token_bytes = 32%nat)
    (Hfail : forall cmd input,
               match Registry.subprocess_run h cmd input with
               | Registry.CompletedProcess returncode _ => returncode <> 0
               | Registry.FileNotFoundError => True
               end) :
  Registry.generate_preshared_key h token_bytes = Base64.b64encode token_bytes
  /\ String.length (Registry.generate_preshared_key h token_bytes) = 44%nat
  /\ (Registry.subprocess_run h ["wg"; "genkey"] None <> Registry.FileNotFoundError ->
      (Registry.generate_wireguard_keypair h).1
      = Registry.Raise (Registry.HTTPException 500 "Key generation failed")).
Proof.
  assert (Hpsk : Registry.generate_preshared_key h token_bytes
                 = Base64.b64encode token_bytes).
  { unfold Registry.generate_preshared_key.
    pose proof (Hfail ["wg"; "genpsk"] None) as H.
    destruct (Registry.subprocess_run h ["wg"; "genpsk"] None) as [|rc out];
      [reflexivity|].
    apply Z.eqb_neq in H. rewrite H. reflexivity. }
  split; [exact Hpsk|]. split.
  - rewrite Hpsk, b64encode_length, Hlen. reflexivity.
  - intros Hwg. unfold Registry.generate_wireguard_keypair.
    pose proof (Hfail ["wg"; "genkey"] None) as H.
    destruct (Registry.subprocess_run h ["wg"; "genkey"] None) as [|rc out];
      [congruence|].
    apply Z.eqb_neq in H. rewrite H. reflexivity.
Qed.

(** A host whose [wg] exits with an error. *)
Lemma preshared_key_falls_back_where_keypair_fails_witness :
  String.length (Registry.generate_preshared_key Sample.host_wg_failing (seqZ 0 32))
  = 44%nat
  /\ (Registry.generate_wireguard_keypair Sample.host_wg_failing).1
     = Registry.Raise (Registry.HTTPException 500 "Key generation failed").
Proof.
  destruct (preshared_key_falls_back_where_keypair_fails Sample.host_wg_failing
              (seqZ 0 32)) as (_ & Hlen & Hkeypair).
  - reflexivity.
  - intros cmd input. cbn. discriminate.
  - split; [exact Hlen|]. apply Hkeypair. cbn. discriminate.
Defined.

(** ** Telemetry reaches no row *)

(** X16: the agent's telemetry changes no row of a registry whose peer
    ids are not public keys.  Each report is addressed to a public key of
    the interface, the registry selects the row by id, so when no row's id
    is the public key of a peer of the interface, a whole push (whatever
    the credentials) leaves the registry as it was. *)
Theorem push_telemetry_changes_nothing_without_matching_ids
    (GATEWAY_TOKENS : gmap string string) (gateway_id gateway_token : string)
    (m : Agent.machine) (d : Registry.db)
    (Hids : forall r p, In r (Registry.vpn_peers d) -> In p (Agent.interface m) ->
              Registry.Peer.id r <> Agent.WgPeer.public_key p) :
  Fleet.push_telemetry GATEWAY_TOKENS gateway_id gateway_token m d = d.
Proof.
  unfold Fleet.push_telemetry.
  assert (Hreports : forall r, In r (Agent.sync_peer_status m) ->
            exists p, In p (Agent.interface m)
                      /\ Agent.StatusReport.peer_id r = Agent.WgPeer.public_key p).
  { intros r Hr. destruct (status_reports_carry_interface_counters m r Hr)
      as (p & Hp & Hkey & _). exists p. split; assumption. }
  induction (Agent.sync_peer_status m) as [|r reports IH]; [reflexivity|].
  cbn [fold_left].
  assert (Hstep :
    (Registry.gateway_endpoint GATEWAY_TOKENS gateway_id gateway_token
       (Registry.sync_peer_status (Agent.StatusReport.peer_id r)
          (Some (Agent.StatusReport.last_handshake r))
          (Agent.StatusReport.rx_bytes r) (Agent.StatusReport.tx_bytes r)) d).2 = d).
  { unfold Registry.gateway_endpoint, Registry.bind, Registry.lift.
    destruct (Registry.verify_gateway_token _ _ _) as [g|e]; [|reflexivity].
    destruct (Hreports r (or_introl eq_refl)) as (p & Hp & Hkey).
    unfold Registry.sync_peer_status, Registry.bind, Registry.execute, Registry.ret.
    cbn [snd]. rewrite map_unchanged; [apply with_peers_same|].
    intros row Hrow. rewrite eqs_neq; [reflexivity|].
    rewrite Hkey. apply Hids; assumption. }
  rewrite Hstep. apply IH. intros r' Hr'. apply Hreports. right. exact Hr'.
Qed.

(** The ids of [Sample.three_peers] are peer-1, peer-2 and peer-3. *)
Lemma push_telemetry_changes_nothing_without_matching_ids_witness :
  Fleet.push_telemetry Sample.tokens "gw-paris" "s3cret-paris" Sample.paris_cycle_1
    Sample.three_peers
  = Sample.three_peers.
Proof.
  apply push_telemetry_changes_nothing_without_matching_ids.
  intros r p Hr Hp. vm_compute in Hr, Hp.
  destruct Hr as [<-|[<-|[<-|[]]]]; destruct Hp as [<-|[<-|[]]]; cbn; discriminate.
Defined.

(** ** Applying a peer with a pre-shared key *)

Lemma find_peer_set_same (key : string) (ips : list string) (psk : option string)
    (l : list Agent.WgPeer.t) :
  Agent.find_peer key (Agent.set_peer key ips psk l)
  = Some (Agent.configure ips psk (default (Agent.blank key) (Agent.find_peer key l))).
Proof.
  unfold Agent.set_peer, Agent.has_peer.
  destruct (Agent.find_peer key l) as [q|] eqn:Hfind.
  - induction l as [|p l IH]; [discriminate|].
    cbn [map]. rewrite find_peer_cons in Hfind |- *.
    destruct (bool_decide (Agent.WgPeer.public_key p = key)) eqn:Hp.
    + injection Hfind as ->. cbn [Agent.configure Agent.WgPeer.public_key].
      rewrite Hp. reflexivity.
    + rewrite Hp. apply IH. exact Hfind.
  - induction l as [|p l IH].
    + cbn [app]. rewrite find_peer_cons.
      cbn [Agent.configure Agent.blank Agent.WgPeer.public_key].
      rewrite bool_decide_eq_true_2 by reflexivity. reflexivity.
    + rewrite find_peer_cons in Hfind. cbn [app]. rewrite find_peer_cons.
      destruct (bool_decide (Agent.WgPeer.public_key p = key)); [discriminate|].
      apply IH. exact Hfind.
Qed.

Lemma find_fresh_file (name content : string) (files : list (string * string)) :
  (forall e, In e files -> e.1 <> name) ->
  List.find (fun e => bool_decide (e.1 = name)) (files ++ [(name, content)])
  = Some (name, content)
  /\ List.filter (fun e => negb (bool_decide (e.1 = name))) (files ++ [(name, content)])
     = files.
Proof.
  intros Hfresh. induction files as [|e files IH].
  - cbn. rewrite bool_decide_eq_true_2 by reflexivity. split; reflexivity.
  - cbn [app List.find List.filter].
    rewrite bool_decide_eq_false_2 by (apply Hfresh; left; reflexivity).
    cbn [negb]. destruct IH as [IH1 IH2]; [intros x Hx; apply Hfresh; right; exact Hx|].
    rewrite IH1, IH2. split; reflexivity.
Qed.

(** X17: [apply_peer_config] for a peer with a pre-shared key.  The key
    goes through a temporary file; when no file of that name is there
    already, the file is gone afterwards.  The call returns what [wg set]
    decided: on success the peer is on the interface with these allowed
    IPs and this pre-shared key and the configuration is saved; on failure
    the interface and the saved configuration are as before. *)
Theorem apply_peer_config_with_psk
    (wg_accepts : string -> list string -> bool)
    (peer : Agent.PeerDict.t) (m : Agent.machine) (psk : string)
    (Hpsk : Agent.PeerDict.preshared_key peer = Some psk)
    (Hne : psk <> "")
    (Hfresh : forall e, In e (Agent.tmp m) ->
                e.1 <> "/tmp/tmp" +:+ pretty (Agent.next_tmp m)) :
  let key := Agent.PeerDict.public_key peer in
  let ips := Agent.PeerDict.allowed_ips peer in
  let m' := (Agent.apply_peer_config wg_accepts peer m).2 in
  (Agent.apply_peer_config wg_accepts peer m).1 = wg_accepts key ips
  /\ Agent.tmp m' = Agent.tmp m
  /\ (wg_accepts key ips = true ->
      (exists p, Agent.find_peer key (Agent.interface m') = Some p
                 /\ Agent.WgPeer.preshared_key p = Some psk
                 /\ Agent.WgPeer.allowed_ips p = ips)
      /\ (forall other, other <> key ->
            Agent.find_peer other (Agent.interface m')
            = Agent.find_peer other (Agent.interface m))
      /\ Agent.saved m' = Agent.interface m')
  /\ (wg_accepts key ips = false ->
      Agent.interface m' = Agent.interface m /\ Agent.saved m' = Agent.saved m).
Proof.
  intros key ips m'. subst m'.
  destruct (find_fresh_file ("/tmp/tmp" +:+ pretty (Agent.next_tmp m)) psk
              (Agent.tmp m) Hfresh) as [Hfind Hfilter].
  assert (Hname : "/tmp/tmp" +:+ pretty (Agent.next_tmp m) <> "") by discriminate.
  unfold Agent.apply_peer_config, Agent.apply_peer_config_try, Agent.truthy.
  rewrite Hpsk. rewrite bool_decide_eq_false_2 by exact Hne.
  cbn [negb default]. unfold id, Agent.write_temporary_file, Agent.wg_set_peer.
  cbn [Agent.tmp Agent.interface Agent.next_tmp Agent.saved].
  rewrite Hfind. cbn [fmap option_fmap option_map snd].
  fold key. fold ips.
  rewrite (bool_decide_eq_false_2 _ Hname).
  destruct (wg_accepts key ips) eqn:Hacc.
  - cbn [Z.eqb fst snd Agent.os_unlink Agent.with_interface Agent.wg_quick_save
         Agent.tmp Agent.interface Agent.saved Agent.next_tmp].
    rewrite Hfilter.
    split; [reflexivity|]. split; [reflexivity|]. split; [|discriminate].
    intros _. split; [|split; [|reflexivity]].
    + rewrite find_peer_set_same. eexists. split; [reflexivity|]. split; reflexivity.
    + intros other Hother. apply find_peer_set_other. congruence.
  - cbn [Z.eqb fst snd Agent.os_unlink Agent.with_interface Agent.wg_quick_save
         Agent.tmp Agent.interface Agent.saved Agent.next_tmp].
    rewrite Hfilter.
    split; [reflexivity|]. split; [reflexivity|]. split; [discriminate|].
    intros _. split; reflexivity.
Qed.

(** Dave with a pre-shared key, on a machine without temporary files. *)
Lemma apply_peer_config_with_psk_witness :
  (Agent.apply_peer_config Sample.wg_accepts Sample.dave_with_psk Sample.paris_cycle_1).1
  = true
  /\ Agent.tmp
       (Agent.apply_peer_config Sample.wg_accepts Sample.dave_with_psk
          Sample.paris_cycle_1).2
     = [].
Proof.
  destruct (apply_peer_config_with_psk Sample.wg_accepts Sample.dave_with_psk
              Sample.paris_cycle_1 "cHNrLWRhdmUtMDAwMDAwMDAwMDAwMDAwMDAwMDAwMDA=")
    as (Hok & Htmp & _).
  - reflexivity.
  - discriminate.
  - intros e [].
  - split; [exact Hok|exact Htmp].
Defined.

(** ** A second cycle

    A pulled peer leaves the loop nothing to do when it is on the
    interface and enabled, or absent and either disabled or refused by
    [wg]. *)

Section Settled.

Variable wg_accepts : string -> list string -> bool.

Lemma apply_peer_config_rejected (peer : Agent.PeerDict.t) (m : Agent.machine) :
  wg_accepts (Agent.PeerDict.public_key peer) (Agent.PeerDict.allowed_ips peer) = false ->
  Agent.interface (Agent.apply_peer_config wg_accepts peer m).2 = Agent.interface m
  /\ Agent.saved (Agent.apply_peer_config wg_accepts peer m).2 = Agent.saved m.
Proof.
  intros Hrej.
  unfold Agent.apply_peer_config, Agent.apply_peer_config_try, Agent.wg_set_peer,
    Agent.write_temporary_file.
  destruct (Agent.truthy (Agent.PeerDict.preshared_key peer));
    cbn [Agent.tmp Agent.interface Agent.next_tmp Agent.saved]; rewrite Hrej;
    cbn [Z.eqb fst snd]; [|split; reflexivity].
  destruct (bool_decide _); split; reflexivity.
Qed.

Lemma sync_one_settled (local : gmap string Agent.LocalPeer.t) (m : Agent.machine)
    (peer : Agent.PeerDict.t) :
  match local !! Agent.PeerDict.public_key peer with
   | Some _ => Agent.get_enabled peer = true
   | None => Agent.get_enabled peer = false
             \/ wg_accepts (Agent.PeerDict.public_key peer)
                           (Agent.PeerDict.allowed_ips peer) = false
   end ->
  Agent.interface (Agent.sync_one wg_accepts local m peer) = Agent.interface m
  /\ Agent.saved (Agent.sync_one wg_accepts local m peer) = Agent.saved m.
Proof.
  unfold Agent.sync_one.
  destruct (local !! Agent.PeerDict.public_key peer).
  - intros ->. split; reflexivity.
  - destruct (Agent.get_enabled peer); [|split; reflexivity].
    intros [Hdis|Hrej]; [discriminate|]. apply apply_peer_config_rejected, Hrej.
Qed.

Lemma fold_sync_settled (local : gmap string Agent.LocalPeer.t)
    (remote : list Agent.PeerDict.t) (m : Agent.machine) :
  (forall peer, In peer remote ->
   match local !! Agent.PeerDict.public_key peer with
   | Some _ => Agent.get_enabled peer = true
   | None => Agent.get_enabled peer = false
             \/ wg_accepts (Agent.PeerDict.public_key peer)
                           (Agent.PeerDict.allowed_ips peer) = false
   end) ->
  Agent.interface (fold_left (Agent.sync_one wg_accepts local) remote m) = Agent.interface m
  /\ Agent.saved (fold_left (Agent.sync_one wg_accepts local) remote m) = Agent.saved m.
Proof.
  revert m. induction remote as [|peer remote IH]; intros m Hall; [split; reflexivity|].
  cbn [fold_left].
  destruct (IH (Agent.sync_one wg_accepts local m peer)) as [Hi Hs];
    [intros p Hp; apply Hall; right; exact Hp|].
  destruct (sync_one_settled local m peer) as [Hi' Hs'];
    [apply Hall; left; reflexivity|].
  rewrite Hi, Hs, Hi', Hs'. split; reflexivity.
Qed.

End Settled.

Lemma NoDup_map_unique {A B} (f : A -> B) (l : list A) (x y : A) :
  NoDup (map f l) -> In x l -> In y l -> f x = f y -> x = y.
Proof.
  induction l as [|a l IH]; intros Hnodup Hx Hy Hf; [destruct Hx|].
  cbn [map] in Hnodup. apply NoDup_cons in Hnodup. destruct Hnodup as [Ha Hnodup].
  destruct Hx as [->|Hx], Hy as [->|Hy].
  - reflexivity.
  - exfalso. apply Ha. rewrite Hf. apply list_elem_of_In, in_map, Hy.
  - exfalso. apply Ha. rewrite <- Hf. apply list_elem_of_In, in_map, Hx.
  - apply IH; assumption.
Qed.

(** X18: [sync_configs] settles after one cycle.  When the pulled peers
    have distinct public keys, a second cycle over the same answer
    changes neither the interface nor the saved configuration: what the
    first cycle added is found, what it removed is not asked for again,
    and what [wg] refused is refused again. *)
Theorem sync_configs_settles_after_one_cycle
    (wg_accepts : string -> list string -> bool)
    (answer : option (list Agent.PeerDict.t)) (m : Agent.machine)
    (Hkeys : NoDup (map Agent.PeerDict.public_key (Agent.fetch_peer_configs answer))) :
  let m1 := Agent.sync_configs wg_accepts answer m in
  Agent.interface (Agent.sync_configs wg_accepts answer m1) = Agent.interface m1
  /\ Agent.saved (Agent.sync_configs wg_accepts answer m1) = Agent.saved m1.
Proof.
  intros m1. unfold Agent.sync_configs at 1 2.
  apply fold_sync_settled. intros peer Hin.
  set (key := Agent.PeerDict.public_key peer).
  assert (Hunique : forall peer', In peer' (Agent.fetch_peer_configs answer) ->
            Agent.PeerDict.public_key peer' = key -> peer' = peer).
  { intros peer' Hin' Hkey.
    apply (NoDup_map_unique Agent.PeerDict.public_key _ _ _ Hkeys Hin' Hin Hkey). }
  destruct (Agent.local_peers m1 !! key) eqn:Hlocal1.
  - (* on the interface after the first cycle *)
    destruct (Agent.get_enabled peer) eqn:Hen; [reflexivity|]. exfalso.
    assert (Hnone : Agent.find_peer key (Agent.interface m1) = None).
    { subst m1. unfold Agent.sync_configs.
      destruct (Agent.local_peers m !! key) eqn:Hlocal.
      - apply has_peer_false. apply fold_sync_removed; [congruence|].
        left. exists peer. split; [exact Hin|]. split; [reflexivity|exact Hen].
      - rewrite fold_sync_unchanged.
        + apply local_peers_lookup_None. exact Hlocal.
        + intros peer' Hin' Hkey. rewrite (Hunique peer' Hin' Hkey), Hlocal. exact Hen. }
    apply local_peers_lookup_None in Hnone. congruence.
  - (* not on the interface after the first cycle *)
    destruct (Agent.get_enabled peer) eqn:Hen; [|left; reflexivity].
    destruct (wg_accepts key (Agent.PeerDict.allowed_ips peer)) eqn:Hacc;
      [|right; reflexivity].
    exfalso.
    assert (Hsome : Agent.has_peer key (Agent.interface m1) = true).
    { subst m1. unfold Agent.sync_configs.
      destruct (Agent.local_peers m !! key) eqn:Hlocal.
      - apply has_peer_true. rewrite fold_sync_unchanged.
        + intros Hnone. apply local_peers_lookup_None in Hnone. congruence.
        + intros peer' Hin' Hkey. rewrite (Hunique peer' Hin' Hkey), Hlocal. exact Hen.
      - apply fold_sync_added; [exact Hlocal|].
        left. exists peer. split; [exact Hin|]. split; [reflexivity|].
        split; [exact Hen|exact Hacc]. }
    apply has_peer_true in Hsome. apply Hsome.
    apply local_peers_lookup_None. exact Hlocal1.
Qed.

(** Alice is revoked: the first cycle removes her, the second has nothing to do. *)
Lemma sync_configs_settles_after_one_cycle_witness :
  Agent.interface
    (Agent.sync_configs Sample.wg_accepts
       (Fleet.pull Sample.tokens "gw-paris" "s3cret-paris" Sample.alice_disabled)
       (Agent.sync_configs Sample.wg_accepts
          (Fleet.pull Sample.tokens "gw-paris" "s3cret-paris" Sample.alice_disabled)
          Sample.paris_cycle_1))
  = Agent.interface
      (Agent.sync_configs Sample.wg_accepts
         (Fleet.pull Sample.tokens "gw-paris" "s3cret-paris" Sample.alice_disabled)
         Sample.paris_cycle_1).
Proof.
  apply (sync_configs_settles_after_one_cycle Sample.wg_accepts
           (Fleet.pull Sample.tokens "gw-paris" "s3cret-paris" Sample.alice_disabled)
           Sample.paris_cycle_1).
  distinct.
Defined.

(** ** Whitespace *)

Lemma rstrip_no_space (s : string) : no_space s = true -> rstrip s = s.
Proof.
  induction s as [|c s IH]; [reflexivity|].
  cbn [no_space rstrip]. intros H. apply andb_true_iff in H. destruct H as [Hc Hs].
  rewrite (IH Hs). apply negb_true_iff in Hc. rewrite Hc. destruct s; reflexivity.
Qed.

Lemma plain_trimmed (s : string) : plain s = true -> trimmed s.
Proof.
  unfold plain. intros H. apply andb_true_iff in H. destruct H as [Hne Hs].
  destruct s as [|c s]; [discriminate|].
  split; [|apply rstrip_no_space, Hs].
  cbn [no_space] in Hs. apply andb_true_iff in Hs. destruct Hs as [Hc _].
  apply negb_true_iff in Hc. exact Hc.
Qed.

Lemma plain_no_char (c : ascii) (s : string) :
  is_space c = true -> plain s = true -> has_char c s = false.
Proof.
  intros Hc H. unfold plain in H. apply andb_true_iff in H. destruct H as [_ Hs].
  induction s as [|x s IH]; [reflexivity|].
  cbn [no_space] in Hs. apply andb_true_iff in Hs. destruct Hs as [Hx Hs].
  cbn [has_char]. rewrite (IH Hs), orb_false_r.
  destruct (Ascii.eqb_spec x c) as [->|]; [|reflexivity].
  rewrite Hc in Hx. discriminate.
Qed.

Lemma rstrip_app (a b : string) :
  rstrip b <> "" -> rstrip (a +:+ b) = a +:+ rstrip b.
Proof.
  intros Hb. induction a as [|c a IH]; [reflexivity|].
  rewrite !append_String. cbn [rstrip]. rewrite IH.
  destruct (a +:+ rstrip b) eqn:E; [|reflexivity].
  destruct a; [|discriminate]. rewrite append_empty in E. congruence.
Qed.

Lemma rstrip_app_space (a w : string) : rstrip w = "" -> rstrip (a +:+ w) = rstrip a.
Proof.
  intros Hw. induction a as [|c a IH]; [exact Hw|].
  rewrite append_String. cbn [rstrip]. rewrite IH. reflexivity.
Qed.

Lemma trimmed_rstrip (s : string) : trimmed s -> rstrip s = s /\ s <> "".
Proof. destruct s; [intros []|]. intros [_ H]. split; [exact H|discriminate]. Qed.

Lemma trimmed_app (a sep b : string) :
  trimmed a -> trimmed b -> trimmed (a +:+ sep +:+ b).
Proof.
  intros Ha Hb. destruct a as [|c a]; [destruct Ha|]. destruct Ha as [Hc _].
  destruct (trimmed_rstrip b Hb) as [Hrb Hbne].
  rewrite append_String. split; [exact Hc|].
  rewrite <- append_String.
  rewrite rstrip_app; rewrite rstrip_app; rewrite ?Hrb; try reflexivity; try exact Hbne.
  destruct sep; [rewrite append_empty; exact Hbne|discriminate].
Qed.

Lemma trimmed_join (sep : string) (l : list string) :
  l <> [] -> Forall trimmed l -> trimmed (join sep l).
Proof.
  intros Hne Hall. induction Hall as [|x l Hx Hall IH]; [congruence|].
  destruct l as [|y l]; [exact Hx|].
  rewrite join_cons. apply trimmed_app; [exact Hx|]. apply IH. discriminate.
Qed.

Lemma strip_trimmed_line (s : string) : trimmed s -> strip (s +:+ String LF "") = s.
Proof.
  intros Hs. destruct (trimmed_rstrip s Hs) as [Hr _].
  destruct s as [|c s]; [destruct Hs|]. destruct Hs as [Hc _].
  unfold strip. rewrite append_String. cbn [lstrip]. rewrite Hc.
  rewrite <- append_String, rstrip_app_space by reflexivity. exact Hr.
Qed.

Lemma strip_trimmed (s : string) : trimmed s -> strip s = s.
Proof.
  intros Hs. destruct (trimmed_rstrip s Hs) as [Hr _].
  destruct s as [|c s]; [destruct Hs|]. destruct Hs as [Hc _].
  unfold strip. cbn [lstrip]. rewrite Hc. exact Hr.
Qed.

(** ** Decimal numbers as [pretty] prints them *)

Lemma pretty_N_char_no_space (x : N) : is_space (pretty_N_char x) = false.
Proof. unfold pretty_N_char. repeat case_match; reflexivity. Qed.

Lemma pretty_N_go_plain (x : N) (s : string) :
  plain s = true -> plain (pretty_N_go x s) = true.
Proof.
  revert s. induction (N.lt_wf_0 x) as [x _ IH]. intros s Hs.
  assert (x = 0 \/ 0 < x)%N as [->|Hpos] by lia.
  - rewrite pretty_N_go_0. exact Hs.
  - rewrite pretty_N_go_step by exact Hpos. apply IH.
    + apply N.div_lt; lia.
    + unfold plain in *. apply andb_true_iff in Hs. destruct Hs as [_ Hs].
      cbn [no_space]. rewrite pretty_N_char_no_space, Hs. reflexivity.
Qed.

Lemma pretty_N_plain (x : N) : plain (pretty x) = true.
Proof.
  unfold pretty, pretty_N. destruct (decide (x = 0%N)) as [|Hx]; [reflexivity|].
  rewrite pretty_N_go_step by lia. apply pretty_N_go_plain.
  unfold plain. cbn [no_space]. rewrite pretty_N_char_no_space. reflexivity.
Qed.

Lemma pretty_Z_plain (n : Z) : 0 <= n -> plain (pretty n) = true.
Proof.
  intros Hn. destruct n as [|p|p]; [reflexivity| |lia].
  apply (pretty_N_plain (N.pos p)).
Qed.

Lemma pretty_Z_zero (n : Z) : pretty n = "0" <-> n = 0.
Proof.
  split; [|intros ->; reflexivity].
  intros H. apply (inj pretty n 0). exact H.
Qed.

(** ** Decimal numbers read back *)

(** [Sample.int] reads the numbers [pretty] prints. *)
Lemma digits_pretty_N_char (acc : Z) (r : N) (s : string) :
  (r < 10)%N ->
  Sample.digits acc (String (pretty_N_char r) s)
  = Sample.digits (acc * 10 + Z.of_N r) s.
Proof.
  intros Hr.
  assert (r = 0 \/ r = 1 \/ r = 2 \/ r = 3 \/ r = 4 \/ r = 5 \/ r = 6 \/ r = 7
          \/ r = 8 \/ r = 9)%N as H by lia.
  repeat (destruct H as [->|H]; [reflexivity|]). subst r. reflexivity.
Qed.

Lemma digits_pretty_N_go (x : N) :
  exists k, forall acc s,
    Sample.digits acc (pretty_N_go x s) = Sample.digits (acc * k + Z.of_N x) s.
Proof.
  induction (N.lt_wf_0 x) as [x _ IH].
  assert (x = 0 \/ 0 < x)%N as [->|Hpos] by lia.
  - exists 1. intros acc s. rewrite pretty_N_go_0. f_equal. lia.
  - destruct (IH (x `div` 10)%N) as [k Hk]; [apply N.div_lt; lia|].
    exists (k * 10). intros acc s.
    rewrite pretty_N_go_step by exact Hpos.
    rewrite Hk, digits_pretty_N_char by (apply N.mod_lt; lia).
    f_equal. pose proof (N.div_mod x 10 ltac:(lia)) as Hdiv. lia.
Qed.

Lemma int_pretty (n : Z) : 0 <= n -> Sample.int (pretty n) = Some n.
Proof.
  intros Hn. destruct n as [|p|p]; [reflexivity| |lia].
  change (pretty (Z.pos p)) with (pretty_N_go (N.pos p) "").
  destruct (digits_pretty_N_go (N.pos p)) as [k Hk].
  pose proof (pretty_N_plain (N.pos p)) as Hplain.
  change (plain (pretty_N_go (N.pos p) "") = true) in Hplain.
  unfold Sample.int.
  destruct (pretty_N_go (N.pos p) "") eqn:E; [discriminate Hplain|].
  rewrite <- E, Hk. reflexivity.
Qed.

(** ** Reading the dump *)

Section Dump.

Variable py_int : string -> option Z.
Hypothesis py_int_pretty : forall n, 0 <= n -> py_int (pretty n) = Some n.
Variable keepalive : Agent.WgPeer.t -> string.

Lemma set_field_plain (o : option string) :
  match o with
  | Some v => plain v && negb (bool_decide (v = "(none)"))
  | None => true
  end = true ->
  plain (default "(none)" o) = true
  /\ (if bool_decide (default "(none)" o = "(none)") then None
      else Some (default "(none)" o)) = o.
Proof.
  destruct o as [v|]; [|split; reflexivity].
  intros H. apply andb_true_iff in H. destruct H as [Hv Hne].
  apply negb_true_iff in Hne. cbn [default]. unfold id.
  rewrite Hne. split; [exact Hv|reflexivity].
Qed.

Lemma allowed_ips_field (ips : list string) :
  ips <> [] ->
  forallb (fun ip => plain ip && negb (has_char "," ip)) ips = true ->
  plain (join "," ips) = true
  /\ join "," ips <> ""
  /\ str_split "," (join "," ips) = ips.
Proof.
  intros Hne Hall. rewrite forallb_forall in Hall.
  assert (Hplain : Forall (fun ip => plain ip = true) ips).
  { apply List.Forall_forall. intros ip Hip. specialize (Hall ip Hip).
    apply andb_true_iff in Hall. apply Hall. }
  assert (Hcomma : Forall (fun ip => has_char "," ip = false) ips).
  { apply List.Forall_forall. intros ip Hip. specialize (Hall ip Hip).
    apply andb_true_iff in Hall. destruct Hall as [_ H].
    apply negb_true_iff in H. exact H. }
  assert (Htrim : trimmed (join "," ips)).
  { apply trimmed_join; [exact Hne|].
    eapply List.Forall_impl; [|exact Hplain]. intros ip. apply plain_trimmed. }
  split; [|split].
  - unfold plain. apply andb_true_iff. split.
    + destruct (trimmed_rstrip _ Htrim) as [_ H].
      rewrite bool_decide_eq_false_2 by exact H. reflexivity.
    + clear Hall Hcomma Htrim.
      induction Hplain as [|x l Hx Hl IH]; [congruence|].
      destruct l as [|y l].
      * unfold plain in Hx. apply andb_true_iff in Hx. apply Hx.
      * rewrite join_cons.
        assert (Happ : forall a b, no_space a = true -> no_space b = true ->
                                   no_space (a +:+ b) = true).
        { intros a b Ha Hb. induction a as [|c a IHa]; [exact Hb|].
          rewrite append_String. cbn [no_space] in *.
          apply andb_true_iff in Ha. destruct Ha as [Hc Ha].
          rewrite Hc, (IHa Ha). reflexivity. }
        apply Happ; [unfold plain in Hx; apply andb_true_iff in Hx; apply Hx|].
        apply Happ; [reflexivity|]. apply IH. discriminate.
  - apply (trimmed_rstrip _ Htrim).
  - apply (str_split_join "," ips Hne Hcomma).
Qed.

(** The fields of the line of a peer, and what [get_wg_peers] makes of
    them. *)
Lemma dump_line_parts (p : Agent.WgPeer.t) :
  Agent.dumpable keepalive p = true ->
  exists parts,
    Agent.dump_line (keepalive p) p = join (String TAB "") parts
    /\ Forall (fun f => plain f = true) parts
    /\ length parts = 8%nat
    /\ Agent.peer_of_parts py_int parts = inr (Agent.parse_dump_line p).
Proof.
  unfold Agent.dumpable. intros H.
  do 8 (apply andb_true_iff in H; let H' := fresh "H" in destruct H as [H H']).
  rename H into Hkey, H7 into Hpsk, H6 into Hep, H5 into Hne, H4 into Hips,
    H3 into Hhs, H2 into Hrx, H1 into Htx, H0 into Hka.
  apply Z.leb_le in Hhs, Hrx, Htx.
  apply negb_true_iff, bool_decide_eq_false in Hne.
  destruct (set_field_plain _ Hpsk) as [Hpsk1 Hpsk2].
  destruct (set_field_plain _ Hep) as [Hep1 Hep2].
  destruct (allowed_ips_field _ Hne Hips) as (Hips1 & Hips2 & Hips3).
  exists [Agent.WgPeer.public_key p;
          default "(none)" (Agent.WgPeer.preshared_key p);
          default "(none)" (Agent.WgPeer.endpoint p);
          join "," (Agent.WgPeer.allowed_ips p);
          pretty (Agent.WgPeer.latest_handshake p);
          pretty (Agent.WgPeer.transfer_rx p);
          pretty (Agent.WgPeer.transfer_tx p);
          keepalive p].
  split.
  { unfold Agent.dump_line.
    destruct (Agent.WgPeer.allowed_ips p); [congruence|reflexivity]. }
  split; [|split; [reflexivity|]].
  - repeat constructor; try assumption; apply pretty_Z_plain; assumption.
  - unfold Agent.peer_of_parts, Agent.parse_dump_line.
    cbn [lookup list_lookup length Nat.ltb Nat.leb].
    repeat match goal with
           | |- context [default "" (Some ?x)] => change (default "" (Some x)) with x
           end.
    rewrite !py_int_pretty by assumption. rewrite Hpsk2, Hep2, Hips3.
    rewrite (bool_decide_eq_false_2 _ Hips2).
    destruct (Z.eqb_spec (Agent.WgPeer.latest_handshake p) 0) as [E|E].
    + rewrite E. reflexivity.
    + rewrite bool_decide_eq_false_2 by (rewrite pretty_Z_zero; exact E).
      reflexivity.
Qed.

Lemma dump_line_row (p : Agent.WgPeer.t) :
  Agent.dumpable keepalive p = true ->
  trimmed (Agent.dump_line (keepalive p) p)
  /\ has_char LF (Agent.dump_line (keepalive p) p) = false.
Proof.
  intros H. destruct (dump_line_parts p H) as (parts & -> & Hplain & Hlen & _).
  split.
  - apply trimmed_join; [destruct parts; [discriminate|discriminate]|].
    eapply List.Forall_impl; [|exact Hplain]. intros f. apply plain_trimmed.
  - apply has_char_join; [reflexivity|].
    eapply List.Forall_impl; [|exact Hplain]. intros f. apply plain_no_char. reflexivity.
Qed.

Lemma peers_of_dump_lines (peers : list Agent.WgPeer.t) :
  forallb (Agent.dumpable keepalive) peers = true ->
  Agent.peers_of_lines py_int (map (fun p => Agent.dump_line (keepalive p) p) peers)
  = inr (map Agent.parse_dump_line peers).
Proof.
  induction peers as [|p peers IH]; [reflexivity|].
  cbn [forallb map Agent.peers_of_lines]. intros H.
  apply andb_true_iff in H. destruct H as [Hp Hpeers].
  destruct (dump_line_parts p Hp) as (parts & -> & Hplain & Hlen & Hparse).
  rewrite str_split_join.
  - rewrite Hlen, Hparse, (IH Hpeers). reflexivity.
  - destruct parts; discriminate.
  - eapply List.Forall_impl; [|exact Hplain]. intros f. apply plain_no_char. reflexivity.
Qed.

End Dump.

(** X19: [get_wg_peers] reads back what [wg show <interface> dump]
    prints.  For an interface line of plain fields and peers whose lines
    read back ([dumpable]), and an [int] that reads the decimal numbers,
    parsing the text of the dump gives the peer dictionaries the agent
    works with, in the order of the interface: a handshake of 0 becomes
    [None], [(none)] becomes [None], and the allowed IPs are split at the
    commas. *)
Theorem get_wg_peers_reads_the_dump
    (py_int : string -> option Z) (interface_fields : list string)
    (keepalive : Agent.WgPeer.t -> string) (m : Agent.machine)
    (Hint : forall n, 0 <= n -> py_int (pretty n) = Some n)
    (Hfields : interface_fields <> [])
    (Hplain : Forall (fun f => plain f = true) interface_fields)
    (Hpeers : forallb (Agent.dumpable keepalive) (Agent.interface m) = true) :
  Agent.get_wg_peers_of py_int
    (Agent.Stdout
       (Agent.wg_show_dump (join (String TAB "") interface_fields) keepalive m))
  = inr (Agent.get_wg_peers m).
Proof.
  unfold Agent.get_wg_peers_of, Agent.wg_show_dump, Agent.get_wg_peers.
  set (lines := join (String TAB "") interface_fields
                :: map (fun p => Agent.dump_line (keepalive p) p) (Agent.interface m)).
  assert (Hrows : Forall (fun row => trimmed row /\ has_char LF row = false) lines).
  { subst lines. constructor.
    - split.
      + apply trimmed_join; [exact Hfields|].
        eapply List.Forall_impl; [|exact Hplain]. intros f. apply plain_trimmed.
      + apply has_char_join; [reflexivity|].
        eapply List.Forall_impl; [|exact Hplain]. intros f. apply plain_no_char.
        reflexivity.
    - apply Forall_map. rewrite forallb_forall in Hpeers.
      apply List.Forall_forall. intros p Hp. apply (dump_line_row py_int Hint). apply Hpeers, Hp. }
  rewrite strip_trimmed_line.
  - rewrite str_split_join.
    + subst lines. cbn [tail]. apply peers_of_dump_lines; assumption.
    + subst lines. discriminate.
    + eapply List.Forall_impl; [|exact Hrows]. intros row [_ H]. exact H.
  - apply trimmed_join; [subst lines; discriminate|].
    eapply List.Forall_impl; [|exact Hrows]. intros row [H _]. exact H.
Qed.

(** The dump of gw-paris, read with [Sample.int]. *)
Lemma get_wg_peers_reads_the_dump_witness :
  Agent.get_wg_peers_of Sample.int
    (Agent.Stdout
       (Agent.wg_show_dump (join (String TAB "") Sample.interface_fields)
          Sample.keepalive Sample.paris_cycle_1))
  = inr (Agent.get_wg_peers Sample.paris_cycle_1).
Proof.
  apply (get_wg_peers_reads_the_dump Sample.int Sample.interface_fields Sample.keepalive
           Sample.paris_cycle_1).
  - exact int_pretty.
  - discriminate.
  - repeat constructor.
  - reflexivity.
Defined.

(** X20: one line that does not read spoils the whole reading.  When a
    peer line of the dump has at least five fields and a handshake field
    that is neither [0] nor an integer, [get_wg_peers] ends in
    [ValueError], whatever the other lines are: the error is not among
    those the function catches. *)
Theorem get_wg_peers_raises_on_a_garbled_line
    (py_int : string -> option Z) (stdout line handshake : string)
    (Hline : In line (tail (str_split LF (strip stdout))))
    (Hfield : str_split TAB line !! 4%nat = Some handshake)
    (Hzero : handshake <> "0")
    (Hint : py_int handshake = None) :
  Agent.get_wg_peers_of py_int (Agent.Stdout stdout) = inl Agent.ValueError.
Proof.
  unfold Agent.get_wg_peers_of.
  induction (tail (str_split LF (strip stdout))) as [|l lines IH]; [destruct Hline|].
  cbn [Agent.peers_of_lines].
  assert (Herr : forall parts, Agent.peer_of_parts py_int parts = inl Agent.ValueError
                               \/ exists peer, Agent.peer_of_parts py_int parts = inr peer).
  { intros parts. unfold Agent.peer_of_parts.
    repeat (match goal with
            | |- context [match ?x with _ => _ end] => destruct x
            end; cbn [fmap option_fmap option_map]);
      first [left; reflexivity | right; eexists; reflexivity]. }
  destruct Hline as [->|Hline].
  - assert (Hlen : (5 <=? length (str_split TAB line))%nat = true).
    { apply Nat.leb_le. apply lookup_lt_Some in Hfield. lia. }
    rewrite Hlen. unfold Agent.peer_of_parts. rewrite Hfield. cbn [default]. unfold id.
    rewrite bool_decide_eq_false_2 by exact Hzero. rewrite Hint. reflexivity.
  - rewrite (IH Hline).
    destruct (5 <=? length (str_split TAB l))%nat; [|reflexivity].
    destruct (Herr (str_split TAB l)) as [->|[peer ->]]; reflexivity.
Qed.

(** The handshake of Bob is the word never. *)
Lemma get_wg_peers_raises_on_a_garbled_line_witness :
  Agent.get_wg_peers_of Sample.int (Agent.Stdout Sample.garbled_dump)
  = inl Agent.ValueError.
Proof.
  apply (get_wg_peers_raises_on_a_garbled_line Sample.int Sample.garbled_dump
           (join (String TAB "")
              [Sample.key_bob; "(none)"; "(none)"; "10.66.66.3/32"; "never"; "0"; "0"; "25"])
           "never").
  - vm_compute. right. left. reflexivity.
  - vm_compute. reflexivity.
  - discriminate.
  - reflexivity.
Defined.

(** ** The public key of the gateway *)




(** ** From the registry to the interface *)

Lemma pull_lists (GATEWAY_TOKENS : gmap string string) (gateway_id gateway_token : string)
    (d : Registry.db) (server : Registry.Server.row) (row : Registry.Peer.row) :
  Registry.verify_gateway_token GATEWAY_TOKENS gateway_id gateway_token
  = Registry.Ok gateway_id ->
  List.find (fun s => Registry.eqs (Registry.Server.hostname s) gateway_id)
            (Registry.vpn_servers d) = Some server ->
  In row (Registry.vpn_peers d) ->
  Registry.Peer.server_id row = Registry.Server.id server ->
  In (Agent.of_pulled (Registry.pulled row))
     (Agent.fetch_peer_configs (Fleet.pull GATEWAY_TOKENS gateway_id gateway_token d)).
Proof.
  intros Hauth Hserver Hrow Hsid.
  destruct (get_gateway_peers_lists gateway_id d server row Hserver Hrow Hsid)
    as (peers & Hpull & Hin).
  unfold Fleet.pull, Registry.gateway_endpoint, Registry.bind, Registry.lift.
  rewrite Hauth, Hpull. cbn [fst Agent.fetch_peer_configs default]. unfold id.
  apply in_map. exact Hin.
Qed.

(** X22: a disabled peer leaves the interface at the next cycle.  For a
    peer of the gateway that is on its interface, once [disable_config]
    has run, the gateway's pull lists the peer with [enabled] false and
    [sync_configs] removes it. *)
Theorem disabled_peer_leaves_the_interface
    (wg_accepts : string -> list string -> bool)
    (GATEWAY_TOKENS : gmap string string)
    (gateway_id gateway_token ADMIN_API_KEY peer_id : string)
    (d : Registry.db) (m : Agent.machine)
    (server : Registry.Server.row) (p : Registry.Peer.row)
    (Hauth : Registry.verify_gateway_token GATEWAY_TOKENS gateway_id gateway_token
             = Registry.Ok gateway_id)
    (Hserver : List.find (fun s => Registry.eqs (Registry.Server.hostname s) gateway_id)
                         (Registry.vpn_servers d) = Some server)
    (Hp : In p (Registry.vpn_peers d))
    (Hid : Registry.Peer.id p = peer_id)
    (Hsid : Registry.Peer.server_id p = Registry.Server.id server)
    (Hlocal : Agent.has_peer (Registry.Peer.public_key p) (Agent.interface m) = true) :
  let d' := (Registry.disable_config ADMIN_API_KEY peer_id ADMIN_API_KEY d).2 in
  Agent.has_peer (Registry.Peer.public_key p)
    (Agent.interface
       (Agent.sync_configs wg_accepts
          (Fleet.pull GATEWAY_TOKENS gateway_id gateway_token d') m))
  = false.
Proof.
  intros d'. subst d'. rewrite disable_config_run. cbn [snd].
  set (f := fun r => if Registry.eqs (Registry.Peer.id r) peer_id
                     then Registry.Peer.set_enabled false r else r).
  set (d' := Registry.with_peers (map f (Registry.vpn_peers d)) d).
  assert (Hrow : In (Registry.Peer.set_enabled false p) (Registry.vpn_peers d')).
  { subst d'. cbn [Registry.vpn_peers Registry.with_peers].
    replace (Registry.Peer.set_enabled false p) with (f p)
      by (unfold f; rewrite eqs_eq by exact Hid; reflexivity).
    apply in_map. exact Hp. }
  pose proof (pull_lists GATEWAY_TOKENS gateway_id gateway_token d' server
                (Registry.Peer.set_enabled false p) Hauth Hserver Hrow Hsid) as Hlisted.
  unfold Agent.sync_configs. apply fold_sync_removed.
  - intros Hnone. apply local_peers_lookup_None in Hnone.
    apply has_peer_true in Hlocal. apply Hlocal. exact Hnone.
  - left. eexists. split; [exact Hlisted|]. split; reflexivity.
Qed.

(** Alice, revoked, on the interface of gw-paris. *)
Lemma disabled_peer_leaves_the_interface_witness :
  Agent.has_peer Sample.key_alice
    (Agent.interface
       (Agent.sync_configs Sample.wg_accepts
          (Fleet.pull Sample.tokens "gw-paris" "s3cret-paris"
             (Registry.disable_config "admin-key" "peer-1" "admin-key"
                Sample.three_peers).2)
          Sample.paris_cycle_1))
  = false.
Proof.
  apply (disabled_peer_leaves_the_interface Sample.wg_accepts Sample.tokens
           "gw-paris" "s3cret-paris" "admin-key" "peer-1" Sample.three_peers
           Sample.paris_cycle_1 Sample.paris Sample.alice).
  - reflexivity.
  - vm_compute. reflexivity.
  - vm_compute. auto.
  - reflexivity.
  - reflexivity.
  - reflexivity.
Defined.

(** X23: a created peer reaches the interface at the next cycle.  When
    [create_peer] has succeeded for a gateway, the gateway's pull lists
    the peer, and [sync_configs] puts its public key on an interface that
    did not have it, provided [wg] accepts the key and the allowed IPs. *)
Theorem created_peer_reaches_the_interface
    (wg_accepts : string -> list string -> bool)
    (peer_constraints : list Registry.Peer.row -> Registry.Peer.row -> bool)
    (GATEWAY_TOKENS : gmap string string) (gateway_id gateway_token : string)
    (peer : Registry.PeerCreate.t) (utcnow : Z) (token_urlsafe fresh_id : string)
    (d d' : Registry.db) (response : string * string * string) (m : Agent.machine)
    (Hauth : Registry.verify_gateway_token GATEWAY_TOKENS gateway_id gateway_token
             = Registry.Ok gateway_id)
    (Hcreate : Registry.gateway_endpoint GATEWAY_TOKENS gateway_id gateway_token
                 (fun gateway_id =>
                    Registry.create_peer peer_constraints peer gateway_id utcnow
                      token_urlsafe fresh_id) d
               = (Registry.Ok response, d'))
    (Hlocal : Agent.has_peer (Registry.PeerCreate.public_key peer) (Agent.interface m)
              = false)
    (Haccepts : wg_accepts (Registry.PeerCreate.public_key peer)
                           (Registry.PeerCreate.allowed_ips peer) = true) :
  Agent.has_peer (Registry.PeerCreate.public_key peer)
    (Agent.interface
       (Agent.sync_configs wg_accepts
          (Fleet.pull GATEWAY_TOKENS gateway_id gateway_token d') m))
  = true.
Proof.
  unfold Registry.gateway_endpoint, Registry.bind, Registry.lift in Hcreate.
  rewrite Hauth in Hcreate. destruct response as [[peer_id assigned_ip] client_token].
  destruct (create_peer_row _ _ _ _ _ _ _ _ _ _ _ Hcreate)
    as (server & row & Hserver & -> & _ & _ & Hsid & Hkey & Hips & _ & Hen).
  assert (Hlisted :
    In (Agent.of_pulled (Registry.pulled row))
       (Agent.fetch_peer_configs
          (Fleet.pull GATEWAY_TOKENS gateway_id gateway_token
             (Registry.with_peers (Registry.vpn_peers d ++ [row]) d)))).
  { apply (pull_lists _ _ _ _ server row Hauth).
    - exact Hserver.
    - cbn [Registry.vpn_peers Registry.with_peers]. apply in_or_app. right. left.
      reflexivity.
    - exact Hsid. }
  unfold Agent.sync_configs. apply fold_sync_added.
  - apply local_peers_lookup_None. apply has_peer_false. exact Hlocal.
  - left. eexists. split; [exact Hlisted|].
    unfold Agent.of_pulled, Registry.pulled, Agent.get_enabled.
    cbn [Agent.PeerDict.public_key Agent.PeerDict.allowed_ips Agent.PeerDict.enabled
         Registry.PulledPeer.public_key Registry.PulledPeer.allowed_ips
         Registry.PulledPeer.enabled default].
    unfold id. rewrite Hkey, Hips, Hen. repeat split. exact Haccepts.
Qed.

(** Dave, created on gw-paris. *)
Lemma created_peer_reaches_the_interface_witness :
  Agent.has_peer Sample.key_dave
    (Agent.interface
       (Agent.sync_configs Sample.wg_accepts
          (Fleet.pull Sample.tokens "gw-paris" "s3cret-paris"
             (Registry.create_peer Sample.unconstrained
                (Sample.peer_request "dave" Sample.key_dave None)
                "gw-paris" 3000 "tok-dave" "peer-4" Sample.three_peers).2)
          Sample.paris_cycle_1))
  = true.
Proof.
  apply (created_peer_reaches_the_interface Sample.wg_accepts Sample.unconstrained
           Sample.tokens "gw-paris" "s3cret-paris"
           (Sample.peer_request "dave" Sample.key_dave None) 3000 "tok-dave" "peer-4"
           Sample.three_peers _ ("peer-4", "10.66.66.4", "tok-dave")).
  - reflexivity.
  - vm_compute. reflexivity.
  - reflexivity.
  - reflexivity.
Defined.

(** ** Registration by the agent *)



